(** * 2nd-Brain-Auto AI service: classification dispatch, parsing, store

    A shallow embedding of [ai-service/main.py], [ai-service/db_utils.py]
    and [ai-service/database.py].

    Conventions of the embedding.
    - A Python [str] is a Rocq [string] holding its UTF-8 bytes.
      [str.lower] and [str.split] read the code points of the text and
      follow the tables of Unicode 14.0.0, the version of CPython 3.11.
    - A str that holds a surrogate on its own has no UTF-8 form and is
      outside the model.
    - A Python [float] is written as an exact rational ([Q]) or is one of
      the non-finite values: [Finite q] stands for the binary64 value
      nearest to [q], and the arithmetic of floats rounds to binary64
      ([Py.double]).  The sign of a zero is outside the model.
    - Code that talks to the outside (the model providers, the PostgreSQL
      session, the clock) runs in a state-and-exception monad over a
      [World] which scripts what the outside will answer. *)

From Stdlib Require Import String Ascii List ZArith QArith Bool Lia Arith.
Import ListNotations.

Local Open Scope string_scope.
Local Open Scope Z_scope.

(** ** The characters of Unicode

    The tables of Unicode 14.0.0 that [str.lower] and [str.split] read, as
    CPython 3.11 holds them.  A code point is a number. *)

Module Unicode.

(** The simple lower-case mappings: of the code points from [first] to
    [last] that are a multiple of [step] away from [first], each is
    mapped to the code point [offset] further. *)
Definition lower_ranges : list (Z * Z * Z * Z) :=
  [
   (65, 90, 1, 32); (192, 214, 1, 32); (216, 222, 1, 32);
   (256, 302, 2, 1); (306, 310, 2, 1); (313, 327, 2, 1);
   (330, 374, 2, 1); (376, 376, 1, -121); (377, 381, 2, 1);
   (385, 385, 1, 210); (386, 388, 2, 1); (390, 390, 1, 206);
   (391, 391, 1, 1); (393, 394, 1, 205); (395, 395, 1, 1);
   (398, 398, 1, 79); (399, 399, 1, 202); (400, 400, 1, 203);
   (401, 401, 1, 1); (403, 403, 1, 205); (404, 404, 1, 207);
   (406, 406, 1, 211); (407, 407, 1, 209); (408, 408, 1, 1);
   (412, 412, 1, 211); (413, 413, 1, 213); (415, 415, 1, 214);
   (416, 420, 2, 1); (422, 422, 1, 218); (423, 423, 1, 1);
   (425, 425, 1, 218); (428, 428, 1, 1); (430, 430, 1, 218);
   (431, 431, 1, 1); (433, 434, 1, 217); (435, 437, 2, 1);
   (439, 439, 1, 219); (440, 440, 1, 1); (444, 444, 1, 1);
   (452, 452, 1, 2); (453, 453, 1, 1); (455, 455, 1, 2);
   (456, 456, 1, 1); (458, 458, 1, 2); (459, 475, 2, 1);
   (478, 494, 2, 1); (497, 497, 1, 2); (498, 500, 2, 1);
   (502, 502, 1, -97); (503, 503, 1, -56); (504, 542, 2, 1);
   (544, 544, 1, -130); (546, 562, 2, 1); (570, 570, 1, 10795);
   (571, 571, 1, 1); (573, 573, 1, -163); (574, 574, 1, 10792);
   (577, 577, 1, 1); (579, 579, 1, -195); (580, 580, 1, 69);
   (581, 581, 1, 71); (582, 590, 2, 1); (880, 882, 2, 1);
   (886, 886, 1, 1); (895, 895, 1, 116); (902, 902, 1, 38);
   (904, 906, 1, 37); (908, 908, 1, 64); (910, 911, 1, 63);
   (913, 929, 1, 32); (932, 939, 1, 32); (975, 975, 1, 8);
   (984, 1006, 2, 1); (1012, 1012, 1, -60); (1015, 1015, 1, 1);
   (1017, 1017, 1, -7); (1018, 1018, 1, 1); (1021, 1023, 1, -130);
   (1024, 1039, 1, 80); (1040, 1071, 1, 32); (1120, 1152, 2, 1);
   (1162, 1214, 2, 1); (1216, 1216, 1, 15); (1217, 1229, 2, 1);
   (1232, 1326, 2, 1); (1329, 1366, 1, 48); (4256, 4293, 1, 7264);
   (4295, 4295, 1, 7264); (4301, 4301, 1, 7264); (5024, 5103, 1, 38864);
   (5104, 5109, 1, 8); (7312, 7354, 1, -3008); (7357, 7359, 1, -3008);
   (7680, 7828, 2, 1); (7838, 7838, 1, -7615); (7840, 7934, 2, 1);
   (7944, 7951, 1, -8); (7960, 7965, 1, -8); (7976, 7983, 1, -8);
   (7992, 7999, 1, -8); (8008, 8013, 1, -8); (8025, 8031, 2, -8);
   (8040, 8047, 1, -8); (8072, 8079, 1, -8); (8088, 8095, 1, -8);
   (8104, 8111, 1, -8); (8120, 8121, 1, -8); (8122, 8123, 1, -74);
   (8124, 8124, 1, -9); (8136, 8139, 1, -86); (8140, 8140, 1, -9);
   (8152, 8153, 1, -8); (8154, 8155, 1, -100); (8168, 8169, 1, -8);
   (8170, 8171, 1, -112); (8172, 8172, 1, -7); (8184, 8185, 1, -128);
   (8186, 8187, 1, -126); (8188, 8188, 1, -9); (8486, 8486, 1, -7517);
   (8490, 8490, 1, -8383); (8491, 8491, 1, -8262); (8498, 8498, 1, 28);
   (8544, 8559, 1, 16); (8579, 8579, 1, 1); (9398, 9423, 1, 26);
   (11264, 11311, 1, 48); (11360, 11360, 1, 1); (11362, 11362, 1, -10743);
   (11363, 11363, 1, -3814); (11364, 11364, 1, -10727); (11367, 11371, 2, 1);
   (11373, 11373, 1, -10780); (11374, 11374, 1, -10749); (11375, 11375, 1, -10783);
   (11376, 11376, 1, -10782); (11378, 11378, 1, 1); (11381, 11381, 1, 1);
   (11390, 11391, 1, -10815); (11392, 11490, 2, 1); (11499, 11501, 2, 1);
   (11506, 11506, 1, 1); (42560, 42604, 2, 1); (42624, 42650, 2, 1);
   (42786, 42798, 2, 1); (42802, 42862, 2, 1); (42873, 42875, 2, 1);
   (42877, 42877, 1, -35332); (42878, 42886, 2, 1); (42891, 42891, 1, 1);
   (42893, 42893, 1, -42280); (42896, 42898, 2, 1); (42902, 42920, 2, 1);
   (42922, 42922, 1, -42308); (42923, 42923, 1, -42319); (42924, 42924, 1, -42315);
   (42925, 42925, 1, -42305); (42926, 42926, 1, -42308); (42928, 42928, 1, -42258);
   (42929, 42929, 1, -42282); (42930, 42930, 1, -42261); (42931, 42931, 1, 928);
   (42932, 42946, 2, 1); (42948, 42948, 1, -48); (42949, 42949, 1, -42307);
   (42950, 42950, 1, -35384); (42951, 42953, 2, 1); (42960, 42960, 1, 1);
   (42966, 42968, 2, 1); (42997, 42997, 1, 1); (65313, 65338, 1, 32);
   (66560, 66599, 1, 40); (66736, 66771, 1, 40); (66928, 66938, 1, 39);
   (66940, 66954, 1, 39); (66956, 66962, 1, 39); (66964, 66965, 1, 39);
   (68736, 68786, 1, 64); (71840, 71871, 1, 32); (93760, 93791, 1, 32);
   (125184, 125217, 1, 34)].

(** The code points with the property Case_Ignorable, as ranges. *)
Definition case_ignorable_ranges : list (Z * Z) :=
  [
   (39, 39); (46, 46); (58, 58); (94, 94); (96, 96);
   (168, 168); (173, 173); (175, 175); (180, 180); (183, 184);
   (688, 879); (884, 885); (890, 890); (900, 901); (903, 903);
   (1155, 1161); (1369, 1369); (1375, 1375); (1425, 1469); (1471, 1471);
   (1473, 1474); (1476, 1477); (1479, 1479); (1524, 1524); (1536, 1541);
   (1552, 1562); (1564, 1564); (1600, 1600); (1611, 1631); (1648, 1648);
   (1750, 1757); (1759, 1768); (1770, 1773); (1807, 1807); (1809, 1809);
   (1840, 1866); (1958, 1968); (2027, 2037); (2042, 2042); (2045, 2045);
   (2070, 2093); (2137, 2139); (2184, 2184); (2192, 2193); (2200, 2207);
   (2249, 2306); (2362, 2362); (2364, 2364); (2369, 2376); (2381, 2381);
   (2385, 2391); (2402, 2403); (2417, 2417); (2433, 2433); (2492, 2492);
   (2497, 2500); (2509, 2509); (2530, 2531); (2558, 2558); (2561, 2562);
   (2620, 2620); (2625, 2626); (2631, 2632); (2635, 2637); (2641, 2641);
   (2672, 2673); (2677, 2677); (2689, 2690); (2748, 2748); (2753, 2757);
   (2759, 2760); (2765, 2765); (2786, 2787); (2810, 2815); (2817, 2817);
   (2876, 2876); (2879, 2879); (2881, 2884); (2893, 2893); (2901, 2902);
   (2914, 2915); (2946, 2946); (3008, 3008); (3021, 3021); (3072, 3072);
   (3076, 3076); (3132, 3132); (3134, 3136); (3142, 3144); (3146, 3149);
   (3157, 3158); (3170, 3171); (3201, 3201); (3260, 3260); (3263, 3263);
   (3270, 3270); (3276, 3277); (3298, 3299); (3328, 3329); (3387, 3388);
   (3393, 3396); (3405, 3405); (3426, 3427); (3457, 3457); (3530, 3530);
   (3538, 3540); (3542, 3542); (3633, 3633); (3636, 3642); (3654, 3662);
   (3761, 3761); (3764, 3772); (3782, 3782); (3784, 3789); (3864, 3865);
   (3893, 3893); (3895, 3895); (3897, 3897); (3953, 3966); (3968, 3972);
   (3974, 3975); (3981, 3991); (3993, 4028); (4038, 4038); (4141, 4144);
   (4146, 4151); (4153, 4154); (4157, 4158); (4184, 4185); (4190, 4192);
   (4209, 4212); (4226, 4226); (4229, 4230); (4237, 4237); (4253, 4253);
   (4348, 4348); (4957, 4959); (5906, 5908); (5938, 5939); (5970, 5971);
   (6002, 6003); (6068, 6069); (6071, 6077); (6086, 6086); (6089, 6099);
   (6103, 6103); (6109, 6109); (6155, 6159); (6211, 6211); (6277, 6278);
   (6313, 6313); (6432, 6434); (6439, 6440); (6450, 6450); (6457, 6459);
   (6679, 6680); (6683, 6683); (6742, 6742); (6744, 6750); (6752, 6752);
   (6754, 6754); (6757, 6764); (6771, 6780); (6783, 6783); (6823, 6823);
   (6832, 6862); (6912, 6915); (6964, 6964); (6966, 6970); (6972, 6972);
   (6978, 6978); (7019, 7027); (7040, 7041); (7074, 7077); (7080, 7081);
   (7083, 7085); (7142, 7142); (7144, 7145); (7149, 7149); (7151, 7153);
   (7212, 7219); (7222, 7223); (7288, 7293); (7376, 7378); (7380, 7392);
   (7394, 7400); (7405, 7405); (7412, 7412); (7416, 7417); (7468, 7530);
   (7544, 7544); (7579, 7679); (8125, 8125); (8127, 8129); (8141, 8143);
   (8157, 8159); (8173, 8175); (8189, 8190); (8203, 8207); (8216, 8217);
   (8228, 8228); (8231, 8231); (8234, 8238); (8288, 8292); (8294, 8303);
   (8305, 8305); (8319, 8319); (8336, 8348); (8400, 8432); (11388, 11389);
   (11503, 11505); (11631, 11631); (11647, 11647); (11744, 11775); (11823, 11823);
   (12293, 12293); (12330, 12333); (12337, 12341); (12347, 12347); (12441, 12446);
   (12540, 12542); (40981, 40981); (42232, 42237); (42508, 42508); (42607, 42610);
   (42612, 42621); (42623, 42623); (42652, 42655); (42736, 42737); (42752, 42785);
   (42864, 42864); (42888, 42890); (42994, 42996); (43000, 43001); (43010, 43010);
   (43014, 43014); (43019, 43019); (43045, 43046); (43052, 43052); (43204, 43205);
   (43232, 43249); (43263, 43263); (43302, 43309); (43335, 43345); (43392, 43394);
   (43443, 43443); (43446, 43449); (43452, 43453); (43471, 43471); (43493, 43494);
   (43561, 43566); (43569, 43570); (43573, 43574); (43587, 43587); (43596, 43596);
   (43632, 43632); (43644, 43644); (43696, 43696); (43698, 43700); (43703, 43704);
   (43710, 43711); (43713, 43713); (43741, 43741); (43756, 43757); (43763, 43764);
   (43766, 43766); (43867, 43871); (43881, 43883); (44005, 44005); (44008, 44008);
   (44013, 44013); (64286, 64286); (64434, 64450); (65024, 65039); (65043, 65043);
   (65056, 65071); (65106, 65106); (65109, 65109); (65279, 65279); (65287, 65287);
   (65294, 65294); (65306, 65306); (65342, 65342); (65344, 65344); (65392, 65392);
   (65438, 65439); (65507, 65507); (65529, 65531); (66045, 66045); (66272, 66272);
   (66422, 66426); (67456, 67461); (67463, 67504); (67506, 67514); (68097, 68099);
   (68101, 68102); (68108, 68111); (68152, 68154); (68159, 68159); (68325, 68326);
   (68900, 68903); (69291, 69292); (69446, 69456); (69506, 69509); (69633, 69633);
   (69688, 69702); (69744, 69744); (69747, 69748); (69759, 69761); (69811, 69814);
   (69817, 69818); (69821, 69821); (69826, 69826); (69837, 69837); (69888, 69890);
   (69927, 69931); (69933, 69940); (70003, 70003); (70016, 70017); (70070, 70078);
   (70089, 70092); (70095, 70095); (70191, 70193); (70196, 70196); (70198, 70199);
   (70206, 70206); (70367, 70367); (70371, 70378); (70400, 70401); (70459, 70460);
   (70464, 70464); (70502, 70508); (70512, 70516); (70712, 70719); (70722, 70724);
   (70726, 70726); (70750, 70750); (70835, 70840); (70842, 70842); (70847, 70848);
   (70850, 70851); (71090, 71093); (71100, 71101); (71103, 71104); (71132, 71133);
   (71219, 71226); (71229, 71229); (71231, 71232); (71339, 71339); (71341, 71341);
   (71344, 71349); (71351, 71351); (71453, 71455); (71458, 71461); (71463, 71467);
   (71727, 71735); (71737, 71738); (71995, 71996); (71998, 71998); (72003, 72003);
   (72148, 72151); (72154, 72155); (72160, 72160); (72193, 72202); (72243, 72248);
   (72251, 72254); (72263, 72263); (72273, 72278); (72281, 72283); (72330, 72342);
   (72344, 72345); (72752, 72758); (72760, 72765); (72767, 72767); (72850, 72871);
   (72874, 72880); (72882, 72883); (72885, 72886); (73009, 73014); (73018, 73018);
   (73020, 73021); (73023, 73029); (73031, 73031); (73104, 73105); (73109, 73109);
   (73111, 73111); (73459, 73460); (78896, 78904); (92912, 92916); (92976, 92982);
   (92992, 92995); (94031, 94031); (94095, 94111); (94176, 94177); (94179, 94180);
   (110576, 110579); (110581, 110587); (110589, 110590); (113821, 113822); (113824, 113827);
   (118528, 118573); (118576, 118598); (119143, 119145); (119155, 119170); (119173, 119179);
   (119210, 119213); (119362, 119364); (121344, 121398); (121403, 121452); (121461, 121461);
   (121476, 121476); (121499, 121503); (121505, 121519); (122880, 122886); (122888, 122904);
   (122907, 122913); (122915, 122916); (122918, 122922); (123184, 123197); (123566, 123566);
   (123628, 123631); (125136, 125142); (125252, 125259); (127995, 127999); (917505, 917505);
   (917536, 917631); (917760, 917999)].

(** The code points with the property Cased and without the property
    Case_Ignorable, as ranges. *)
Definition cased_ranges : list (Z * Z) :=
  [
   (65, 90); (97, 122); (170, 170); (181, 181); (186, 186);
   (192, 214); (216, 246); (248, 442); (444, 447); (452, 659);
   (661, 687); (880, 883); (886, 887); (891, 893); (895, 895);
   (902, 902); (904, 906); (908, 908); (910, 929); (931, 1013);
   (1015, 1153); (1162, 1327); (1329, 1366); (1376, 1416); (4256, 4293);
   (4295, 4295); (4301, 4301); (4304, 4346); (4349, 4351); (5024, 5109);
   (5112, 5117); (7296, 7304); (7312, 7354); (7357, 7359); (7424, 7467);
   (7531, 7543); (7545, 7578); (7680, 7957); (7960, 7965); (7968, 8005);
   (8008, 8013); (8016, 8023); (8025, 8025); (8027, 8027); (8029, 8029);
   (8031, 8061); (8064, 8116); (8118, 8124); (8126, 8126); (8130, 8132);
   (8134, 8140); (8144, 8147); (8150, 8155); (8160, 8172); (8178, 8180);
   (8182, 8188); (8450, 8450); (8455, 8455); (8458, 8467); (8469, 8469);
   (8473, 8477); (8484, 8484); (8486, 8486); (8488, 8488); (8490, 8493);
   (8495, 8500); (8505, 8505); (8508, 8511); (8517, 8521); (8526, 8526);
   (8544, 8575); (8579, 8580); (9398, 9449); (11264, 11387); (11390, 11492);
   (11499, 11502); (11506, 11507); (11520, 11557); (11559, 11559); (11565, 11565);
   (42560, 42605); (42624, 42651); (42786, 42863); (42865, 42887); (42891, 42894);
   (42896, 42954); (42960, 42961); (42963, 42963); (42965, 42969); (42997, 42998);
   (43002, 43002); (43824, 43866); (43872, 43880); (43888, 43967); (64256, 64262);
   (64275, 64279); (65313, 65338); (65345, 65370); (66560, 66639); (66736, 66771);
   (66776, 66811); (66928, 66938); (66940, 66954); (66956, 66962); (66964, 66965);
   (66967, 66977); (66979, 66993); (66995, 67001); (67003, 67004); (68736, 68786);
   (68800, 68850); (71840, 71903); (93760, 93823); (119808, 119892); (119894, 119964);
   (119966, 119967); (119970, 119970); (119973, 119974); (119977, 119980); (119982, 119993);
   (119995, 119995); (119997, 120003); (120005, 120069); (120071, 120074); (120077, 120084);
   (120086, 120092); (120094, 120121); (120123, 120126); (120128, 120132); (120134, 120134);
   (120138, 120144); (120146, 120485); (120488, 120512); (120514, 120538); (120540, 120570);
   (120572, 120596); (120598, 120628); (120630, 120654); (120656, 120686); (120688, 120712);
   (120714, 120744); (120746, 120770); (120772, 120779); (122624, 122633); (122635, 122654);
   (125184, 125251); (127280, 127305); (127312, 127337); (127344, 127369)].

Definition in_ranges (c : Z) (ranges : list (Z * Z)) : bool :=
  existsb (fun r => (fst r <=? c) && (c <=? snd r)) ranges.

Definition case_ignorable (c : Z) : bool := in_ranges c case_ignorable_ranges.

Definition cased (c : Z) : bool := in_ranges c cased_ranges.

Definition in_lower_range (c : Z) (r : Z * Z * Z * Z) : bool :=
  let '(first, last, step, _) := r in
  (first <=? c) && (c <=? last) && ((c - first) mod step =? 0).

(** The lower-case form of a code point other than the capital sigma:
    one code point, but two for the capital I with a dot above. *)
Definition to_lower (c : Z) : list Z :=
  if c =? 304 then [105; 775]
  else
    match find (in_lower_range c) lower_ranges with
    | Some (_, _, _, offset) => [c + offset]
    | None => [c]
    end.

(** White space, for [str.split] and [str.isspace]. *)
Definition is_space (c : Z) : bool :=
  in_ranges c
    [(9, 13); (28, 32); (133, 133); (160, 160); (5760, 5760); (8192, 8202);
     (8232, 8233); (8239, 8239); (8287, 8287); (12288, 12288)].

End Unicode.

(** ** Strings *)

Module Str.

(** The double quote character, and a helper to write texts that contain
    it: in [qq s] every apostrophe of [s] stands for a double quote. *)
Definition dquote : ascii := ascii_of_nat 34.

Fixpoint qq (s : string) : string :=
  match s with
  | EmptyString => EmptyString
  | String c r => String (if Ascii.eqb c "'" then dquote else c) (qq r)
  end.

(** A capital letter of ASCII, and the lower-case form of a character of
    ASCII: what PostgreSQL compares the word [NULL] with. *)
Definition is_upper (c : ascii) : bool :=
  (65 <=? nat_of_ascii c)%nat && (nat_of_ascii c <=? 90)%nat.

Definition lower_char (c : ascii) : ascii :=
  if is_upper c then ascii_of_nat (nat_of_ascii c + 32) else c.

(** The bytes of a text as numbers, and back. *)
Definition byte (c : ascii) : Z := Z.of_nat (nat_of_ascii c).

Definition char (n : Z) : ascii := ascii_of_nat (Z.to_nat n).

(** The UTF-8 bytes of a code point. *)
Definition utf8 (c : Z) : string :=
  if c <? 128 then String (char c) EmptyString
  else if c <? 2048 then
    String (char (192 + c / 64)) (String (char (128 + c mod 64)) EmptyString)
  else if c <? 65536 then
    String (char (224 + c / 4096))
      (String (char (128 + (c / 64) mod 64))
         (String (char (128 + c mod 64)) EmptyString))
  else
    String (char (240 + c / 262144))
      (String (char (128 + (c / 4096) mod 64))
         (String (char (128 + (c / 64) mod 64))
            (String (char (128 + c mod 64)) EmptyString))).

(** The text of a list of code points. *)
Fixpoint encode (l : list Z) : string :=
  match l with
  | [] => EmptyString
  | c :: r => utf8 c ++ encode r
  end.

(** The code points of a text: [acc] holds the bits read of a code point
    of which [more] bytes are still to come. *)
Fixpoint decode_from (acc : Z) (more : nat) (s : string) : list Z :=
  match s with
  | EmptyString => []
  | String b r =>
      let n := byte b in
      match more with
      | O =>
          if n <? 128 then n :: decode_from 0 0 r
          else if n <? 224 then decode_from (n - 192) 1 r
          else if n <? 240 then decode_from (n - 224) 2 r
          else decode_from (n - 240) 3 r
      | S O => (acc * 64 + (n - 128)) :: decode_from 0 0 r
      | S k => decode_from (acc * 64 + (n - 128)) k r
      end
  end.

Definition decode (s : string) : list Z := decode_from 0 0 s.

(** Whether the capital sigma that follows [before], given last code
    point first, comes after a cased letter, case-ignorable code points
    apart. *)
Fixpoint after_cased (before : list Z) : bool :=
  match before with
  | [] => false
  | c :: r => if Unicode.case_ignorable c then after_cased r else Unicode.cased c
  end.

(** Whether no cased letter follows, case-ignorable code points apart. *)
Fixpoint before_uncased (after : list Z) : bool :=
  match after with
  | [] => true
  | c :: r =>
      if Unicode.case_ignorable c then before_uncased r
      else negb (Unicode.cased c)
  end.

(** The lower-case forms of the code points [l] that follow [before]: a
    capital sigma at the end of a word becomes the final sigma. *)
Fixpoint lower_points (before l : list Z) : list Z :=
  match l with
  | [] => []
  | c :: r =>
      (if c =? 931 then
         [if after_cased before && before_uncased r then 962 else 963]
       else Unicode.to_lower c)
      ++ lower_points (c :: before) r
  end.

(** [str.lower()] *)
Definition lower (s : string) : string := encode (lower_points [] (decode s)).


(** [needle in hay] *)
Fixpoint contains (needle hay : string) : bool :=
  prefix needle hay ||
  match hay with
  | EmptyString => false
  | String _ r => contains needle r
  end.

(** What [contains] decides. *)
Definition occurs_in (needle hay : string) : Prop :=
  exists pre post, hay = pre ++ needle ++ post.

(** The maximal runs of code points that are not white space; [cur] is
    the run being read, reversed. *)
Fixpoint split_points (cur : list Z) (l : list Z) : list (list Z) :=
  let flush := match cur with
               | [] => []
               | _ => [rev cur]
               end in
  match l with
  | [] => flush
  | c :: r =>
      if Unicode.is_space c then flush ++ split_points [] r
      else split_points (c :: cur) r
  end.

(** [s.split()] *)
Definition split (s : string) : list string :=
  map encode (split_points [] (decode s)).

(** A byte that continues a UTF-8 sequence ([10xxxxxx]). *)
Definition is_continuation (c : ascii) : bool :=
  let n := nat_of_ascii c in (128 <=? n)%nat && (n <? 192)%nat.

(** [len(s)]: the number of code points. *)
Fixpoint len (s : string) : nat :=
  match s with
  | EmptyString => O
  | String c r => if is_continuation c then len r else S (len r)
  end.

(** The continuation bytes in front of [s], and what follows them. *)
Fixpoint skip_continuation (s : string) : string * string :=
  match s with
  | String c r =>
      if is_continuation c
      then let (a, b) := skip_continuation r in (String c a, b)
      else (EmptyString, s)
  | EmptyString => (EmptyString, EmptyString)
  end.

(** [s[:n]]: the first [n] code points. *)
Fixpoint take (n : nat) (s : string) : string :=
  match n, s with
  | O, _ => EmptyString
  | _, EmptyString => EmptyString
  | S k, String c r =>
      let (cont, _) := skip_continuation r in
      String c (cont ++ take k (snd (skip_continuation r)))
  end.

End Str.

(** ** Python values *)

Inductive pyfloat : Type :=
| Finite (q : Q)
| NaN
| Infinity (negative : bool).

#[local] Set Warnings "-register-all".

(** The values [json.loads] builds, which are also what the ORM attributes
    and the [Dict[str, Any]] arguments hold.  A dict keeps its keys in
    insertion order. *)
Inductive pyval : Type :=
| PNone
| PBool (b : bool)
| PInt (z : Z)
| PFloat (f : pyfloat)
| PStr (s : string)
| PList (l : list pyval)
| PDict (d : list (string * pyval)).

Definition pydict : Type := list (string * pyval).

Module Dict.

(** [d.get(k)] as an option. *)
Fixpoint lookup (k : string) (d : pydict) : option pyval :=
  match d with
  | [] => None
  | (k', v) :: r => if String.eqb k k' then Some v else lookup k r
  end.

(** [d.get(k, default)] *)
Definition get (k : string) (default : pyval) (d : pydict) : pyval :=
  match lookup k d with
  | Some v => v
  | None => default
  end.

(** [d[k] = v]: an existing key keeps its place. *)
Fixpoint set (k : string) (v : pyval) (d : pydict) : pydict :=
  match d with
  | [] => [(k, v)]
  | (k', v') :: r =>
      if String.eqb k k' then (k', v) :: r else (k', v') :: set k v r
  end.

(** [dict(pairs)] *)
Definition of_pairs (l : list (string * pyval)) : pydict :=
  fold_left (fun d kv => set (fst kv) (snd kv) d) l [].

End Dict.

(** ** [json.loads]

    The decoder of the standard library, in its default (strict) mode:
    white space is space, tab, line feed and carriage return; a string may
    not hold a raw control character; the tokens [NaN], [Infinity] and
    [-Infinity] are accepted; a repeated key keeps its last value; anything
    but white space after the value is an error.  [None] stands for the
    [JSONDecodeError]. *)

Module Json.

Definition is_ws (c : ascii) : bool :=
  let n := nat_of_ascii c in
  (n =? 32)%nat || (n =? 9)%nat || (n =? 10)%nat || (n =? 13)%nat.

Fixpoint skip_ws (s : string) : string :=
  match s with
  | String c r => if is_ws c then skip_ws r else s
  | EmptyString => s
  end.

Definition is_digit (c : ascii) : bool :=
  (48 <=? nat_of_ascii c)%nat && (nat_of_ascii c <=? 57)%nat.

Definition digit_val (c : ascii) : Z := Z.of_nat (nat_of_ascii c) - 48.

(** Reads the longest run of digits: its value after [acc], how many
    digits were read, and the rest. *)
Fixpoint digits (acc : Z) (n : nat) (s : string) : Z * nat * string :=
  match s with
  | String c r =>
      if is_digit c then digits (10 * acc + digit_val c) (S n) r
      else (acc, n, s)
  | EmptyString => (acc, n, s)
  end.

(** The integer part, without its sign: [0], or a digit other than [0]
    followed by digits. *)
Definition int_part (s : string) : option (Z * string) :=
  match s with
  | String c r =>
      if Ascii.eqb c "0" then Some (0, r)
      else if is_digit c
           then let '(v, _, r') := digits 0 O s in Some (v, r')
           else None
  | EmptyString => None
  end.

(** The fraction: a dot followed by at least one digit. *)
Definition frac_part (s : string) : option (Z * nat * string) :=
  match s with
  | String "." (String d r) =>
      if is_digit d then Some (digits 0 O (String d r)) else None
  | _ => None
  end.

(** The exponent: [e] or [E], an optional sign, at least one digit. *)
Definition exp_part (s : string) : option (Z * string) :=
  match s with
  | String e r =>
      if Ascii.eqb e "e" || Ascii.eqb e "E" then
        let '(neg, r1) :=
          match r with
          | String "-" r' => (true, r')
          | String "+" r' => (false, r')
          | _ => (false, r)
          end in
        match r1 with
        | String d _ =>
            if is_digit d
            then let '(v, _, r2) := digits 0 O r1 in
                 Some (if neg then - v else v, r2)
            else None
        | EmptyString => None
        end
      else None
  | EmptyString => None
  end.

(** The rational [m / 10^k * 10^e]. *)
Definition decimal (m : Z) (k : nat) (e : Z) : Q :=
  let shift := e - Z.of_nat k in
  if 0 <=? shift then Qmake (m * 10 ^ shift) 1
  else Qmake m (Z.to_pos (10 ^ (- shift))).

Definition parse_number (s : string) : option (pyval * string) :=
  let '(neg, s1) := match s with
                    | String "-" r => (true, r)
                    | _ => (false, s)
                    end in
  match int_part s1 with
  | None => None
  | Some (i, r) =>
      let sign (z : Z) := if neg then - z else z in
      match frac_part r, exp_part r with
      | None, None => Some (PInt (sign i), r)
      | None, Some (e, r') => Some (PFloat (Finite (decimal (sign i) O e)), r')
      | Some (f, k, r'), _ =>
          let m := sign (i * 10 ^ Z.of_nat k + f) in
          match exp_part r' with
          | None => Some (PFloat (Finite (decimal m k 0)), r')
          | Some (e, r'') => Some (PFloat (Finite (decimal m k e)), r'')
          end
      end
  end.

Definition hex_val (c : ascii) : option Z :=
  let n := nat_of_ascii c in
  if is_digit c then Some (digit_val c)
  else if (97 <=? n)%nat && (n <=? 102)%nat then Some (Z.of_nat n - 87)
  else if (65 <=? n)%nat && (n <=? 70)%nat then Some (Z.of_nat n - 55)
  else None.

(** The four hex digits of a unicode escape. *)
Definition hex4 (s : string) : option (Z * string) :=
  match s with
  | String a (String b (String c (String d r))) =>
      match hex_val a, hex_val b, hex_val c, hex_val d with
      | Some x, Some y, Some z, Some w =>
          Some (((x * 16 + y) * 16 + z) * 16 + w, r)
      | _, _, _, _ => None
      end
  | _ => None
  end.

Definition byte (z : Z) : ascii := ascii_of_nat (Z.to_nat z).

(** The UTF-8 bytes of a code point, first byte last (a surrogate that
    stands alone is written in the same three-byte form). *)
Definition utf8_rev (cp : Z) : list ascii :=
  if cp <? 128 then [byte cp]
  else if cp <? 2048 then [byte (128 + cp mod 64); byte (192 + cp / 64)]
  else if cp <? 65536 then
    [byte (128 + cp mod 64); byte (128 + (cp / 64) mod 64);
     byte (224 + cp / 4096)]
  else
    [byte (128 + cp mod 64); byte (128 + (cp / 64) mod 64);
     byte (128 + (cp / 4096) mod 64); byte (240 + cp / 262144)].

Definition simple_escape (c : ascii) : option ascii :=
  let n := nat_of_ascii c in
  if (n =? 34)%nat || (n =? 92)%nat || (n =? 47)%nat then Some c
  else if Ascii.eqb c "b" then Some (ascii_of_nat 8)
  else if Ascii.eqb c "f" then Some (ascii_of_nat 12)
  else if Ascii.eqb c "n" then Some (ascii_of_nat 10)
  else if Ascii.eqb c "r" then Some (ascii_of_nat 13)
  else if Ascii.eqb c "t" then Some (ascii_of_nat 9)
  else None.

(** The text of a string after its opening quote; [acc] holds the decoded
    bytes so far, reversed. *)
Fixpoint scanstring (fuel : nat) (acc : list ascii) (s : string)
  : option (string * string) :=
  match fuel with
  | O => None
  | S fuel' =>
      match s with
      | EmptyString => None
      | String c r =>
          if Ascii.eqb c Str.dquote
          then Some (string_of_list_ascii (rev acc), r)
          else if (nat_of_ascii c <? 32)%nat then None
          else if Ascii.eqb c "\" then
            match r with
            | EmptyString => None
            | String e r1 =>
                match simple_escape e with
                | Some ch => scanstring fuel' (ch :: acc) r1
                | None =>
                    if Ascii.eqb e "u" then
                      match hex4 r1 with
                      | None => None
                      | Some (u, r2) =>
                          let single := scanstring fuel' (utf8_rev u ++ acc) r2 in
                          if (55296 <=? u) && (u <=? 56319) then
                            match r2 with
                            | String "\" (String "u" r3) =>
                                match hex4 r3 with
                                | Some (u2, r4) =>
                                    if (56320 <=? u2) && (u2 <=? 57343)
                                    then scanstring fuel'
                                           (utf8_rev (65536 + (u - 55296) * 1024
                                                      + (u2 - 56320)) ++ acc) r4
                                    else single
                                | None => single
                                end
                            | _ => single
                            end
                          else single
                      end
                    else None
                end
            end
          else scanstring fuel' (c :: acc) r
      end
  end.

Fixpoint drop (n : nat) (s : string) : string :=
  match n, s with
  | S k, String _ r => drop k r
  | _, _ => s
  end.

(** A literal token [tok] read off the front of [s]. *)
Definition token (tok : string) (v : pyval) (s : string)
  : option (pyval * string) :=
  if prefix tok s then Some (v, drop (String.length tok) s) else None.

Definition first_of {A} (a b : option A) : option A :=
  match a with Some _ => a | None => b end.

(** [scan_once], with [JSONObject] and [JSONArray].  [members] starts at
    the quote of a key, [elements] at a value. *)
Fixpoint value (fuel : nat) (s : string) : option (pyval * string) :=
  match fuel with
  | O => None
  | S fuel' =>
      match s with
      | EmptyString => None
      | String c r =>
          if Ascii.eqb c Str.dquote then
            match scanstring (String.length r) [] r with
            | Some (t, r') => Some (PStr t, r')
            | None => None
            end
          else if Ascii.eqb c "{" then
            match skip_ws r with
            | String c' r' =>
                if Ascii.eqb c' "}" then Some (PDict [], r')
                else members fuel' [] (String c' r')
            | EmptyString => None
            end
          else if Ascii.eqb c "[" then
            match skip_ws r with
            | String c' r' =>
                if Ascii.eqb c' "]" then Some (PList [], r')
                else elements fuel' [] (String c' r')
            | EmptyString => None
            end
          else
            first_of (token "null" PNone s)
           (first_of (token "true" (PBool true) s)
           (first_of (token "false" (PBool false) s)
           (first_of (parse_number s)
           (first_of (token "NaN" (PFloat NaN) s)
           (first_of (token "Infinity" (PFloat (Infinity false)) s)
                     (token "-Infinity" (PFloat (Infinity true)) s))))))
      end
  end
with members (fuel : nat) (acc : pydict) (s : string)
  : option (pyval * string) :=
  match fuel with
  | O => None
  | S fuel' =>
      match s with
      | String c r =>
          if Ascii.eqb c Str.dquote then
            match scanstring (String.length r) [] r with
            | None => None
            | Some (k, r1) =>
                match skip_ws r1 with
                | String ":" r2 =>
                    match value fuel' (skip_ws r2) with
                    | None => None
                    | Some (v, r3) =>
                        match skip_ws r3 with
                        | String "}" r4 => Some (PDict (Dict.set k v acc), r4)
                        | String "," r4 =>
                            members fuel' (Dict.set k v acc) (skip_ws r4)
                        | _ => None
                        end
                    end
                | _ => None
                end
            end
          else None
      | EmptyString => None
      end
  end
with elements (fuel : nat) (acc : list pyval) (s : string)
  : option (pyval * string) :=
  match fuel with
  | O => None
  | S fuel' =>
      match value fuel' s with
      | None => None
      | Some (v, r) =>
          match skip_ws r with
          | String "]" r' => Some (PList (rev (v :: acc)), r')
          | String "," r' => elements fuel' (v :: acc) (skip_ws r')
          | _ => None
          end
      end
  end.

(** [json.loads(s)].  The fuel bounds the depth of the calls; each call
    below another one comes after at least one more character of the
    text. *)
Definition loads (s : string) : option pyval :=
  match value (2 + 2 * String.length s) (skip_ws s) with
  | Some (v, r) =>
      match skip_ws r with
      | EmptyString => Some v
      | _ => None
      end
  | None => None
  end.

End Json.

(** ** [hashlib.sha256]

    FIPS 180-4 on 32-bit words held in [Z], each sum reduced modulo
    [2^32]. *)

Module Sha256.

Definition word (x : Z) : Z := x mod 2 ^ 32.

Definition add (x y : Z) : Z := word (x + y).

Definition rotr (n x : Z) : Z :=
  Z.lor (Z.shiftr x n) (word (Z.shiftl x (32 - n))).

Definition Ch (x y z : Z) : Z :=
  Z.lxor (Z.land x y) (Z.land (Z.lnot x) z).

Definition Maj (x y z : Z) : Z :=
  Z.lxor (Z.lxor (Z.land x y) (Z.land x z)) (Z.land y z).

Definition Sigma0 (x : Z) : Z :=
  Z.lxor (Z.lxor (rotr 2 x) (rotr 13 x)) (rotr 22 x).

Definition Sigma1 (x : Z) : Z :=
  Z.lxor (Z.lxor (rotr 6 x) (rotr 11 x)) (rotr 25 x).

Definition sigma0 (x : Z) : Z :=
  Z.lxor (Z.lxor (rotr 7 x) (rotr 18 x)) (Z.shiftr x 3).

Definition sigma1 (x : Z) : Z :=
  Z.lxor (Z.lxor (rotr 17 x) (rotr 19 x)) (Z.shiftr x 10).

Definition K : list Z :=
  [1116352408; 1899447441; 3049323471; 3921009573; 961987163; 1508970993;
   2453635748; 2870763221; 3624381080; 310598401; 607225278; 1426881987;
   1925078388; 2162078206; 2614888103; 3248222580; 3835390401; 4022224774;
   264347078; 604807628; 770255983; 1249150122; 1555081692; 1996064986;
   2554220882; 2821834349; 2952996808; 3210313671; 3336571891; 3584528711;
   113926993; 338241895; 666307205; 773529912; 1294757372; 1396182291;
   1695183700; 1986661051; 2177026350; 2456956037; 2730485921; 2820302411;
   3259730800; 3345764771; 3516065817; 3600352804; 4094571909; 275423344;
   430227734; 506948616; 659060556; 883997877; 958139571; 1322822218;
   1537002063; 1747873779; 1955562222; 2024104815; 2227730452; 2361852424;
   2428436474; 2756734187; 3204031479; 3329325298].

Definition H0 : list Z :=
  [1779033703; 3144134277; 1013904242; 2773480762;
   1359893119; 2600822924; 528734635; 1541459225].

(** [n] as [k] big-endian bytes. *)
Fixpoint big_endian (k : nat) (n : Z) : list Z :=
  match k with
  | O => []
  | S k' => (n / 256 ^ Z.of_nat k') mod 256 :: big_endian k' n
  end.

(** The message, a [1] bit, zeros up to 56 modulo 64, the bit length. *)
Definition pad (msg : list Z) : list Z :=
  let n := Z.of_nat (List.length msg) in
  msg ++ [128] ++ repeat 0 (Z.to_nat ((55 - n) mod 64)) ++ big_endian 8 (8 * n).

(** Big-endian 32-bit words of a byte list. *)
Fixpoint words (fuel : nat) (l : list Z) : list Z :=
  match fuel, l with
  | S f, a :: b :: c :: d :: r =>
      (((a * 256 + b) * 256 + c) * 256 + d) :: words f r
  | _, _ => []
  end.

(** The message schedule, newest word first: [rev_w] holds
    [W(t-1), W(t-2), ...] and [extend k] adds [k] more words. *)
Fixpoint extend (k : nat) (rev_w : list Z) : list Z :=
  match k with
  | O => rev_w
  | S k' =>
      let w := add (add (sigma1 (nth 1 rev_w 0)) (nth 6 rev_w 0))
                   (add (sigma0 (nth 14 rev_w 0)) (nth 15 rev_w 0)) in
      extend k' (w :: rev_w)
  end.

Definition schedule (block : list Z) : list Z :=
  rev (extend 48 (rev block)).

Definition round (st : list Z) (kw : Z * Z) : list Z :=
  match st with
  | [a; b; c; d; e; f; g; h] =>
      let t1 := add (add (add h (Sigma1 e)) (add (Ch e f g) (fst kw))) (snd kw) in
      let t2 := add (Sigma0 a) (Maj a b c) in
      [add t1 t2; a; b; c; add d t1; e; f; g]
  | _ => st
  end.

Definition compress (h : list Z) (block : list Z) : list Z :=
  map (fun p => add (fst p) (snd p))
      (combine h (fold_left round (combine K (schedule block)) h)).

Fixpoint blocks (fuel : nat) (ws : list Z) : list (list Z) :=
  match fuel, ws with
  | S f, _ :: _ => firstn 16 ws :: blocks f (skipn 16 ws)
  | _, _ => []
  end.

Definition digest (msg : list Z) : list Z :=
  let ws := words (List.length (pad msg)) (pad msg) in
  fold_left compress (blocks (List.length ws) ws) H0.

Definition hex_digit (n : Z) : ascii :=
  ascii_of_nat (Z.to_nat (if n <? 10 then 48 + n else 87 + n)).

Fixpoint hex (k : nat) (n : Z) : string :=
  match k with
  | O => EmptyString
  | S k' => String (hex_digit ((n / 16 ^ Z.of_nat k') mod 16)) (hex k' n)
  end.

(** [hashlib.sha256(data).hexdigest()] *)
Definition hexdigest (data : string) : string :=
  String.concat EmptyString
    (map (hex 8)
         (digest (map (fun c => Z.of_nat (nat_of_ascii c))
                      (list_ascii_of_string data)))).

End Sha256.

(** [database.generate_content_hash]: [content.encode('utf-8')] is the
    string itself in this embedding. *)
Definition generate_content_hash (content : string) : string :=
  Sha256.hexdigest content.

(** ** The world outside, and the monad of the service code *)

Inductive exn : Type :=
| HTTPException (status_code : Z) (detail : string)
| ValueError (msg : string)
| ValidationError
| TypeError
| AttributeError
| OverflowError
| OperationalError.

Inductive result (A : Type) : Type :=
| Ok (a : A)
| Raise (e : exn).

Arguments Ok {A} a.
Arguments Raise {A} e.

(** *** The tables of [database.py]

    A [uuid4] primary key is a fresh number; a [DateTime] is the clock
    reading in milliseconds.  A column that receives a value of a parsed
    reply holds that value as it is. *)

Module ContentClassification.
Record t : Type := {
  id : nat;
  content_hash : string;
  content_preview : string;
  category : pyval;
  confidence : pyval;
  priority : pyval;
  status : pyval;
  complexity : pyval;
  estimated_time : pyval;
  reasoning : pyval;
  ai_service_used : string;
  created_at : Z;
  updated_at : Z
}.
End ContentClassification.

Module ContentTag.
Record t : Type := {
  id : nat;
  classification_id : nat;
  tag : pyval;
  confidence : pyval;
  semantic_group : pyval;
  created_at : Z
}.
End ContentTag.

Module ContentAnalysis.
Record t : Type := {
  id : nat;
  classification_id : nat;
  entities : pyval;
  sentiment : pyval;
  complexity_score : pyval;
  key_concepts : pyval;
  summary : pyval;
  language : pyval;
  ai_service_used : string;
  created_at : Z
}.
End ContentAnalysis.

Module ProcessingLog.
Record t : Type := {
  id : nat;
  content_hash : string;
  processing_type : string;
  status : string;
  processing_time_ms : Z;
  ai_service_used : option string;
  error_message : option string;
  metadata : option pydict;
  created_at : Z
}.
End ProcessingLog.

Module AIServiceStatus.
Record t : Type := {
  id : nat;
  service_name : string;
  status : string;
  response_time_ms : option Z;
  last_successful_call : option Z;
  error_count : Z;
  success_count : Z;
  created_at : Z;
  updated_at : Z
}.
End AIServiceStatus.

Record Database : Type := {
  content_classifications : list ContentClassification.t;
  content_tags : list ContentTag.t;
  content_analyses : list ContentAnalysis.t;
  processing_logs : list ProcessingLog.t;
  ai_service_status : list AIServiceStatus.t;
  next_id : nat
}.

Definition empty_database : Database :=
  {| content_classifications := []; content_tags := [];
     content_analyses := []; processing_logs := [];
     ai_service_status := []; next_id := O |}.

(** What a provider will answer to one request: after [elapsed_ms] either
    a reply text or ([None]) a failure of the request. *)
Record BackendReply : Type := {
  elapsed_ms : Z;
  body : option string
}.

(** What the code under study did to the outside, oldest first. *)
Inductive Event : Type :=
| AiCall (service prompt : string)
| StatusUpdate (service_name status : string).

Record World : Type := {
  db : Database;
  db_faults : list bool;      (* the coming sessions: [true] fails *)
  backend : list BackendReply; (* the coming provider answers *)
  clock : Z;
  trace : list Event
}.

Definition M (A : Type) : Type := World -> result A * World.

Definition ret {A} (a : A) : M A := fun w => (Ok a, w).

Definition raise {A} (e : exn) : M A := fun w => (Raise e, w).

Definition bind {A B} (c : M A) (k : A -> M B) : M B :=
  fun w =>
    match c w with
    | (Ok a, w') => k a w'
    | (Raise e, w') => (Raise e, w')
    end.

(** [try: body except Exception as e: handler(e)] *)
Definition try_except {A} (body : M A) (handler : exn -> M A) : M A :=
  fun w =>
    match body w with
    | (Ok a, w') => (Ok a, w')
    | (Raise e, w') => handler e w'
    end.

Declare Scope py_scope.
Delimit Scope py_scope with py.
Notation "x <- c ;; k" := (bind c (fun x => k))
  (at level 100, c at next level, right associativity) : py_scope.
Notation "c ;;; k" := (bind c (fun _ => k))
  (at level 100, right associativity) : py_scope.
Local Open Scope py_scope.

(** A pure step that may raise. *)
Definition lift {A} (r : result A) : M A := fun w => (r, w).

(** The world after the code did [e]. *)
Definition with_event (w : World) (e : Event) : World :=
  {| db := db w; db_faults := db_faults w; backend := backend w;
     clock := clock w; trace := trace w ++ [e] |}.

Definition emit (e : Event) : M unit := fun w => (Ok tt, with_event w e).

(** [time.time()] and [datetime.utcnow()], in milliseconds. *)
Definition time_time : M Z := fun w => (Ok (clock w), w).

(** The world after a session that left the tables as [d]. *)
Definition after_session (w : World) (d : Database) : World :=
  {| db := d; db_faults := tl (db_faults w); backend := backend w;
     clock := clock w; trace := trace w |}.

(** The world after the provider gave its answer [r]. *)
Definition after_request (w : World) (r : BackendReply)
    (rest : list BackendReply) : World :=
  {| db := db w; db_faults := db_faults w; backend := rest;
     clock := clock w + elapsed_ms r; trace := trace w |}.

(** [with get_db_session() as db: ... db.commit()].  The work of the block
    is [body]; it is committed as a whole, and a block that raises leaves
    the tables as they were, since the session is closed without a commit.
    The session itself fails when the script of the world says so. *)
Definition session {A} (body : Database -> result (A * Database)) : M A :=
  fun w =>
    match db_faults w with
    | true :: _ => (Raise OperationalError, after_session w (db w))
    | _ =>
        match body (db w) with
        | Ok (a, d) => (Ok a, after_session w d)
        | Raise e => (Raise e, after_session w (db w))
        end
    end.

(** One request to a provider: the provider's client raises, and the
    [_call_*] method turns that into the [HTTPException] given. *)
Definition request (unavailable : exn) : M string :=
  fun w =>
    match backend w with
    | [] => (Raise unavailable, w)
    | r :: rest =>
        match body r with
        | Some text => (Ok text, after_request w r rest)
        | None => (Raise unavailable, after_request w r rest)
        end
    end.

(** ** What Python does with a value of unknown type *)

Module Py.

(** The code points of a [str], each as a [str]. *)
Fixpoint chars (fuel : nat) (s : string) : list string :=
  match fuel, s with
  | S f, String c r =>
      let (cont, rest) := Str.skip_continuation r in
      String c cont :: chars f rest
  | _, _ => []
  end.

(** [for x in v] *)
Definition iter (v : pyval) : result (list pyval) :=
  match v with
  | PList l => Ok l
  | PStr s => Ok (map PStr (chars (String.length s) s))
  | PDict d => Ok (map (fun kv => PStr (fst kv)) d)
  | _ => Raise TypeError
  end.

(** [len(v)] *)
Definition len (v : pyval) : result Z :=
  match v with
  | PList l => Ok (Z.of_nat (List.length l))
  | PStr s => Ok (Z.of_nat (Str.len s))
  | PDict d => Ok (Z.of_nat (List.length d))
  | _ => Raise TypeError
  end.

(** [v.get(k, default)], an [AttributeError] on what is not a dict. *)
Definition get (k : string) (default : pyval) (v : pyval) : result pyval :=
  match v with
  | PDict d => Ok (Dict.get k default d)
  | _ => Raise AttributeError
  end.

(** A number as a float; [bool] is a subclass of [int]. *)
Definition number (v : pyval) : result pyfloat :=
  match v with
  | PInt z => Ok (Finite (inject_Z z))
  | PBool b => Ok (Finite (if b then 1 else 0)%Q)
  | PFloat f => Ok f
  | _ => Raise TypeError
  end.

(** The whole part of the binary logarithm of the positive [n / d]. *)
Definition ilog2 (n d : Z) : Z :=
  let e := Z.log2 n - Z.log2 d in
  if n * 2 ^ Z.max 0 (- e) <? d * 2 ^ Z.max 0 e then e - 1 else e.

(** [n / d], not negative, rounded to a whole number, a half to the even
    one. *)
Definition round_half_even (n d : Z) : Z :=
  let q := n / d in
  let r := n mod d in
  if 2 * r <? d then q
  else if d <? 2 * r then q + 1
  else if Z.even q then q else q + 1.

(** The binary64 value nearest to [x], a tie going to the even
    significand, and an infinity beyond the largest value: what the
    arithmetic of a [float] rounds its exact result to. *)
Definition double (x : Q) : pyfloat :=
  let n := Z.abs (Qnum x) in
  let d := Zpos (Qden x) in
  if n =? 0 then Finite 0
  else
    let s := Z.max (ilog2 n d - 52) (-1074) in
    let m := if 0 <=? s then round_half_even n (d * 2 ^ s)
             else round_half_even (n * 2 ^ (- s)) d in
    if (971 <? s) || ((s =? 971) && (2 ^ 53 <=? m))
    then Infinity (Qnum x <? 0)
    else
      let v := if 0 <=? s then inject_Z (m * 2 ^ s)
               else Qred (Qmake m (Z.to_pos (2 ^ (- s)))) in
      Finite (if Qnum x <? 0 then Qopp v else v).

(** The value that a [float] written as [x] is. *)
Definition as_double (x : pyfloat) : pyfloat :=
  match x with
  | Finite q => double q
  | other => other
  end.

(** [x + y] *)
Definition fadd (x y : pyfloat) : pyfloat :=
  match as_double x, as_double y with
  | Finite a, Finite b => double (a + b)
  | NaN, _ | _, NaN => NaN
  | Infinity s, Infinity s' => if Bool.eqb s s' then Infinity s else NaN
  | Infinity s, Finite _ | Finite _, Infinity s => Infinity s
  end.

(** [x / n] for a positive count [n]. *)
Definition fdiv (x : pyfloat) (n : nat) : pyfloat :=
  match as_double x with
  | Finite a => double (a / inject_Z (Z.of_nat n))
  | other => other
  end.

(** [sum(vs)], starting from the int [0] and adding from left to right,
    as [sum] does up to Python 3.11. *)
Fixpoint sum (acc : pyfloat) (vs : list pyval) : result pyfloat :=
  match vs with
  | [] => Ok acc
  | v :: r =>
      match number v with
      | Ok f => sum (fadd acc f) r
      | Raise e => Raise e
      end
  end.

End Py.

(** ** What a text column holds

    A list of strs that is written into a column of type [String]
    arrives as an array of texts, and PostgreSQL stores the text of that
    array, as [array_out] writes it: the elements between braces and
    separated by commas, an element between double quotes when it is
    empty, is the word [NULL] or holds a quote, a backslash, a brace, a
    comma or white space, and with a backslash before each quote and
    backslash of such an element.  Other values are kept as they are in
    the model. *)
Module Column.

Definition special (c : ascii) : bool :=
  let n := nat_of_ascii c in
  (n =? 34)%nat || (n =? 92)%nat || (n =? 123)%nat || (n =? 125)%nat
  || (n =? 44)%nat || (n =? 32)%nat || ((9 <=? n)%nat && (n <=? 13)%nat).

Definition is_null_word (s : string) : bool :=
  match s with
  | String a (String b (String c (String d EmptyString))) =>
      Ascii.eqb (Str.lower_char a) "n" && Ascii.eqb (Str.lower_char b) "u"
      && Ascii.eqb (Str.lower_char c) "l" && Ascii.eqb (Str.lower_char d) "l"
  | _ => false
  end.

Fixpoint escape (s : string) : string :=
  match s with
  | EmptyString => EmptyString
  | String c r =>
      if Ascii.eqb c Str.dquote || Ascii.eqb c "\"
      then String "\" (String c (escape r))
      else String c (escape r)
  end.

Definition element (s : string) : string :=
  if String.eqb s "" || is_null_word s
     || existsb special (list_ascii_of_string s)
  then String Str.dquote (escape s ++ String Str.dquote EmptyString)
  else s.

Definition array_text (elements : list string) : string :=
  "{" ++ String.concat "," (map element elements) ++ "}".

Fixpoint texts (l : list pyval) : option (list string) :=
  match l with
  | [] => Some []
  | PStr s :: r =>
      match texts r with
      | Some ss => Some (s :: ss)
      | None => None
      end
  | _ => None
  end.

(** What a column of type [String] holds for [v]. *)
Definition varchar (v : pyval) : pyval :=
  match v with
  | PList l =>
      match texts l with
      | Some elements => PStr (array_text elements)
      | None => v
      end
  | _ => v
  end.

End Column.

(** ** [db_utils.DatabaseManager] *)

(** The first element that satisfies [p], rewritten by [f]: what assigning
    to the attributes of [query.filter(...).first()] does to the table. *)
Fixpoint update_first {A} (p : A -> bool) (f : A -> A) (l : list A) : list A :=
  match l with
  | [] => []
  | x :: r => if p x then f x :: r else x :: update_first p f r
  end.

Definition with_classifications (d : Database) l : Database :=
  {| content_classifications := l; content_tags := content_tags d;
     content_analyses := content_analyses d;
     processing_logs := processing_logs d;
     ai_service_status := ai_service_status d; next_id := next_id d |}.

Definition with_tags (d : Database) l : Database :=
  {| content_classifications := content_classifications d; content_tags := l;
     content_analyses := content_analyses d;
     processing_logs := processing_logs d;
     ai_service_status := ai_service_status d; next_id := next_id d |}.

Definition with_analyses (d : Database) l : Database :=
  {| content_classifications := content_classifications d;
     content_tags := content_tags d; content_analyses := l;
     processing_logs := processing_logs d;
     ai_service_status := ai_service_status d; next_id := next_id d |}.

Definition with_logs (d : Database) l : Database :=
  {| content_classifications := content_classifications d;
     content_tags := content_tags d; content_analyses := content_analyses d;
     processing_logs := l;
     ai_service_status := ai_service_status d; next_id := next_id d |}.

Definition with_status (d : Database) l : Database :=
  {| content_classifications := content_classifications d;
     content_tags := content_tags d; content_analyses := content_analyses d;
     processing_logs := processing_logs d;
     ai_service_status := l; next_id := next_id d |}.

(** Draws the primary key of a new row. *)
Definition fresh (d : Database) : nat * Database :=
  (next_id d,
   {| content_classifications := content_classifications d;
      content_tags := content_tags d; content_analyses := content_analyses d;
      processing_logs := processing_logs d;
      ai_service_status := ai_service_status d; next_id := S (next_id d) |}).

(** [query(ContentClassification).filter(content_hash == h).first()] *)
Definition classification_by_hash (h : string) (d : Database)
  : option ContentClassification.t :=
  find (fun r => String.eqb (ContentClassification.content_hash r) h)
       (content_classifications d).

(** [DatabaseManager._log_processing]: builds the row and adds it to the
    session; neither step reaches the database, so its [try] has nothing
    to catch. *)
Definition _log_processing (d : Database) (now : Z)
    (content_hash : option string) (processing_type status : string)
    (processing_time_ms : Z) (ai_service : option string)
    (error_message : option string) (metadata : option pydict) : Database :=
  let (i, d1) := fresh d in
  with_logs d1
    (processing_logs d1 ++
     [{| ProcessingLog.id := i;
         ProcessingLog.content_hash :=
           match content_hash with Some h => h | None => "" end;
         ProcessingLog.processing_type := processing_type;
         ProcessingLog.status := status;
         ProcessingLog.processing_time_ms := processing_time_ms;
         ProcessingLog.ai_service_used := ai_service;
         ProcessingLog.error_message := error_message;
         ProcessingLog.metadata := metadata;
         ProcessingLog.created_at := now |}]).

(** [content[:500] + "..." if len(content) > 500 else content] *)
Definition preview (content : string) : string :=
  if (500 <? Str.len content)%nat then Str.take 500 content ++ "..."
  else content.

(** The work of the session of [save_classification]. *)
Definition save_classification_body (now : Z) (content : string)
    (classification_data : pydict) (ai_service : string)
    (processing_time_ms : Z) (d : Database) : result (nat * Database) :=
  let content_hash := generate_content_hash content in
  let '(classification_id, d1) :=
    match classification_by_hash content_hash d with
    | Some existing =>
        let upd (k : string) (old : pyval) := Dict.get k old classification_data in
        let updated (r : ContentClassification.t) :=
          {| ContentClassification.id := ContentClassification.id r;
             ContentClassification.content_hash := ContentClassification.content_hash r;
             ContentClassification.content_preview := ContentClassification.content_preview r;
             ContentClassification.category := upd "category" (ContentClassification.category r);
             ContentClassification.confidence := upd "confidence" (ContentClassification.confidence r);
             ContentClassification.priority := upd "priority" (ContentClassification.priority r);
             ContentClassification.status := upd "status" (ContentClassification.status r);
             ContentClassification.complexity := upd "complexity" (ContentClassification.complexity r);
             ContentClassification.estimated_time := upd "estimated_time" (ContentClassification.estimated_time r);
             ContentClassification.reasoning := upd "reasoning" (ContentClassification.reasoning r);
             ContentClassification.ai_service_used := ai_service;
             ContentClassification.created_at := ContentClassification.created_at r;
             ContentClassification.updated_at := now |} in
        (ContentClassification.id existing,
         with_classifications d
           (update_first
              (fun r => String.eqb (ContentClassification.content_hash r) content_hash)
              updated (content_classifications d)))
    | None =>
        let (i, d0) := fresh d in
        let get (k : string) (default : pyval) := Dict.get k default classification_data in
        (i,
         with_classifications d0
           (content_classifications d0 ++
            [{| ContentClassification.id := i;
                ContentClassification.content_hash := content_hash;
                ContentClassification.content_preview := preview content;
                ContentClassification.category := get "category" (PStr "02-Areas");
                ContentClassification.confidence := get "confidence" (PFloat (Finite 0.5));
                ContentClassification.priority := get "priority" (PStr "normal");
                ContentClassification.status := get "status" (PStr "active");
                ContentClassification.complexity := get "complexity" (PStr "medium");
                ContentClassification.estimated_time := get "estimated_time" (PStr "1 hour");
                ContentClassification.reasoning := get "reasoning" (PStr "");
                ContentClassification.ai_service_used := ai_service;
                ContentClassification.created_at := now;
                ContentClassification.updated_at := now |}]))
    end in
  Ok (classification_id,
      _log_processing d1 now (Some content_hash) "classification" "success"
        processing_time_ms (Some ai_service) None None).

(** The [try] block of [save_classification]. *)
Definition save_classification_block (content : string)
    (classification_data : pydict) (ai_service : string)
    (processing_time_ms : Z) : M nat :=
  now <- time_time ;;
  session (save_classification_body now content classification_data
             ai_service processing_time_ms).

(** [DatabaseManager.save_classification]; the handler logs and re-raises. *)
Definition save_classification (content : string)
    (classification_data : pydict) (ai_service : string)
    (processing_time_ms : Z) : M nat :=
  try_except
    (save_classification_block content classification_data ai_service processing_time_ms)
    (fun e => raise e).

Definition and_then {A B} (r : result A) (k : A -> result B) : result B :=
  match r with
  | Ok a => k a
  | Raise e => Raise e
  end.

(** The loop of [save_tags] over the tags of the payload. *)
Fixpoint add_tags (now : Z) (classification_id : nat) (tags_data : pydict)
    (tags : list pyval) (d : Database) : result Database :=
  match tags with
  | [] => Ok d
  | tag :: rest =>
      and_then
        (Py.get "general" (PStr "general")
           (Dict.get "semantic_groups" (PDict []) tags_data))
        (fun group =>
           let (i, d1) := fresh d in
           add_tags now classification_id tags_data rest
             (with_tags d1
                (content_tags d1 ++
                 [{| ContentTag.id := i;
                     ContentTag.classification_id := classification_id;
                     ContentTag.tag := tag;
                     ContentTag.confidence :=
                       Dict.get "confidence" (PFloat (Finite 0.5)) tags_data;
                     ContentTag.semantic_group := Column.varchar group;
                     ContentTag.created_at := now |}])))
  end.

(** The work of the session of [save_tags]: the tags of the classification
    are deleted, then one row is added for each tag of the payload. *)
Definition save_tags_body (now : Z) (classification_id : nat)
    (tags_data : pydict) (ai_service : string) (processing_time_ms : Z)
    (d : Database) : result (unit * Database) :=
  let cleared :=
    with_tags d
      (filter (fun t => negb (Nat.eqb (ContentTag.classification_id t)
                                      classification_id))
              (content_tags d)) in
  let smart_tags := Dict.get "smart_tags" (PList []) tags_data in
  and_then (Py.iter smart_tags) (fun tags =>
  and_then (add_tags now classification_id tags_data tags cleared) (fun d1 =>
  and_then (Py.len smart_tags) (fun tag_count =>
  Ok (tt, _log_processing d1 now None "tagging" "success" processing_time_ms
            (Some ai_service) None (Some [("tag_count", PInt tag_count)]))))).

(** The [try] block of [save_tags]. *)
Definition save_tags_block (classification_id : nat) (tags_data : pydict)
    (ai_service : string) (processing_time_ms : Z) : M unit :=
  now <- time_time ;;
  session (save_tags_body now classification_id tags_data ai_service
             processing_time_ms).

(** [DatabaseManager.save_tags]; the handler logs and re-raises. *)
Definition save_tags (classification_id : nat) (tags_data : pydict)
    (ai_service : string) (processing_time_ms : Z) : M unit :=
  try_except
    (save_tags_block classification_id tags_data ai_service processing_time_ms)
    (fun e => raise e).

(** The work of the session of [save_analysis]. *)
Definition save_analysis_body (now : Z) (classification_id : nat)
    (analysis_data : pydict) (ai_service : string) (processing_time_ms : Z)
    (d : Database) : result (unit * Database) :=
  let get (k : string) (default : pyval) := Dict.get k default analysis_data in
  let mine (a : ContentAnalysis.t) :=
    Nat.eqb (ContentAnalysis.classification_id a) classification_id in
  let d1 :=
    match find mine (content_analyses d) with
    | Some _ =>
        with_analyses d
          (update_first mine
             (fun a =>
                {| ContentAnalysis.id := ContentAnalysis.id a;
                   ContentAnalysis.classification_id := ContentAnalysis.classification_id a;
                   ContentAnalysis.entities := get "entities" (PList []);
                   ContentAnalysis.sentiment := get "sentiment" (PStr "neutral");
                   ContentAnalysis.complexity_score := get "complexity_score" (PFloat (Finite 0.5));
                   ContentAnalysis.key_concepts := get "key_concepts" (PList []);
                   ContentAnalysis.summary := get "summary" (PStr "");
                   ContentAnalysis.language := get "language" (PStr "English");
                   ContentAnalysis.ai_service_used := ai_service;
                   ContentAnalysis.created_at := ContentAnalysis.created_at a |})
             (content_analyses d))
    | None =>
        let (i, d0) := fresh d in
        with_analyses d0
          (content_analyses d0 ++
           [{| ContentAnalysis.id := i;
               ContentAnalysis.classification_id := classification_id;
               ContentAnalysis.entities := get "entities" (PList []);
               ContentAnalysis.sentiment := get "sentiment" (PStr "neutral");
               ContentAnalysis.complexity_score := get "complexity_score" (PFloat (Finite 0.5));
               ContentAnalysis.key_concepts := get "key_concepts" (PList []);
               ContentAnalysis.summary := get "summary" (PStr "");
               ContentAnalysis.language := get "language" (PStr "English");
               ContentAnalysis.ai_service_used := ai_service;
               ContentAnalysis.created_at := now |}])
    end in
  and_then (Py.len (get "entities" (PList []))) (fun entities_count =>
  Ok (tt, _log_processing d1 now None "analysis" "success" processing_time_ms
            (Some ai_service) None
            (Some [("entities_count", PInt entities_count)]))).

(** The [try] block of [save_analysis]. *)
Definition save_analysis_block (classification_id : nat) (analysis_data : pydict)
    (ai_service : string) (processing_time_ms : Z) : M unit :=
  now <- time_time ;;
  session (save_analysis_body now classification_id analysis_data
             ai_service processing_time_ms).

(** [DatabaseManager.save_analysis]; the handler logs and re-raises. *)
Definition save_analysis (classification_id : nat) (analysis_data : pydict)
    (ai_service : string) (processing_time_ms : Z) : M unit :=
  try_except
    (save_analysis_block classification_id analysis_data ai_service processing_time_ms)
    (fun e => raise e).

(** The dict that [get_classification_history] returns. *)
Module TagView.
Record t : Type := { tag : pyval; confidence : pyval; group : pyval }.
End TagView.

Module AnalysisView.
Record t : Type := {
  entities : pyval;
  sentiment : pyval;
  complexity_score : pyval;
  key_concepts : pyval;
  summary : pyval;
  language : pyval
}.
End AnalysisView.

Module History.
Record t : Type := {
  id : nat;
  category : pyval;
  confidence : pyval;
  priority : pyval;
  status : pyval;
  complexity : pyval;
  estimated_time : pyval;
  reasoning : pyval;
  ai_service_used : string;
  created_at : Z;
  updated_at : Z;
  tags : list TagView.t;
  analysis : option AnalysisView.t
}.
End History.

(** [classification.tags] *)
Definition tags_of (d : Database) (classification_id : nat) : list ContentTag.t :=
  filter (fun t => Nat.eqb (ContentTag.classification_id t) classification_id)
         (content_tags d).

(** [classification.analysis] *)
Definition analysis_of (d : Database) (classification_id : nat)
  : option ContentAnalysis.t :=
  find (fun a => Nat.eqb (ContentAnalysis.classification_id a) classification_id)
       (content_analyses d).

Definition history_of (d : Database) (c : ContentClassification.t) : History.t :=
  {| History.id := ContentClassification.id c;
     History.category := ContentClassification.category c;
     History.confidence := ContentClassification.confidence c;
     History.priority := ContentClassification.priority c;
     History.status := ContentClassification.status c;
     History.complexity := ContentClassification.complexity c;
     History.estimated_time := ContentClassification.estimated_time c;
     History.reasoning := ContentClassification.reasoning c;
     History.ai_service_used := ContentClassification.ai_service_used c;
     History.created_at := ContentClassification.created_at c;
     History.updated_at := ContentClassification.updated_at c;
     History.tags :=
       map (fun t => {| TagView.tag := ContentTag.tag t;
                        TagView.confidence := ContentTag.confidence t;
                        TagView.group := ContentTag.semantic_group t |})
           (tags_of d (ContentClassification.id c));
     History.analysis :=
       match analysis_of d (ContentClassification.id c) with
       | Some a =>
           Some {| AnalysisView.entities := ContentAnalysis.entities a;
                   AnalysisView.sentiment := ContentAnalysis.sentiment a;
                   AnalysisView.complexity_score := ContentAnalysis.complexity_score a;
                   AnalysisView.key_concepts := ContentAnalysis.key_concepts a;
                   AnalysisView.summary := ContentAnalysis.summary a;
                   AnalysisView.language := ContentAnalysis.language a |}
       | None => None
       end |}.

(** The work of the session of [get_classification_history]. *)
Definition get_classification_history_body (content_hash : string)
    (d : Database) : result (option History.t * Database) :=
  match classification_by_hash content_hash d with
  | None => Ok (None, d)
  | Some classification => Ok (Some (history_of d classification), d)
  end.

(** The [try] block of [get_classification_history]. *)
Definition get_classification_history_block (content_hash : string)
  : M (option History.t) :=
  session (get_classification_history_body content_hash).

(** [DatabaseManager.get_classification_history]; the handler logs and
    returns [None]. *)
Definition get_classification_history (content_hash : string)
  : M (option History.t) :=
  try_except
    (get_classification_history_block content_hash)
    (fun e => ret None).

(** The work of the session of [update_ai_service_status]. *)
Definition update_ai_service_status_body (now : Z) (service_name status : string)
    (response_time_ms : option Z) (error_count success_count : Z)
    (d : Database) : result (unit * Database) :=
  let mine (r : AIServiceStatus.t) :=
    String.eqb (AIServiceStatus.service_name r) service_name in
  match find mine (ai_service_status d) with
  | Some _ =>
      Ok (tt,
          with_status d
            (update_first mine
               (fun r =>
                  {| AIServiceStatus.id := AIServiceStatus.id r;
                     AIServiceStatus.service_name := AIServiceStatus.service_name r;
                     AIServiceStatus.status := status;
                     AIServiceStatus.response_time_ms := response_time_ms;
                     AIServiceStatus.last_successful_call :=
                       if String.eqb status "active" then Some now
                       else AIServiceStatus.last_successful_call r;
                     AIServiceStatus.error_count :=
                       AIServiceStatus.error_count r + error_count;
                     AIServiceStatus.success_count :=
                       AIServiceStatus.success_count r + success_count;
                     AIServiceStatus.created_at := AIServiceStatus.created_at r;
                     AIServiceStatus.updated_at := now |})
               (ai_service_status d)))
  | None =>
      let (i, d0) := fresh d in
      Ok (tt,
          with_status d0
            (ai_service_status d0 ++
             [{| AIServiceStatus.id := i;
                 AIServiceStatus.service_name := service_name;
                 AIServiceStatus.status := status;
                 AIServiceStatus.response_time_ms := response_time_ms;
                 AIServiceStatus.last_successful_call :=
                   if String.eqb status "active" then Some now else None;
                 AIServiceStatus.error_count := error_count;
                 AIServiceStatus.success_count := success_count;
                 AIServiceStatus.created_at := now;
                 AIServiceStatus.updated_at := now |}]))
  end.

(** [DatabaseManager.update_ai_service_status]; the handler only logs.
    The call itself is noted in the trace. *)
Definition update_ai_service_status (service_name status : string)
    (response_time_ms : option Z) (error_count success_count : Z) : M unit :=
  emit (StatusUpdate service_name status) ;;;
  try_except
    (now <- time_time ;;
     session (update_ai_service_status_body now service_name status
                response_time_ms error_count success_count))
    (fun e => ret tt).

(** ** [main.py]: the response models *)

(** Field validation of the [pydantic] models: a [str] field takes a str,
    a [float] field a float, an int or a bool, a [List[str]] field a list
    of strs.  A missing field and a [None] are errors.  The coercions that
    [pydantic] adds on top of this (a str of digits read as a float, and
    in its first major version a number written out as a str) are not part
    of the model. *)
Module Pydantic.

Definition str_ (v : option pyval) : result string :=
  match v with
  | Some (PStr s) => Ok s
  | _ => Raise ValidationError
  end.

Definition float_ (v : option pyval) : result pyfloat :=
  match v with
  | Some (PFloat f) => Ok f
  | Some (PInt z) => Ok (Finite (inject_Z z))
  | Some (PBool b) => Ok (Finite (if b then 1 else 0)%Q)
  | _ => Raise ValidationError
  end.

Fixpoint strs (l : list pyval) : result (list string) :=
  match l with
  | [] => Ok []
  | v :: r =>
      and_then (str_ (Some v)) (fun s =>
      and_then (strs r) (fun ss => Ok (s :: ss)))
  end.

Definition list_str (v : option pyval) : result (list string) :=
  match v with
  | Some (PList l) => strs l
  | _ => Raise ValidationError
  end.

Fixpoint groups (d : pydict) : result (list (string * list string)) :=
  match d with
  | [] => Ok []
  | (k, v) :: r =>
      and_then (list_str (Some v)) (fun ss =>
      and_then (groups r) (fun gs => Ok ((k, ss) :: gs)))
  end.

Definition dict_str_list_str (v : option pyval)
  : result (list (string * list string)) :=
  match v with
  | Some (PDict d) => groups d
  | _ => Raise ValidationError
  end.

End Pydantic.

Module ClassificationResponse.

Record t : Type := {
  category : string;
  confidence : pyfloat;
  priority : string;
  status : string;
  complexity : string;
  estimated_time : string;
  reasoning : string
}.

(** [ClassificationResponse] built from the keys of [data]. *)
Definition make (data : pydict) : result t :=
  and_then (Pydantic.str_ (Dict.lookup "category" data)) (fun category =>
  and_then (Pydantic.float_ (Dict.lookup "confidence" data)) (fun confidence =>
  and_then (Pydantic.str_ (Dict.lookup "priority" data)) (fun priority =>
  and_then (Pydantic.str_ (Dict.lookup "status" data)) (fun status =>
  and_then (Pydantic.str_ (Dict.lookup "complexity" data)) (fun complexity =>
  and_then (Pydantic.str_ (Dict.lookup "estimated_time" data)) (fun estimated_time =>
  and_then (Pydantic.str_ (Dict.lookup "reasoning" data)) (fun reasoning =>
  Ok {| category := category; confidence := confidence;
        priority := priority; status := status; complexity := complexity;
        estimated_time := estimated_time; reasoning := reasoning |}))))))).

(** [r.dict()] *)
Definition dict (r : t) : pydict :=
  [("category", PStr (category r)); ("confidence", PFloat (confidence r));
   ("priority", PStr (priority r)); ("status", PStr (status r));
   ("complexity", PStr (complexity r));
   ("estimated_time", PStr (estimated_time r));
   ("reasoning", PStr (reasoning r))].

End ClassificationResponse.

Module TaggingResponse.

Record t : Type := {
  smart_tags : list string;
  confidence : pyfloat;
  semantic_groups : list (string * list string);
  related_topics : list string
}.

(** [TaggingResponse] built from the keys of [data]. *)
Definition make (data : pydict) : result t :=
  and_then (Pydantic.list_str (Dict.lookup "smart_tags" data)) (fun smart_tags =>
  and_then (Pydantic.float_ (Dict.lookup "confidence" data)) (fun confidence =>
  and_then (Pydantic.dict_str_list_str (Dict.lookup "semantic_groups" data))
    (fun semantic_groups =>
  and_then (Pydantic.list_str (Dict.lookup "related_topics" data))
    (fun related_topics =>
  Ok {| smart_tags := smart_tags; confidence := confidence;
        semantic_groups := semantic_groups;
        related_topics := related_topics |})))).

Definition dict (r : t) : pydict :=
  [("smart_tags", PList (map PStr (smart_tags r)));
   ("confidence", PFloat (confidence r));
   ("semantic_groups",
    PDict (map (fun g => (fst g, PList (map PStr (snd g))))
               (semantic_groups r)));
   ("related_topics", PList (map PStr (related_topics r)))].

End TaggingResponse.

Module AnalysisResponse.

Record t : Type := {
  entities : list string;
  sentiment : string;
  complexity_score : pyfloat;
  key_concepts : list string;
  summary : string;
  language : string
}.

(** [AnalysisResponse] built from the keys of [data]. *)
Definition make (data : pydict) : result t :=
  and_then (Pydantic.list_str (Dict.lookup "entities" data)) (fun entities =>
  and_then (Pydantic.str_ (Dict.lookup "sentiment" data)) (fun sentiment =>
  and_then (Pydantic.float_ (Dict.lookup "complexity_score" data))
    (fun complexity_score =>
  and_then (Pydantic.list_str (Dict.lookup "key_concepts" data))
    (fun key_concepts =>
  and_then (Pydantic.str_ (Dict.lookup "summary" data)) (fun summary =>
  and_then (Pydantic.str_ (Dict.lookup "language" data)) (fun language =>
  Ok {| entities := entities; sentiment := sentiment;
        complexity_score := complexity_score; key_concepts := key_concepts;
        summary := summary; language := language |})))))).

Definition dict (r : t) : pydict :=
  [("entities", PList (map PStr (entities r)));
   ("sentiment", PStr (sentiment r));
   ("complexity_score", PFloat (complexity_score r));
   ("key_concepts", PList (map PStr (key_concepts r)));
   ("summary", PStr (summary r));
   ("language", PStr (language r))].

End AnalysisResponse.

(** ** [main.py]: configuration and the keyword table *)

Module Rules.
Record t : Type := {
  keywords : list string;
  ai_patterns : list string;
  priority_keywords : list string;
  complexity_threshold : Q
}.
End Rules.

Definition PARA_CLASSIFICATION_MODEL : list (string * Rules.t) :=
  [("01-Projects",
    {| Rules.keywords := ["project"; "development"; "build"; "create"; "task";
                          "deadline"; "work"; "urgent"; "launch"; "release"];
       Rules.ai_patterns := ["timeline"; "milestone"; "deliverable";
                             "completion"; "deadline"; "launch"];
       Rules.priority_keywords := ["urgent"; "important"; "deadline";
                                   "critical"; "launch"; "release"];
       Rules.complexity_threshold := 0.7 |});
   ("02-Areas",
    {| Rules.keywords := ["management"; "area"; "business"; "routine"; "daily";
                          "health"; "finance"; "manage"; "process"];
       Rules.ai_patterns := ["ongoing"; "continuous"; "regular"; "maintenance";
                             "process"; "management"];
       Rules.priority_keywords := ["daily"; "regular"; "management"; "routine";
                                   "process"];
       Rules.complexity_threshold := 0.5 |});
   ("03-Resources",
    {| Rules.keywords := ["material"; "reference"; "learning"; "study";
                          "information"; "trend"; "resource"; "guide";
                          "tutorial"];
       Rules.ai_patterns := ["educational"; "informational"; "reference";
                             "learning"; "study"; "guide"];
       Rules.priority_keywords := ["important"; "reference"; "learning";
                                   "valuable"; "useful"];
       Rules.complexity_threshold := 0.6 |});
   ("04-Archives",
    {| Rules.keywords := ["completed"; "archive"; "organize"; "done";
                          "finished"; "past"; "historical"];
       Rules.ai_patterns := ["completed"; "finished"; "archived"; "historical";
                             "past"; "final"];
       Rules.priority_keywords := ["completed"; "archived"; "historical";
                                   "final"; "done"];
       Rules.complexity_threshold := 0.3 |})].

(** The attributes set by the [__init__] of the three services, from
    [PRIMARY_AI_SERVICE] and [FALLBACK_AI_SERVICE]. *)
Record Service : Type := {
  primary_service : string;
  fallback_service : string;
  max_tokens : Z
}.

(** [x or default] for an optional text. *)
Definition or_default (x : option string) (default : string) : string :=
  match x with
  | Some s => if String.eqb s "" then default else s
  | None => default
  end.

(** [AIClassificationService._create_classification_prompt] *)
Definition _create_classification_prompt (content : string)
    (context : option string) : string :=
  "
        Analyze the following content and classify it according to the P.A.R.A methodology:
        
        Content: "
  ++ content
  ++ "
        
        Context: "
  ++ or_default context "None"
  ++ Str.qq "
        
        P.A.R.A Categories:
        1. 01-Projects: Tasks with clear deadlines and specific deliverables
        2. 02-Areas: Areas that need ongoing maintenance and management
        3. 03-Resources: Information that may be useful in the future
        4. 04-Archives: Completed projects or inactive areas
        
        Please respond with a JSON object containing:
        - category: The P.A.R.A category (01-Projects, 02-Areas, 03-Resources, 04-Archives)
        - confidence: Confidence score (0-1)
        - priority: Priority level (urgent, important, normal)
        - status: Status (active, completed, on-hold)
        - complexity: Complexity level (low, medium, high)
        - estimated_time: Estimated time to complete/process (e.g., '30 minutes', '2 hours', '1 day')
        - reasoning: Brief explanation of the classification decision
        ".

(** [AITaggingService._create_tagging_prompt] *)
Definition _create_tagging_prompt (content : string) (title category
    analysis : option string) : string :=
  "
        Generate smart tags for the following content:
        
        Title: "
  ++ or_default title "No title"
  ++ "
        Content: "
  ++ Str.take 500 content
  ++ "...
        Category: "
  ++ or_default category "Unknown"
  ++ "
        Analysis: "
  ++ or_default analysis "None"
  ++ Str.qq "
        
        Please respond with a JSON object containing:
        - smart_tags: List of 5-10 relevant, specific tags
        - confidence: Confidence score (0-1)
        - semantic_groups: Object grouping related tags (e.g., {'technical': ['api', 'database'], 'business': ['strategy', 'planning']})
        - related_topics: List of 3-5 related topics for further exploration
        
        Focus on:
        - Specific, actionable tags
        - Technical terms when appropriate
        - Business context
        - Time sensitivity
        - Complexity indicators
        ".

(** [AIAnalysisService._create_analysis_prompt] *)
Definition _create_analysis_prompt (content : string) (title
    context : option string) : string :=
  "
        Analyze the following content and provide insights:
        
        Title: "
  ++ or_default title "No title"
  ++ "
        Content: "
  ++ Str.take 1000 content
  ++ "...
        Context: "
  ++ or_default context "None"
  ++ Str.qq "
        
        Please respond with a JSON object containing:
        - entities: List of important entities (people, places, organizations, concepts)
        - sentiment: Overall sentiment (positive, negative, neutral)
        - complexity_score: Complexity score (0-1, where 1 is most complex)
        - key_concepts: List of 3-5 key concepts or themes
        - summary: Brief 2-3 sentence summary
        - language: Detected language (e.g., 'English', 'Spanish')
        ".

(** ** [main.py]: the calls to the providers *)

(** [_call_ai_service] of the three services, which differ in the system
    message, the temperature and, for [_call_openai], the detail of the
    [HTTPException]: [openai_detail].  The call is noted in the trace. *)
Definition _call_ai_service (openai_detail : string) (prompt service : string)
  : M string :=
  emit (AiCall service prompt) ;;;
  if String.eqb service "anthropic" then
    request (HTTPException 500 "Anthropic API temporarily unavailable")
  else if String.eqb service "perplexity" then
    request (HTTPException 500 "Perplexity API temporarily unavailable")
  else if String.eqb service "openai" then
    request (HTTPException 500 openai_detail)
  else raise (ValueError ("Unsupported AI service: " ++ service)).

(** ** [main.py]: reading a reply *)

(** The rest of [s] from its first opening brace on. *)
Fixpoint from_first_open (s : string) : option string :=
  match s with
  | EmptyString => None
  | String c r => if Ascii.eqb c "{" then Some s else from_first_open r
  end.

(** The part of [s] up to and with its last closing brace. *)
Fixpoint upto_last_close (s : string) : option string :=
  match s with
  | EmptyString => None
  | String c r =>
      match upto_last_close r with
      | Some p => Some (String c p)
      | None => if Ascii.eqb c "}" then Some (String c EmptyString) else None
      end
  end.

(** The text matched by [re.search] with the pattern of an opening brace,
    any characters, a closing brace, under [re.DOTALL]: the leftmost
    start, and from there the longest match. *)
Definition re_search_braces (response : string) : option string :=
  match from_first_open response with
  | Some t => upto_last_close t
  | None => None
  end.

(** The [try] block shared by the three [_parse_*_response] methods.  A
    text that starts with a brace decodes to a dict or not at all
    ([loads_object] below), so the third case never runs. *)
Definition parse_json_object (response : string) : result pydict :=
  match re_search_braces response with
  | Some text =>
      match Json.loads text with
      | Some (PDict d) => Ok d
      | None => Raise (ValueError "JSONDecodeError")
      | Some _ => Raise TypeError
      end
  | None => Raise (ValueError "No JSON found in response")
  end.

(** [AIClassificationService._fallback_classification_data] *)
Definition _fallback_classification_data : pydict :=
  [("category", PStr "02-Areas");
   ("confidence", PFloat (Finite 0.5));
   ("priority", PStr "normal");
   ("status", PStr "active");
   ("complexity", PStr "medium");
   ("estimated_time", PStr "1 hour");
   ("reasoning", PStr "Fallback classification due to parsing error")].

(** [AIClassificationService._parse_classification_response] *)
Definition _parse_classification_response (response : string) : pydict :=
  match parse_json_object response with
  | Ok d => d
  | Raise e => _fallback_classification_data
  end.

(** [AITaggingService._fallback_tagging_data] *)
Definition _fallback_tagging_data : pydict :=
  [("smart_tags", PList [PStr "content"; PStr "analysis"; PStr "knowledge"]);
   ("confidence", PFloat (Finite 0.3));
   ("semantic_groups",
    PDict [("general", PList [PStr "content"; PStr "analysis"])]);
   ("related_topics", PList [PStr "knowledge management"])].

(** [AITaggingService._parse_tagging_response] *)
Definition _parse_tagging_response (response : string) : pydict :=
  match parse_json_object response with
  | Ok d => d
  | Raise e => _fallback_tagging_data
  end.

(** [AIAnalysisService._fallback_analysis_data] *)
Definition _fallback_analysis_data : pydict :=
  [("entities", PList [PStr "content"]);
   ("sentiment", PStr "neutral");
   ("complexity_score", PFloat (Finite 0.5));
   ("key_concepts", PList [PStr "knowledge"; PStr "management"]);
   ("summary", PStr "Basic content analysis completed.");
   ("language", PStr "English")].

(** [AIAnalysisService._parse_analysis_response] *)
Definition _parse_analysis_response (response : string) : pydict :=
  match parse_json_object response with
  | Ok d => d
  | Raise e => _fallback_analysis_data
  end.

(** ** [main.py]: the local substitutes *)

(** [any(keyword in content_lower for keyword in rules["keywords"])] *)
Definition matches (content_lower : string) (rules : Rules.t) : bool :=
  existsb (fun keyword => Str.contains keyword content_lower)
          (Rules.keywords rules).

(** [AIClassificationService._fallback_classification] *)
Definition _fallback_classification (content : string)
  : ClassificationResponse.t :=
  let content_lower := Str.lower content in
  match find (fun cr => matches content_lower (snd cr))
             PARA_CLASSIFICATION_MODEL with
  | Some (category, _) =>
      {| ClassificationResponse.category := category;
         ClassificationResponse.confidence := Finite 0.6;
         ClassificationResponse.priority := "normal";
         ClassificationResponse.status := "active";
         ClassificationResponse.complexity := "medium";
         ClassificationResponse.estimated_time := "1 hour";
         ClassificationResponse.reasoning :=
           "Rule-based classification fallback" |}
  | None =>
      {| ClassificationResponse.category := "02-Areas";
         ClassificationResponse.confidence := Finite 0.5;
         ClassificationResponse.priority := "normal";
         ClassificationResponse.status := "active";
         ClassificationResponse.complexity := "medium";
         ClassificationResponse.estimated_time := "1 hour";
         ClassificationResponse.reasoning :=
           "Default classification to Areas" |}
  end.

Definition common_words : list string :=
  ["the"; "a"; "an"; "and"; "or"; "but"; "in"; "on"; "at"; "to"; "for";
   "of"; "with"; "by"].

(** [AITaggingService._fallback_tagging] *)
Definition _fallback_tagging (content : string) : TaggingResponse.t :=
  let words := Str.split (Str.lower content) in
  let unique_words :=
    filter (fun word =>
              negb (existsb (String.eqb word) common_words)
              && (3 <? Str.len word)%nat)
           words in
  {| TaggingResponse.smart_tags := firstn 5 unique_words;
     TaggingResponse.confidence := Finite 0.4;
     TaggingResponse.semantic_groups := [("general", firstn 3 unique_words)];
     TaggingResponse.related_topics :=
       ["content analysis"; "knowledge management"] |}.

(** [AIAnalysisService._fallback_analysis] *)
Definition _fallback_analysis (content : string) : AnalysisResponse.t :=
  {| AnalysisResponse.entities := ["content"];
     AnalysisResponse.sentiment := "neutral";
     AnalysisResponse.complexity_score := Finite 0.5;
     AnalysisResponse.key_concepts := ["knowledge"; "management"];
     AnalysisResponse.summary :=
       "Content analysis completed with basic processing.";
     AnalysisResponse.language := "English" |}.

(** ** [main.py]: the three dispatchers *)

(** The response served from a stored classification. *)
Definition cached_classification (existing : History.t)
  : result ClassificationResponse.t :=
  ClassificationResponse.make
    [("category", History.category existing);
     ("confidence", History.confidence existing);
     ("priority", History.priority existing);
     ("status", History.status existing);
     ("complexity", History.complexity existing);
     ("estimated_time", History.estimated_time existing);
     ("reasoning", History.reasoning existing)].

(** The body of the two [try] blocks of [classify_content], which differ
    in the service only. *)
Definition classify_with (start_time : Z) (content prompt service : string)
  : M ClassificationResponse.t :=
  response <- _call_ai_service "OpenAI API temporarily unavailable" prompt service ;;
  let classification := _parse_classification_response response in
  now <- time_time ;;
  let processing_time := now - start_time in
  classification_id <-
    save_classification content classification service processing_time ;;
  update_ai_service_status service "active" (Some processing_time) 0 1 ;;;
  lift (ClassificationResponse.make classification).

(** The last handler of [classify_content]. *)
Definition classify_locally (start_time : Z) (content : string)
  : M ClassificationResponse.t :=
  let fallback_result := _fallback_classification content in
  now <- time_time ;;
  let processing_time := now - start_time in
  classification_id <-
    save_classification content (ClassificationResponse.dict fallback_result)
      "fallback" processing_time ;;
  update_ai_service_status "fallback" "active" (Some processing_time) 0 1 ;;;
  ret fallback_result.

(** [AIClassificationService.classify_content].  The prompt is built
    inside the first [try]; building it cannot raise, and the handler
    reads it. *)
Definition classify_content (self : Service) (content : string)
    (context : option string) : M ClassificationResponse.t :=
  start_time <- time_time ;;
  let content_hash := generate_content_hash content in
  existing_classification <- get_classification_history content_hash ;;
  match existing_classification with
  | Some existing => lift (cached_classification existing)
  | None =>
      let prompt := _create_classification_prompt content context in
      try_except
        (classify_with start_time content prompt (primary_service self))
        (fun e =>
           try_except
             (classify_with start_time content prompt (fallback_service self))
             (fun fallback_error => classify_locally start_time content))
  end.

(** A key of a dict has to be hashable. *)
Definition hashable (v : pyval) : bool :=
  match v with
  | PList _ | PDict _ => false
  | _ => true
  end.

Fixpoint set_group (k : string) (v : list string)
    (d : list (string * list string)) : list (string * list string) :=
  match d with
  | [] => [(k, v)]
  | (k', v') :: r =>
      if String.eqb k k' then (k', v) :: r else (k', v') :: set_group k v r
  end.

(** The dict that maps the group of each tag to the list of that tag
    alone, validated as a [Dict[str, List[str]]]. *)
Fixpoint groups_of (tags : list TagView.t) (acc : list (string * list string))
  : result (list (string * list string)) :=
  match tags with
  | [] => Ok acc
  | t :: r =>
      and_then (Pydantic.str_ (Some (TagView.group t))) (fun g =>
      and_then (Pydantic.str_ (Some (TagView.tag t))) (fun s =>
      groups_of r (set_group g [s] acc)))
  end.

(** The response served from stored tags: the arguments are computed
    first, then validated. *)
Definition cached_tags (tags : list TagView.t) : result TaggingResponse.t :=
  and_then (Py.sum (Finite 0) (map TagView.confidence tags)) (fun total =>
  if forallb (fun t => hashable (TagView.group t)) tags then
    and_then (Pydantic.strs (map TagView.tag tags)) (fun smart_tags =>
    and_then (groups_of tags []) (fun semantic_groups =>
    Ok {| TaggingResponse.smart_tags := smart_tags;
          TaggingResponse.confidence := Py.fdiv total (List.length tags);
          TaggingResponse.semantic_groups := semantic_groups;
          TaggingResponse.related_topics := [] |}))
  else Raise TypeError).

(** The body of the two [try] blocks of [generate_smart_tags]. *)
Definition tag_with (start_time : Z) (existing : option History.t)
    (prompt service : string) : M TaggingResponse.t :=
  response <- _call_ai_service "AI service temporarily unavailable" prompt service ;;
  let tags_data := _parse_tagging_response response in
  match existing with
  | Some ex =>
      now <- time_time ;;
      save_tags (History.id ex) tags_data service (now - start_time)
  | None => ret tt
  end ;;;
  now <- time_time ;;
  update_ai_service_status service "active" (Some (now - start_time)) 0 1 ;;;
  lift (TaggingResponse.make tags_data).

(** The last handler of [generate_smart_tags]. *)
Definition tag_locally (start_time : Z) (existing : option History.t)
    (content : string) : M TaggingResponse.t :=
  let fallback_result := _fallback_tagging content in
  match existing with
  | Some ex =>
      now <- time_time ;;
      save_tags (History.id ex) (TaggingResponse.dict fallback_result)
        "fallback" (now - start_time)
  | None => ret tt
  end ;;;
  ret fallback_result.

(** Whether the stored classification has tags. *)
Definition has_tags (existing : option History.t) : option (list TagView.t) :=
  match existing with
  | Some ex => match History.tags ex with [] => None | tags => Some tags end
  | None => None
  end.

(** [AITaggingService.generate_smart_tags] *)
Definition generate_smart_tags (self : Service) (content : string)
    (title category analysis : option string) : M TaggingResponse.t :=
  start_time <- time_time ;;
  let content_hash := generate_content_hash content in
  existing_classification <- get_classification_history content_hash ;;
  match has_tags existing_classification with
  | Some tags => lift (cached_tags tags)
  | None =>
      let prompt := _create_tagging_prompt content title category analysis in
      try_except
        (tag_with start_time existing_classification prompt
           (primary_service self))
        (fun e =>
           try_except
             (tag_with start_time existing_classification prompt
                (fallback_service self))
             (fun fallback_error =>
                tag_locally start_time existing_classification content))
  end.

(** The response served from a stored analysis. *)
Definition cached_analysis (analysis : AnalysisView.t)
  : result AnalysisResponse.t :=
  AnalysisResponse.make
    [("entities", AnalysisView.entities analysis);
     ("sentiment", AnalysisView.sentiment analysis);
     ("complexity_score", AnalysisView.complexity_score analysis);
     ("key_concepts", AnalysisView.key_concepts analysis);
     ("summary", AnalysisView.summary analysis);
     ("language", AnalysisView.language analysis)].

(** The body of the two [try] blocks of [analyze_content]. *)
Definition analyze_with (start_time : Z) (existing : option History.t)
    (prompt service : string) : M AnalysisResponse.t :=
  response <- _call_ai_service "AI service temporarily unavailable" prompt service ;;
  let analysis_data := _parse_analysis_response response in
  match existing with
  | Some ex =>
      now <- time_time ;;
      save_analysis (History.id ex) analysis_data service (now - start_time)
  | None => ret tt
  end ;;;
  now <- time_time ;;
  update_ai_service_status service "active" (Some (now - start_time)) 0 1 ;;;
  lift (AnalysisResponse.make analysis_data).

(** The last handler of [analyze_content]. *)
Definition analyze_locally (start_time : Z) (existing : option History.t)
    (content : string) : M AnalysisResponse.t :=
  let fallback_result := _fallback_analysis content in
  match existing with
  | Some ex =>
      now <- time_time ;;
      save_analysis (History.id ex) (AnalysisResponse.dict fallback_result)
        "fallback" (now - start_time)
  | None => ret tt
  end ;;;
  ret fallback_result.

Definition has_analysis (existing : option History.t) : option AnalysisView.t :=
  match existing with
  | Some ex => History.analysis ex
  | None => None
  end.

(** [AIAnalysisService.analyze_content] *)
Definition analyze_content (self : Service) (content : string)
    (title context : option string) : M AnalysisResponse.t :=
  start_time <- time_time ;;
  let content_hash := generate_content_hash content in
  existing_classification <- get_classification_history content_hash ;;
  match has_analysis existing_classification with
  | Some analysis => lift (cached_analysis analysis)
  | None =>
      let prompt := _create_analysis_prompt content title context in
      try_except
        (analyze_with start_time existing_classification prompt
           (primary_service self))
        (fun e =>
           try_except
             (analyze_with start_time existing_classification prompt
                (fallback_service self))
             (fun fallback_error =>
                analyze_locally start_time existing_classification content))
  end.

(** The services as [main.py] creates them when the environment sets
    neither service name. *)
Definition classification_service : Service :=
  {| primary_service := "anthropic"; fallback_service := "openai";
     max_tokens := 1000 |}.

Definition tagging_service : Service :=
  {| primary_service := "anthropic"; fallback_service := "openai";
     max_tokens := 500 |}.

Definition analysis_service : Service :=
  {| primary_service := "anthropic"; fallback_service := "openai";
     max_tokens := 800 |}.

(** * The vocabulary of the statements *)

(** ** Runs and their traces *)

(** The provider calls among the events. *)
Definition calls (evs : list Event) : list (string * string) :=
  flat_map (fun e => match e with
                     | AiCall service prompt => [(service, prompt)]
                     | StatusUpdate _ _ => []
                     end) evs.

(** The services named by the health updates among the events. *)
Definition health_updates (evs : list Event) : list string :=
  flat_map (fun e => match e with
                     | AiCall _ _ => []
                     | StatusUpdate service_name _ => [service_name]
                     end) evs.

(** Whether the coming session fails. *)
Definition faulty (w : World) : bool :=
  match db_faults w with
  | true :: _ => true
  | _ => false
  end.

(** No coming session fails. *)
Definition store_up (w : World) : Prop :=
  forall b, In b (db_faults w) -> b = false.

(** No coming provider request is answered. *)
Definition providers_down (w : World) : Prop :=
  forall r, In r (backend w) -> body r = None.

(** [w'] is a world that the code can reach from [w]: the scripts are
    consumed from the front and the trace grows at the end. *)
Definition later (w w' : World) : Prop :=
  (exists n, db_faults w' = skipn n (db_faults w)) /\
  (exists n, backend w' = skipn n (backend w)) /\
  (exists evs, trace w' = (trace w ++ evs)%list).

(** The world in which the tiers of a dispatch start: the one the lookup
    of the stored classification leaves. *)
Definition after_lookup (w : World) : World := after_session w (db w).

(** ** Texts *)

(** A keyword of [rules] occurs in the lowered content. *)
Definition keyword_occurs (content_lower : string) (rules : Rules.t) : Prop :=
  exists keyword,
    In keyword (Rules.keywords rules) /\ Str.occurs_in keyword content_lower.

(** [c in s] for a character. *)
Fixpoint has_char (c : ascii) (s : string) : bool :=
  match s with
  | EmptyString => false
  | String c' r => Ascii.eqb c' c || has_char c r
  end.

(** The bytes of a text. *)
Definition chars_of (s : string) : list ascii := list_ascii_of_string s.

(** A text of ASCII. *)
Definition is_ascii (s : string) : Prop :=
  Forall (fun c => Str.byte c < 128) (chars_of s).

(** The capital letters of ASCII and, at the same places, the small
    ones. *)
Definition capitals : list ascii :=
  list_ascii_of_string "ABCDEFGHIJKLMNOPQRSTUVWXYZ".

Definition small_letters : list ascii :=
  list_ascii_of_string "abcdefghijklmnopqrstuvwxyz".

(** [b] is the character [a] of ASCII in lower case: the small letter at
    the place of a capital, and every other character itself. *)
Definition lowered_char (a b : ascii) : Prop :=
  In (a, b) (combine capitals small_letters) \/ (~ In a capitals /\ b = a).

(** [t] is the text [s] of ASCII in lower case. *)
Definition lowered_text (s t : string) : Prop :=
  Forall2 lowered_char (chars_of s) (chars_of t).

(** The lower-case form of a code point of ASCII. *)
Definition lower_point (c : Z) : Z :=
  if (65 <=? c) && (c <=? 90) then c + 32 else c.

(** A text from its code points, for the examples. *)
Definition kelvin_work : string := Str.encode [119; 111; 114; 8490].

(** ** Stored rows *)

(** The response that a cache hit on [row] builds. *)
Definition row_response (row : ContentClassification.t)
  : result ClassificationResponse.t :=
  ClassificationResponse.make
    [("category", ContentClassification.category row);
     ("confidence", ContentClassification.confidence row);
     ("priority", ContentClassification.priority row);
     ("status", ContentClassification.status row);
     ("complexity", ContentClassification.complexity row);
     ("estimated_time", ContentClassification.estimated_time row);
     ("reasoning", ContentClassification.reasoning row)].

(** The store holds a row for [content] from which [resp] is served. *)
Definition served (content : string) (resp : ClassificationResponse.t)
    (d : Database) : Prop :=
  exists row,
    classification_by_hash (generate_content_hash content) d = Some row /\
    row_response row = Ok resp.





(** Row [r'] is row [r] with counters that are not smaller. *)
Definition counters_le (r r' : AIServiceStatus.t) : Prop :=
  AIServiceStatus.id r' = AIServiceStatus.id r /\
  AIServiceStatus.service_name r' = AIServiceStatus.service_name r /\
  AIServiceStatus.error_count r <= AIServiceStatus.error_count r' /\
  AIServiceStatus.success_count r <= AIServiceStatus.success_count r'.

(** Table [after] holds the rows of [before], in their places and with
    counters that are not smaller, and after them new rows whose counters
    are not negative. *)
Definition counters_grow (before after : list AIServiceStatus.t) : Prop :=
  exists kept added,
    after = (kept ++ added)%list /\
    Forall2 counters_le before kept /\
    Forall (fun r => 0 <= AIServiceStatus.error_count r /\
                     0 <= AIServiceStatus.success_count r) added.

(** The counters stored for a service: those of the row that
    [update_ai_service_status] would find. *)
Definition counters_of (service_name : string) (d : Database)
  : option (Z * Z) :=
  option_map
    (fun r => (AIServiceStatus.error_count r, AIServiceStatus.success_count r))
    (find (fun r => String.eqb (AIServiceStatus.service_name r) service_name)
          (ai_service_status d)).

(** The sum of two floats as binary64 arithmetic gives it: the exact sum
    of the two binary64 values, rounded to the nearest binary64 value. *)
Definition plus64 (x y : pyfloat) : pyfloat :=
  match x, y with
  | Finite a, Finite b =>
      match Py.double a, Py.double b with
      | Finite a', Finite b' => Py.double (a' + b')
      | Infinity s, Finite _ | Finite _, Infinity s => Infinity s
      | Infinity s, Infinity s' => if Bool.eqb s s' then Infinity s else NaN
      | _, _ => NaN
      end
  | Finite a, Infinity s | Infinity s, Finite a =>
      match Py.double a with
      | Finite _ => Infinity s
      | Infinity s' => if Bool.eqb s s' then Infinity s else NaN
      | NaN => NaN
      end
  | Infinity s, Infinity s' => if Bool.eqb s s' then Infinity s else NaN
  | _, _ => NaN
  end.

(** What [sum(...) / len(...)] is for floats: the sums from left to
    right, then the quotient by the count, each the exact result rounded
    to the nearest binary64 value.  It is the arithmetic mean up to these
    roundings, and no closer. *)
Definition float_mean (confidences : list pyfloat) : pyfloat :=
  match fold_left plus64 confidences (Finite 0) with
  | Finite total =>
      match Py.double total with
      | Finite t =>
          Py.double (t / inject_Z (Z.of_nat (List.length confidences)))
      | other => other
      end
  | other => other
  end.

(** The arithmetic mean of rationals. *)
Definition exact_mean (values : list Q) : Q :=
  (fold_left Qplus values 0 / inject_Z (Z.of_nat (List.length values)))%Q.

(** A stored tag as [save_tags] writes it for a payload that
    [TaggingResponse] accepts: a str, a number, a str. *)
Definition tag_fields_ok (t : TagView.t) : Prop :=
  (exists s, TagView.tag t = PStr s) /\
  (exists f, Py.number (TagView.confidence t) = Ok f) /\
  (exists g, TagView.group t = PStr g).

(** A stored tag as the typed columns of [content_tags] hold it: the tag
    a str, the confidence a float, the group a str or [NULL]. *)
Definition typed_tag (t : TagView.t) : Prop :=
  (exists s, TagView.tag t = PStr s) /\
  (exists f, TagView.confidence t = PFloat f) /\
  (TagView.group t = PNone \/ exists g, TagView.group t = PStr g).

(** The group of the tag is [NULL]. *)
Definition group_is_null (t : TagView.t) : bool :=
  match TagView.group t with
  | PNone => true
  | _ => false
  end.

(** ** Worlds and replies of the concrete runs *)

(** The world at the start of a run: the tables, the sessions that will
    fail, the answers of the providers; the clock at zero. *)
Definition world (d : Database) (faults : list bool)
    (replies : list BackendReply) : World :=
  {| db := d; db_faults := faults; backend := replies; clock := 0;
     trace := [] |}.

(** A provider answers [text] after [ms] milliseconds. *)
Definition answer (ms : Z) (text : string) : BackendReply :=
  {| elapsed_ms := ms; body := Some text |}.

(** The content of the scenario of the specification. *)
Definition quarterly_report : string :=
  "Finish the quarterly report before the deadline".

(** The fields of a classification, as a provider would write them. *)
Definition reply_fields : string :=
  Str.qq "'category': '03-Resources', 'confidence': 0.9, 'priority': 'normal', 'status': 'active', 'complexity': 'low', 'estimated_time': '2 hours', 'reasoning': 'A report to keep'".

(** The same fields as a JSON object. *)
Definition full_reply : string := "{" ++ reply_fields ++ "}".

(** A reply with three tags of confidence 0.1. *)
Definition three_tags_reply : string :=
  Str.qq "{'smart_tags': ['alpha', 'beta', 'gamma'], 'confidence': 0.1, 'semantic_groups': {'work': ['alpha']}, 'related_topics': []}".

(** A reply that holds all the fields of a tagging. *)
Definition tagging_reply : string :=
  Str.qq "{'smart_tags': ['report', 'deadline'], 'confidence': 0.9, 'semantic_groups': {'work': ['report']}, 'related_topics': ['planning']}".

(** The store after the quarterly report was classified locally. *)
Definition store_with_report : Database :=
  db (snd (classify_content classification_service quarterly_report None
             (world empty_database [] []))).

(** * More of the code *)

(** ** [database.py] and [db_utils.py]: health, metrics, clean-up *)

(** [s.split(sep)] for a separator of one character: the parts between
    the separators, of which there is one more than separators. *)
Fixpoint split_char (sep : ascii) (s : string) : list string :=
  match s with
  | EmptyString => [EmptyString]
  | String c r =>
      if Ascii.eqb c sep then EmptyString :: split_char sep r
      else match split_char sep r with
           | part :: parts => String c part :: parts
           | [] => [String c EmptyString]
           end
  end.

(** [url.split("@")[-1]] *)
Definition after_last_at (url : string) : string :=
  last (split_char "@" url) EmptyString.

(** The dict that [check_database_health] returns; [error] is the text
    of the exception. *)
Module Health.
Record t : Type := {
  status : string;
  database_url : option string;
  error : option string;
  timestamp : Z
}.
End Health.

(** [database.check_database_health], with the [DATABASE_URL] of the
    environment as its argument.  The connection of the engine is a
    session of the store: it fails when the script of the world says so.
    [str] is [str(e)], the text that the driver gave the exception: the
    model knows nothing of that text, which in a driver's words may name
    the host, the port and the user of the URL. *)
Definition check_database_health (str : exn -> string)
    (DATABASE_URL : string) : M Health.t :=
  try_except
    (session (fun d => Ok (tt, d)) ;;;
     now <- time_time ;;
     ret {| Health.status := "healthy";
            Health.database_url := Some (after_last_at DATABASE_URL);
            Health.error := None;
            Health.timestamp := now |})
    (fun e =>
       now <- time_time ;;
       ret {| Health.status := "unhealthy";
              Health.database_url := None;
              Health.error := Some (str e);
              Health.timestamp := now |}).

(** The attributes of a [DatabaseManager]; the interval is in seconds. *)
Record DatabaseManager : Type := {
  health_check_interval : Z;
  last_health_check : option Z;
  _health_status : option Health.t
}.

(** [DatabaseManager()] *)
Definition db_manager : DatabaseManager :=
  {| health_check_interval := 300; last_health_check := None;
     _health_status := None |}.

(** [DatabaseManager.health_check]: the status and the manager after the
    call. *)
Definition health_check (str : exn -> string) (DATABASE_URL : string)
    (self : DatabaseManager) : M (option Health.t * DatabaseManager) :=
  now <- time_time ;;
  let check :=
    h <- check_database_health str DATABASE_URL ;;
    ret (Some h,
         {| health_check_interval := health_check_interval self;
            last_health_check := Some now;
            _health_status := Some h |}) in
  match last_health_check self with
  | Some last =>
      if now - last <? health_check_interval self * 1000
      then ret (_health_status self, self)
      else check
  | None => check
  end.

(** The table [system_metrics], which the dispatchers never touch: the
    two functions that use it take its rows and return them. *)
Module SystemMetrics.
Record t : Type := {
  id : nat;
  metric_name : string;
  metric_value : pyfloat;
  metric_unit : option string;
  tags : option pydict;
  timestamp : Z
}.
End SystemMetrics.

(** [DatabaseManager.record_metric]; the handler only logs. *)
Definition record_metric (metrics : list SystemMetrics.t)
    (metric_name : string) (metric_value : pyfloat)
    (metric_unit : option string) (tags : option pydict)
  : M (list SystemMetrics.t) :=
  try_except
    (now <- time_time ;;
     session (fun d =>
       let (i, d') := fresh d in
       Ok ((metrics ++
            [{| SystemMetrics.id := i;
                SystemMetrics.metric_name := metric_name;
                SystemMetrics.metric_value := metric_value;
                SystemMetrics.metric_unit := metric_unit;
                SystemMetrics.tags := tags;
                SystemMetrics.timestamp := now |}])%list, d')))
    (fun e => ret metrics).

Definition milliseconds_per_day : Z := 86400000.

(** The work of the session of [cleanup_old_data]: the logs and the
    metrics older than the cutoff are deleted. *)
Definition cleanup_old_data_body (cutoff_date : Z)
    (metrics : list SystemMetrics.t) (d : Database)
  : result (list SystemMetrics.t * Database) :=
  Ok (filter (fun m => negb (SystemMetrics.timestamp m <? cutoff_date)) metrics,
      with_logs d
        (filter (fun l => negb (ProcessingLog.created_at l <? cutoff_date))
                (processing_logs d))).

(** The first and the last moment that a [datetime] holds, in
    milliseconds of the clock, which counts from 1970. *)
Definition datetime_min : Z := -62135596800000.
Definition datetime_max : Z := 253402300799999.

(** [datetime.utcnow() - timedelta(days=days_to_keep)]: an
    [OverflowError] when the number of days is more than a [timedelta]
    holds, or the moment is outside the years 1 to 9999. *)
Definition cutoff (now days_to_keep : Z) : result Z :=
  let cutoff_date := now - days_to_keep * milliseconds_per_day in
  if (Z.abs days_to_keep <=? 999999999)
     && (datetime_min <=? cutoff_date) && (cutoff_date <=? datetime_max)
  then Ok cutoff_date
  else Raise OverflowError.

(** [db_utils.cleanup_old_data]; the handler logs and re-raises.  The
    cutoff is computed inside the [with] block before the first query,
    so that an [OverflowError] leaves the database untouched. *)
Definition cleanup_old_data (metrics : list SystemMetrics.t)
    (days_to_keep : Z) : M (list SystemMetrics.t) :=
  try_except
    (now <- time_time ;;
     cutoff_date <- lift (cutoff now days_to_keep) ;;
     session (cleanup_old_data_body cutoff_date metrics))
    (fun e => raise e).

(** ** [main.py]: the endpoints *)

(** The dict that [complete_classification] returns. *)
Module CompleteResponse.
Record t : Type := {
  classification : ClassificationResponse.t;
  tags : TaggingResponse.t;
  analysis : AnalysisResponse.t;
  content_hash : string
}.
End CompleteResponse.

Module Api.
Section Endpoints.

(** [str(e)] for an exception and [repr(x)] for a float, as Python
    writes them. *)
Variable str : exn -> string.
Variable repr : pyfloat -> string.

(** The three services that the module creates from its environment. *)
Variables classification_service tagging_service analysis_service : Service.

(** The handler shared by the endpoints: every exception becomes an
    [HTTPException] with status 500 and the text of the exception. *)
Definition internal_error {A} (e : exn) : M A :=
  raise (HTTPException 500 (str e)).

(** [POST /api/classification/complete]: the tagging is given the
    category and, as its analysis, the dict that holds the confidence.
    (The endpoints that carry the name of the method they call come
    last.) *)
Definition complete_classification (content : string)
    (context : option string) : M CompleteResponse.t :=
  try_except
    (classification_result <-
       classify_content classification_service content context ;;
     tagging_result <-
       generate_smart_tags tagging_service content None
         (Some (ClassificationResponse.category classification_result))
         (Some ("{'confidence': "
                ++ repr (ClassificationResponse.confidence classification_result)
                ++ "}")) ;;
     analysis_result <-
       analyze_content analysis_service content None context ;;
     ret {| CompleteResponse.classification := classification_result;
            CompleteResponse.tags := tagging_result;
            CompleteResponse.analysis := analysis_result;
            CompleteResponse.content_hash := generate_content_hash content |})
    internal_error.

(** [POST /api/classify] *)
Definition classify_content (content : string) (context : option string)
  : M ClassificationResponse.t :=
  try_except
    (classify_content classification_service content context)
    internal_error.

(** [POST /api/tag] *)
Definition generate_tags (content : string) (title category
    analysis : option string) : M TaggingResponse.t :=
  try_except
    (generate_smart_tags tagging_service content title category analysis)
    internal_error.

(** [POST /api/analyze] *)
Definition analyze_content (content : string) (title
    context : option string) : M AnalysisResponse.t :=
  try_except
    (analyze_content analysis_service content title context)
    internal_error.

(** [GET /api/classification/history/{content_hash}] *)
Definition get_classification_history (content_hash : string)
  : M History.t :=
  result <- get_classification_history content_hash ;;
  match result with
  | None => raise (HTTPException 404 "Classification not found")
  | Some history => ret history
  end.

End Endpoints.
End Api.

(** * The vocabulary of the further statements *)

(** A code point of Unicode. *)
Definition is_code_point (c : Z) : Prop := 0 <= c < 1114112.

(** A text: the UTF-8 bytes of code points. *)
Definition is_text (s : string) : Prop :=
  exists points, s = Str.encode points /\ Forall is_code_point points.

(** The keys of a classification. *)
Definition classification_keys : list string :=
  ["category"; "confidence"; "priority"; "status"; "complexity";
   "estimated_time"; "reasoning"].

(** The column of a stored classification for a key. *)
Definition row_field (k : string) (row : ContentClassification.t) : pyval :=
  if String.eqb k "category" then ContentClassification.category row
  else if String.eqb k "confidence" then ContentClassification.confidence row
  else if String.eqb k "priority" then ContentClassification.priority row
  else if String.eqb k "status" then ContentClassification.status row
  else if String.eqb k "complexity" then ContentClassification.complexity row
  else if String.eqb k "estimated_time" then ContentClassification.estimated_time row
  else if String.eqb k "reasoning" then ContentClassification.reasoning row
  else PNone.

(** The entry of the dict of [get_classification_history] for a key. *)
Definition history_field (k : string) (h : History.t) : pyval :=
  if String.eqb k "category" then History.category h
  else if String.eqb k "confidence" then History.confidence h
  else if String.eqb k "priority" then History.priority h
  else if String.eqb k "status" then History.status h
  else if String.eqb k "complexity" then History.complexity h
  else if String.eqb k "estimated_time" then History.estimated_time h
  else if String.eqb k "reasoning" then History.reasoning h
  else PNone.

(** The value that [save_classification] gives a new row for a key that
    the data lack. *)
Definition default_field (k : string) : pyval :=
  if String.eqb k "category" then PStr "02-Areas"
  else if String.eqb k "confidence" then PFloat (Finite 0.5)
  else if String.eqb k "priority" then PStr "normal"
  else if String.eqb k "status" then PStr "active"
  else if String.eqb k "complexity" then PStr "medium"
  else if String.eqb k "estimated_time" then PStr "1 hour"
  else if String.eqb k "reasoning" then PStr ""
  else PNone.

(** The keys of an analysis. *)
Definition analysis_keys : list string :=
  ["entities"; "sentiment"; "complexity_score"; "key_concepts"; "summary";
   "language"].

(** The column of a stored analysis for a key. *)
Definition analysis_field (k : string) (a : ContentAnalysis.t) : pyval :=
  if String.eqb k "entities" then ContentAnalysis.entities a
  else if String.eqb k "sentiment" then ContentAnalysis.sentiment a
  else if String.eqb k "complexity_score" then ContentAnalysis.complexity_score a
  else if String.eqb k "key_concepts" then ContentAnalysis.key_concepts a
  else if String.eqb k "summary" then ContentAnalysis.summary a
  else if String.eqb k "language" then ContentAnalysis.language a
  else PNone.

(** The value that [save_analysis] stores for a key that the data lack. *)
Definition analysis_default (k : string) : pyval :=
  if String.eqb k "entities" then PList []
  else if String.eqb k "sentiment" then PStr "neutral"
  else if String.eqb k "complexity_score" then PFloat (Finite 0.5)
  else if String.eqb k "key_concepts" then PList []
  else if String.eqb k "summary" then PStr ""
  else if String.eqb k "language" then PStr "English"
  else PNone.

(** The analyses of a classification, and those of the others. *)
Definition analyses_of (d : Database) (classification_id : nat)
  : list ContentAnalysis.t :=
  filter (fun a => Nat.eqb (ContentAnalysis.classification_id a) classification_id)
         (content_analyses d).

Definition analyses_of_others (d : Database) (classification_id : nat)
  : list ContentAnalysis.t :=
  filter (fun a => negb (Nat.eqb (ContentAnalysis.classification_id a)
                                 classification_id))
         (content_analyses d).

(** A computation respects a relation on stores when each of its runs
    takes the store to a related one. *)
Definition respects (R : Database -> Database -> Prop) {A} (c : M A) : Prop :=
  forall w, R (db w) (db (snd (c w))).

(** What a tagging of the classification [target] keeps of the store. *)
Definition tagging_frame (target : option nat) (d d' : Database) : Prop :=
  content_classifications d' = content_classifications d /\
  content_analyses d' = content_analyses d /\
  (forall cid, target <> Some cid -> tags_of d' cid = tags_of d cid) /\
  (target = None ->
   content_tags d' = content_tags d /\ processing_logs d' = processing_logs d).

(** What an analysis of the classification [target] keeps of the store. *)
Definition analysis_frame (target : option nat) (d d' : Database) : Prop :=
  content_classifications d' = content_classifications d /\
  content_tags d' = content_tags d /\
  (forall cid, target <> Some cid -> analyses_of d' cid = analyses_of d cid) /\
  (target = None ->
   content_analyses d' = content_analyses d /\
   processing_logs d' = processing_logs d).

(** The response that a later call would serve from the store. *)
Definition served_analysis (d : Database) (row : ContentClassification.t)
  : option (result AnalysisResponse.t) :=
  option_map cached_analysis (History.analysis (history_of d row)).

(** The names for which [_call_ai_service] has a branch. *)
Definition supported (service : string) : bool :=
  String.eqb service "anthropic" || String.eqb service "perplexity"
  || String.eqb service "openai".

(** The response built from [_fallback_classification_data]. *)
Definition unread_reply_response : ClassificationResponse.t :=
  {| ClassificationResponse.category := "02-Areas";
     ClassificationResponse.confidence := Finite 0.5;
     ClassificationResponse.priority := "normal";
     ClassificationResponse.status := "active";
     ClassificationResponse.complexity := "medium";
     ClassificationResponse.estimated_time := "1 hour";
     ClassificationResponse.reasoning :=
       "Fallback classification due to parsing error" |}.

(** The row that [update_ai_service_status] finds for a service. *)
Definition status_of (service_name : string) (d : Database)
  : option AIServiceStatus.t :=
  find (fun r => String.eqb (AIServiceStatus.service_name r) service_name)
       (ai_service_status d).

(** The names of the services that have a row, in table order. *)
Definition status_names (d : Database) : list string :=
  map AIServiceStatus.service_name (ai_service_status d).

(** A computation keeps a relation on worlds when each of its runs takes
    the world to a related one. *)
Definition keeps (R : World -> World -> Prop) {A} (c : M A) : Prop :=
  forall w, R w (snd (c w)).

(** A digit or one of the letters [a] to [f]. *)
Definition is_lower_hex (c : ascii) : bool :=
  let n := nat_of_ascii c in
  ((48 <=? n)%nat && (n <=? 57)%nat) || ((97 <=? n)%nat && (n <=? 102)%nat).

(** Every stored preview has at most 503 characters. *)
Definition previews_short (d : Database) : Prop :=
  Forall (fun row =>
            (Str.len (ContentClassification.content_preview row) <= 503)%nat)
         (content_classifications d).

(** The moment [days_to_keep] days before [now] is one that a
    [datetime] holds. *)
Definition cutoff_in_range (now days_to_keep : Z) : Prop :=
  Z.abs days_to_keep <= 999999999 /\
  datetime_min <= now - days_to_keep * milliseconds_per_day <= datetime_max.

(** * Properties *)

(** ** Strings and lists *)

Section StringFacts.

Lemma prefix_app (k s : string) :
  prefix k s = true <-> exists post, s = k ++ post.
Proof.
  revert s; induction k as [|c k IH]; intros s; simpl.
  - split; [intros _; exists s; reflexivity | intros _; now destruct s].
  - destruct s as [|c' s]; simpl.
    + split; [discriminate | intros [post H]; discriminate].
    + destruct (ascii_dec c c') as [->|ne].
      * rewrite IH. split; intros [post H]; exists post.
        -- now rewrite H.
        -- now injection H.
      * split; [discriminate | intros [post H]].
        injection H as H1 _. congruence.
Qed.

Lemma contains_occurs (k s : string) :
  Str.contains k s = true <-> Str.occurs_in k s.
Proof.
  unfold Str.occurs_in. induction s as [|c s IH].
  - change (Str.contains k "") with (prefix k "" || false).
    rewrite orb_false_r, prefix_app. split.
    + intros [post H]. exists "", post. exact H.
    + intros [pre [post H]]. destruct pre; simpl in H.
      * exists post. exact H.
      * discriminate.
  - change (Str.contains k (String c s))
      with (prefix k (String c s) || Str.contains k s).
    rewrite orb_true_iff, prefix_app, IH. split.
    + intros [[post H] | [pre [post H]]].
      * exists "", post. exact H.
      * exists (String c pre), post. simpl. now rewrite H.
    + intros [pre [post H]]. destruct pre as [|c' pre]; simpl in H.
      * left. exists post. exact H.
      * right. exists pre, post. now injection H.
Qed.

End StringFacts.

Section ListFacts.

Context {A : Type}.

Lemma find_first (p : A -> bool) (l : list A) (i : nat) (x : A) :
  nth_error l i = Some x ->
  p x = true ->
  (forall j y, (j < i)%nat -> nth_error l j = Some y -> p y = false) ->
  find p l = Some x.
Proof.
  revert i; induction l as [|a l IH]; intros [|i] Hx Hp Hbefore;
    simpl in *; try discriminate.
  - injection Hx as ->. now rewrite Hp.
  - rewrite (Hbefore O a) by (auto; lia).
    apply (IH i); auto.
    intros j y Hj Hy. apply (Hbefore (S j) y); [lia | exact Hy].
Qed.

Lemma find_all_false (p : A -> bool) (l : list A) :
  (forall x, In x l -> p x = false) -> find p l = None.
Proof.
  induction l as [|a l IH]; intros H; simpl; auto.
  rewrite (H a) by now left. apply IH. intros; apply H; now right.
Qed.

End ListFacts.

Lemma matches_keyword_occurs (content_lower : string) (rules : Rules.t) :
  matches content_lower rules = true <-> keyword_occurs content_lower rules.
Proof.
  unfold matches, keyword_occurs. rewrite existsb_exists.
  split; intros [k [Hin H]]; exists k; split; auto;
    now apply contains_occurs.
Qed.

Lemma matches_false (content_lower : string) (rules : Rules.t) :
  ~ keyword_occurs content_lower rules -> matches content_lower rules = false.
Proof.
  intros H. destruct (matches content_lower rules) eqn:E; auto.
  now apply matches_keyword_occurs in E.
Qed.

(** ** The world along a run *)

Lemma later_refl w : later w w.
Proof.
  repeat split; [exists O | exists O | exists []]; auto using app_nil_r.
Qed.

Lemma later_trans w1 w2 w3 : later w1 w2 -> later w2 w3 -> later w1 w3.
Proof.
  intros [[n1 F1] [[m1 B1] [e1 T1]]] [[n2 F2] [[m2 B2] [e2 T2]]].
  repeat split.
  - exists (n1 + n2)%nat. now rewrite F2, F1, skipn_skipn, Nat.add_comm.
  - exists (m1 + m2)%nat. now rewrite B2, B1, skipn_skipn, Nat.add_comm.
  - exists (e1 ++ e2)%list. now rewrite T2, T1, app_assoc.
Qed.

Lemma store_up_later w w' : later w w' -> store_up w -> store_up w'.
Proof.
  intros [[n F] _] H b Hb. apply H. rewrite F in Hb.
  rewrite <- (firstn_skipn n (db_faults w)). apply in_or_app; now right.
Qed.

Lemma providers_down_later w w' :
  later w w' -> providers_down w -> providers_down w'.
Proof.
  intros [_ [[n F] _]] H b Hb. apply H. rewrite F in Hb.
  rewrite <- (firstn_skipn n (backend w)). apply in_or_app; now right.
Qed.

(** Splits the conjunctions that are written out in the goal. *)
Ltac splits := repeat match goal with |- _ /\ _ => split end.

Lemma session_run {A} (body : Database -> result (A * Database)) (w : World) :
  session body w =
  if faulty w then (Raise OperationalError, after_session w (db w))
  else match body (db w) with
       | Ok (a, d) => (Ok a, after_session w d)
       | Raise e => (Raise e, after_session w (db w))
       end.
Proof.
  unfold session, faulty. destruct (db_faults w) as [|[|] ?]; reflexivity.
Qed.

Lemma store_up_not_faulty w : store_up w -> faulty w = false.
Proof.
  unfold store_up, faulty. destruct (db_faults w) as [|[|] ?]; auto.
  intros H. discriminate (H true). now left.
Qed.

Lemma later_after_session w d : later w (after_session w d).
Proof.
  repeat split; [exists 1%nat | exists O | exists []]; simpl;
    auto using app_nil_r.
Qed.

Lemma later_with_event w e : later w (with_event w e).
Proof. repeat split; [exists O | exists O | exists [e]]; reflexivity. Qed.

Lemma later_after_request w r rest :
  backend w = r :: rest -> later w (after_request w r rest).
Proof.
  intros H. repeat split; [exists O | exists 1%nat | exists []]; simpl;
    auto using app_nil_r.
  now rewrite H.
Qed.

(** *** The store operations, run *)

Lemma get_classification_history_run (h : string) (w : World) :
  get_classification_history h w =
  (Ok (if faulty w then None
       else option_map (history_of (db w)) (classification_by_hash h (db w))),
   after_session w (db w)).
Proof.
  unfold get_classification_history, get_classification_history_block,
    try_except.
  rewrite session_run. unfold get_classification_history_body.
  destruct (faulty w); [reflexivity|].
  destruct (classification_by_hash h (db w)); reflexivity.
Qed.

Lemma save_classification_body_ok now content data service ms d :
  exists i d', save_classification_body now content data service ms d = Ok (i, d').
Proof.
  unfold save_classification_body.
  destruct (classification_by_hash _ d); [|destruct (fresh d)]; eauto.
Qed.

Lemma save_classification_run content data service ms w :
  save_classification content data service ms w =
  if faulty w then (Raise OperationalError, after_session w (db w))
  else match save_classification_body (clock w) content data service ms (db w) with
       | Ok (i, d) => (Ok i, after_session w d)
       | Raise e => (Raise e, after_session w (db w))
       end.
Proof.
  unfold save_classification, save_classification_block, try_except, bind,
    time_time, raise.
  rewrite session_run. destruct (faulty w); [reflexivity|].
  destruct (save_classification_body _ _ _ _ _ _) as [[i d]|e]; reflexivity.
Qed.

Lemma update_ai_service_status_run name status rt ec sc w :
  exists d,
    update_ai_service_status name status rt ec sc w =
    (Ok tt, after_session (with_event w (StatusUpdate name status)) d) /\
    content_classifications d = content_classifications (db w) /\
    content_tags d = content_tags (db w) /\
    content_analyses d = content_analyses (db w).
Proof.
  unfold update_ai_service_status, try_except, bind, emit, time_time, ret.
  rewrite session_run.
  destruct (faulty _); [exists (db w); auto|].
  unfold update_ai_service_status_body.
  destruct (find _ _); [|destruct (fresh _) eqn:F];
    eexists; split; try reflexivity; simpl; auto.
  unfold fresh in F. injection F as <- <-. auto.
Qed.

(** *** Rows and responses *)

Lemma cached_classification_row d row :
  cached_classification (history_of d row) = row_response row.
Proof. reflexivity. Qed.

Lemma str_field_inv v s :
  Pydantic.str_ v = Ok s -> v = Some (PStr s).
Proof. destruct v as [[]|]; simpl; congruence. Qed.

Lemma make_get data resp x1 x2 x3 x4 x5 x6 x7 :
  ClassificationResponse.make data = Ok resp ->
  ClassificationResponse.make
    [("category", Dict.get "category" x1 data);
     ("confidence", Dict.get "confidence" x2 data);
     ("priority", Dict.get "priority" x3 data);
     ("status", Dict.get "status" x4 data);
     ("complexity", Dict.get "complexity" x5 data);
     ("estimated_time", Dict.get "estimated_time" x6 data);
     ("reasoning", Dict.get "reasoning" x7 data)] = Ok resp.
Proof.
  unfold ClassificationResponse.make, Dict.get. intros H.
  cbn [Dict.lookup String.eqb Ascii.eqb Bool.eqb].
  repeat match type of H with
  | context [Dict.lookup ?k data] =>
      destruct (Dict.lookup k data) as [[]|]; simpl in H; try discriminate H
  end; exact H.
Qed.

Lemma make_dict resp :
  ClassificationResponse.make (ClassificationResponse.dict resp) = Ok resp.
Proof. now destruct resp. Qed.

Lemma find_update_first {A} (p : A -> bool) (f : A -> A) l x :
  find p l = Some x -> p (f x) = true ->
  find p (update_first p f l) = Some (f x).
Proof.
  induction l as [|a l IH]; simpl; [discriminate|].
  destruct (p a) eqn:E; intros H Hf.
  - injection H as ->. simpl. now rewrite Hf.
  - simpl. rewrite E. auto.
Qed.

Lemma find_app_new {A} (p : A -> bool) l x :
  find p l = None -> p x = true -> find p (l ++ [x]) = Some x.
Proof.
  induction l as [|a l IH]; simpl; intros H Hx.
  - now rewrite Hx.
  - destruct (p a); [discriminate | auto].
Qed.

Lemma save_classification_body_served now content data service ms d i d' :
  save_classification_body now content data service ms d = Ok (i, d') ->
  exists row,
    classification_by_hash (generate_content_hash content) d' = Some row /\
    ContentClassification.id row = i /\
    forall resp, ClassificationResponse.make data = Ok resp ->
                 row_response row = Ok resp.
Proof.
  unfold save_classification_body.
  destruct (classification_by_hash _ d) as [existing|] eqn:E.
  - intros H. injection H as <- <-. eexists. split; [|split].
    + unfold classification_by_hash in *. cbn [content_classifications
        _log_processing fresh with_logs with_classifications].
      apply find_update_first; [exact E|].
      cbn [ContentClassification.content_hash].
      apply find_some in E. apply E.
    + reflexivity.
    + intros resp. apply make_get.
  - destruct (fresh d) as [j d0] eqn:F. intros H. injection H as <- <-.
    unfold fresh in F. injection F as <- <-. eexists. split; [|split].
    + unfold classification_by_hash in *. cbn [content_classifications
        _log_processing fresh with_logs with_classifications].
      apply find_app_new; [exact E|].
      cbn [ContentClassification.content_hash]. apply String.eqb_refl.
    + reflexivity.
    + intros resp. apply make_get.
Qed.

(** *** The tiers of [classify_content], run *)

Lemma request_run unavailable w :
  exists r w',
    request unavailable w = (r, w') /\ later w w' /\ trace w' = trace w /\
    db w' = db w /\ db_faults w' = db_faults w /\
    (providers_down w -> r = Raise unavailable).
Proof.
  unfold request. destruct (backend w) as [|a rest] eqn:B.
  - exists (Raise unavailable), w. splits; auto using later_refl.
  - assert (L : later w (after_request w a rest))
      by now apply later_after_request.
    destruct (body a) eqn:Ha; do 2 eexists;
      splits; auto.
    intros H. specialize (H a). rewrite B in H.
    rewrite H in Ha; [discriminate | now left].
Qed.

Lemma call_run detail prompt service w :
  exists r w',
    _call_ai_service detail prompt service w = (r, w') /\
    later w w' /\
    trace w' = (trace w ++ [AiCall service prompt])%list /\
    db w' = db w /\ db_faults w' = db_faults w /\
    (providers_down w -> exists e, r = Raise e).
Proof.
  unfold _call_ai_service, bind, emit.
  set (w1 := with_event w (AiCall service prompt)).
  assert (L : later w w1) by apply later_with_event.
  assert (P : providers_down w -> providers_down w1) by (intros H; exact H).
  assert (G : forall u, exists r w',
             request u w1 = (r, w') /\ later w w' /\
             trace w' = (trace w ++ [AiCall service prompt])%list /\
             db w' = db w /\ db_faults w' = db_faults w /\
             (providers_down w -> exists e, r = Raise e)).
  { intros u. destruct (request_run u w1) as (r & w' & E & L' & T & D & F & Pd).
    exists r, w'. splits; auto.
    - eapply later_trans; eauto.
    - intros H. eauto. }
  destruct (String.eqb service "anthropic"); [apply G|].
  destruct (String.eqb service "perplexity"); [apply G|].
  destruct (String.eqb service "openai"); [apply G|].
  unfold raise. do 2 eexists. splits; eauto.
Qed.

Lemma served_same_rows content resp d d' :
  content_classifications d' = content_classifications d ->
  served content resp d -> served content resp d'.
Proof.
  intros E [row [H R]]. exists row. split; auto.
  unfold classification_by_hash in *. now rewrite E.
Qed.

Lemma classify_with_run start_time content prompt service w r w' :
  classify_with start_time content prompt service w = (r, w') ->
  later w w' /\
  (exists evs,
      trace w' = (trace w ++ AiCall service prompt :: evs)%list /\
      calls evs = [] /\
      (forall resp, r = Ok resp -> health_updates evs = [service])) /\
  (providers_down w -> exists e, r = Raise e) /\
  (forall resp, r = Ok resp -> served content resp (db w')).
Proof.
  unfold classify_with, bind.
  destruct (call_run "OpenAI API temporarily unavailable" prompt service w)
    as (r0 & w0 & E & L0 & T0 & D0 & F0 & P0).
  rewrite E. destruct r0 as [response|e].
  2:{ intros H. injection H as <- <-. splits; auto.
      - exists []. splits; auto. discriminate.
      - eauto.
      - discriminate. }
  unfold time_time. rewrite save_classification_run.
  assert (NP : providers_down w -> False).
  { intros H. destruct (P0 H). discriminate. }
  destruct (faulty w0).
  { intros H. injection H as <- <-. splits.
    - eapply later_trans; [exact L0 | apply later_after_session].
    - exists []. splits; auto. discriminate.
    - intros H; destruct (NP H).
    - discriminate. }
  destruct (save_classification_body_ok (clock w0) content
              (_parse_classification_response response) service
              (clock w0 - start_time) (db w0)) as (i & d & S).
  rewrite S.
  destruct (update_ai_service_status_run service "active"
              (Some (clock w0 - start_time)) 0 1 (after_session w0 d))
    as (d2 & U & C & _).
  cbn [clock after_session] in *. rewrite U. unfold lift.
  intros H. injection H as <- <-. splits.
  - eapply later_trans; [exact L0|].
    eapply later_trans; [apply later_after_session|].
    eapply later_trans; [apply later_with_event | apply later_after_session].
  - exists [StatusUpdate service "active"]. splits; auto.
    cbn [trace after_session with_event]. rewrite T0.
    now rewrite <- app_assoc.
  - intros H; destruct (NP H).
  - intros resp M. cbn [db after_session].
    apply (served_same_rows content resp d); [exact C|].
    destruct (save_classification_body_served _ _ _ _ _ _ _ _ S)
      as (row & Hrow & _ & Hresp).
    exists row. split; auto.
Qed.

Lemma classify_locally_run start_time content w r w' :
  classify_locally start_time content w = (r, w') ->
  later w w' /\
  (exists evs,
      trace w' = (trace w ++ evs)%list /\ calls evs = [] /\
      (forall resp, r = Ok resp -> health_updates evs = ["fallback"])) /\
  (faulty w = false -> r = Ok (_fallback_classification content)) /\
  (forall resp, r = Ok resp ->
     resp = _fallback_classification content /\ served content resp (db w')).
Proof.
  unfold classify_locally, bind, time_time.
  rewrite save_classification_run. destruct (faulty w).
  { intros H. injection H as <- <-. splits.
    - apply later_after_session.
    - exists []. splits; auto using app_nil_r. discriminate.
    - discriminate.
    - discriminate. }
  destruct (save_classification_body_ok (clock w) content
              (ClassificationResponse.dict (_fallback_classification content))
              "fallback" (clock w - start_time) (db w)) as (i & d & S).
  rewrite S.
  destruct (update_ai_service_status_run "fallback" "active"
              (Some (clock w - start_time)) 0 1 (after_session w d))
    as (d2 & U & C & _).
  cbn [clock after_session] in *. rewrite U. unfold ret.
  intros H. injection H as <- <-. splits.
  - eapply later_trans; [apply later_after_session|].
    eapply later_trans; [apply later_with_event | apply later_after_session].
  - exists [StatusUpdate "fallback" "active"]. splits; auto.
  - reflexivity.
  - intros resp M. injection M as <-. split; auto. cbn [db after_session].
    apply (served_same_rows content _ d); [exact C|].
    destruct (save_classification_body_served _ _ _ _ _ _ _ _ S)
      as (row & Hrow & _ & Hresp).
    exists row. split; auto. apply Hresp, make_dict.
Qed.

(** *** [classify_content], run *)

Lemma classify_content_hit self content context w existing :
  fst (get_classification_history (generate_content_hash content) w)
    = Ok (Some existing) ->
  classify_content self content context w =
  (cached_classification existing, after_lookup w).
Proof.
  unfold classify_content, bind, time_time.
  rewrite get_classification_history_run. cbn [fst].
  intros H. injection H as ->. reflexivity.
Qed.

Lemma classify_content_miss self content context w :
  fst (get_classification_history (generate_content_hash content) w)
    = Ok None ->
  classify_content self content context w =
  try_except
    (classify_with (clock w) content
       (_create_classification_prompt content context) (primary_service self))
    (fun _ =>
       try_except
         (classify_with (clock w) content
            (_create_classification_prompt content context)
            (fallback_service self))
         (fun _ => classify_locally (clock w) content))
    (after_lookup w).
Proof.
  unfold classify_content, bind, time_time.
  rewrite get_classification_history_run. cbn [fst].
  intros H. injection H as ->. reflexivity.
Qed.

Lemma later_after_lookup w : later w (after_lookup w).
Proof. apply later_after_session. Qed.

(** What a dispatch that misses the cache does, tier by tier. *)
Lemma classify_content_miss_run self content context w :
  let prompt := _create_classification_prompt content context in
  let primary := primary_service self in
  let secondary := fallback_service self in
  fst (get_classification_history (generate_content_hash content) w)
    = Ok None ->
  exists evs,
    trace (snd (classify_content self content context w))
      = (trace w ++ evs)%list /\
    match classify_with (clock w) content prompt primary (after_lookup w) with
    | (Ok resp, _) =>
        fst (classify_content self content context w) = Ok resp /\
        calls evs = [(primary, prompt)] /\
        health_updates evs = [primary]
    | (Raise _, w1) =>
        calls evs = [(primary, prompt); (secondary, prompt)] /\
        match classify_with (clock w) content prompt secondary w1 with
        | (Ok resp, _) =>
            fst (classify_content self content context w) = Ok resp
        | (Raise _, w2) =>
            later w w2 /\
            fst (classify_content self content context w)
              = fst (classify_locally (clock w) content w2) /\
            (faulty w2 = false ->
             fst (classify_content self content context w)
               = Ok (_fallback_classification content))
        end
    end /\
    (providers_down w ->
     exists e1 w1 e2 w2,
       classify_with (clock w) content prompt primary (after_lookup w)
         = (Raise e1, w1) /\
       classify_with (clock w) content prompt secondary w1 = (Raise e2, w2)).
Proof.
  intros prompt primary secondary Hmiss.
  rewrite (classify_content_miss _ _ _ _ Hmiss). fold prompt primary secondary.
  unfold try_except.
  destruct (classify_with (clock w) content prompt primary (after_lookup w))
    as [r1 w1] eqn:E1.
  destruct (classify_with_run _ _ _ _ _ _ _ E1)
    as (L1 & (evs1 & T1 & C1 & U1) & P1 & _).
  assert (L01 : later w w1)
    by (eapply later_trans; [apply later_after_lookup | exact L1]).
  cbn [trace after_lookup after_session] in T1.
  destruct r1 as [resp|e1].
  { exists (AiCall primary prompt :: evs1). cbn [fst snd]. splits; auto.
    - simpl. now rewrite C1.
    - simpl. eapply U1; reflexivity.
    - intros H. destruct P1 as [e He];
        [eapply providers_down_later; [apply later_after_lookup | exact H]|].
      discriminate. }
  destruct (classify_with (clock w) content prompt secondary w1)
    as [r2 w2] eqn:E2.
  destruct (classify_with_run _ _ _ _ _ _ _ E2)
    as (L2 & (evs2 & T2 & C2 & _) & P2 & _).
  assert (L02 : later w w2) by (eapply later_trans; eauto).
  assert (PD : providers_down w ->
               exists e1' w1' e2 w2',
                 (Raise e1 : result ClassificationResponse.t, w1)
                   = (Raise e1', w1') /\
                 classify_with (clock w) content prompt secondary w1'
                   = (Raise e2, w2')).
  { intros H. destruct P2 as [e2 ->];
      [eapply providers_down_later; eauto|].
    exists e1, w1, e2, w2. auto. }
  destruct r2 as [resp|e2].
  { exists (AiCall primary prompt :: evs1 ++ AiCall secondary prompt :: evs2)%list.
    cbn [fst snd]. splits; auto.
    - rewrite T2, T1, <- app_assoc. reflexivity.
    - simpl. unfold calls in *. rewrite flat_map_app. simpl.
      now rewrite C1, C2. }
  destruct (classify_locally (clock w) content w2) as [r3 w3] eqn:E3.
  destruct (classify_locally_run _ _ _ _ _ E3)
    as (L3 & (evs3 & T3 & C3 & _) & F3 & _).
  exists (AiCall primary prompt :: evs1 ++ AiCall secondary prompt :: evs2
          ++ evs3)%list.
  cbn [fst snd]. splits; auto.
  - rewrite T3, T2, T1, <- !app_assoc. reflexivity.
  - simpl. unfold calls in *. rewrite flat_map_app. simpl.
    rewrite flat_map_app. now rewrite C1, C2, C3.
Qed.

Lemma classify_locally_faulty start_time content w :
  faulty w = true ->
  fst (classify_locally start_time content w) = Raise OperationalError.
Proof.
  intros F. unfold classify_locally, bind, time_time.
  rewrite save_classification_run, F. reflexivity.
Qed.

Lemma classify_content_miss_ok self content context w :
  fst (get_classification_history (generate_content_hash content) w)
    = Ok None ->
  store_up w ->
  exists resp, fst (classify_content self content context w) = Ok resp.
Proof.
  intros Hmiss Up.
  destruct (classify_content_miss_run self content context w Hmiss)
    as (evs & _ & H & _).
  destruct (classify_with _ _ _ (primary_service self) _) as [[resp|e1] w1].
  - exists resp. apply H.
  - destruct H as [_ H].
    destruct (classify_with _ _ _ (fallback_service self) _) as [[resp|e2] w2].
    + exists resp. exact H.
    + destruct H as (L & _ & H). eexists. apply H.
      apply store_up_not_faulty. eapply store_up_later; eauto.
Qed.

Lemma classify_content_miss_local self content context w :
  fst (get_classification_history (generate_content_hash content) w)
    = Ok None ->
  store_up w -> providers_down w ->
  fst (classify_content self content context w)
    = Ok (_fallback_classification content).
Proof.
  intros Hmiss Up Down.
  destruct (classify_content_miss_run self content context w Hmiss)
    as (evs & _ & H & P).
  destruct (P Down) as (e1 & w1 & e2 & w2 & E1 & E2).
  rewrite E1 in H. destruct H as [_ H]. rewrite E2 in H.
  destruct H as (L & _ & H). apply H.
  apply store_up_not_faulty. eapply store_up_later; eauto.
Qed.

Lemma classify_content_served self content context w resp w1 :
  classify_content self content context w = (Ok resp, w1) ->
  served content resp (db w1).
Proof.
  intros E.
  pose proof (get_classification_history_run (generate_content_hash content) w)
    as G.
  destruct (faulty w) eqn:F;
    [|destruct (classification_by_hash (generate_content_hash content) (db w))
        as [row|] eqn:R].
  2:{ (* a hit *)
      rewrite (classify_content_hit self content context w
                 (history_of (db w) row)) in E by now rewrite G.
      injection E as E <-. exists row. split; [exact R|].
      now rewrite <- cached_classification_row with (d := db w). }
  all: assert (Hmiss : fst (get_classification_history
                              (generate_content_hash content) w) = Ok None)
         by now rewrite G.
  all: rewrite (classify_content_miss _ _ _ _ Hmiss) in E.
  all: unfold try_except in E.
  all: destruct (classify_with _ _ _ (primary_service self) _)
         as [[r1|e1] w1'] eqn:E1;
       [ injection E as <- <-;
         now apply (classify_with_run _ _ _ _ _ _ _ E1) |].
  all: destruct (classify_with _ _ _ (fallback_service self) _)
         as [[r2|e2] w2'] eqn:E2;
       [ injection E as <- <-;
         now apply (classify_with_run _ _ _ _ _ _ _ E2) |].
  all: now apply (classify_locally_run _ _ _ _ _ E).
Qed.

(** ** C1: the order of the tiers *)

(** C1 (as amended).  When the lookup finds no stored classification,
    [classify_content] first calls the primary service.  It calls the
    secondary service, with the same prompt, exactly when the primary tier
    raises, which covers a call that raises, a store write that fails and
    a parsed reply that the response model rejects.  When the secondary
    tier raises as well, the result is that of [_fallback_classification],
    unless the store write of that tier fails.  So while the store is up a
    response is always returned. *)
Theorem classify_content_tiers (self : Service) (content : string)
    (context : option string) (w : World) :
  let prompt := _create_classification_prompt content context in
  let primary := primary_service self in
  let secondary := fallback_service self in
  let run := classify_content self content context w in
  fst (get_classification_history (generate_content_hash content) w)
    = Ok None ->
  exists evs,
    trace (snd run) = (trace w ++ evs)%list /\
    match classify_with (clock w) content prompt primary (after_lookup w) with
    | (Ok resp, _) => fst run = Ok resp /\ calls evs = [(primary, prompt)]
    | (Raise _, w1) =>
        calls evs = [(primary, prompt); (secondary, prompt)] /\
        match classify_with (clock w) content prompt secondary w1 with
        | (Ok resp, _) => fst run = Ok resp
        | (Raise _, w2) =>
            fst run = Ok (_fallback_classification content) \/
            (fst run = Raise OperationalError /\ faulty w2 = true)
        end
    end /\
    (forall e w1,
        _call_ai_service "OpenAI API temporarily unavailable" prompt primary
          (after_lookup w) = (Raise e, w1) ->
        calls evs = [(primary, prompt); (secondary, prompt)]) /\
    (store_up w -> exists resp, fst run = Ok resp).
Proof.
  intros prompt primary secondary run Hmiss.
  destruct (classify_content_miss_run self content context w Hmiss)
    as (evs & T & H & _).
  fold prompt primary secondary run in T, H.
  exists evs. splits; auto.
  - destruct (classify_with _ _ _ primary _) as [[resp|e1] w1].
    + split; apply H.
    + destruct H as [C H]. split; [exact C|].
      destruct (classify_with _ _ _ secondary _) as [[resp|e2] w2]; auto.
      destruct H as (_ & E & F). destruct (faulty w2) eqn:Fw.
      * right. split; auto. rewrite E.
        now apply classify_locally_faulty.
      * left. auto.
  - intros e w1 Hcall.
    destruct (classify_with _ _ _ primary _) as [[resp|e1] w1'] eqn:E1.
    + unfold classify_with, bind in E1. rewrite Hcall in E1. discriminate.
    + apply H.
  - intros Up. now apply classify_content_miss_ok.
Qed.

(** A dispatch on an empty store with both providers unreachable. *)
Lemma classify_content_tiers_witness :
  fst (get_classification_history (generate_content_hash quarterly_report)
         (world empty_database [] [])) = Ok None /\
  exists resp,
    fst (classify_content classification_service quarterly_report None
           (world empty_database [] [])) = Ok resp.
Proof.
  split; [reflexivity|].
  destruct (classify_content_tiers classification_service quarterly_report
              None (world empty_database [] []) eq_refl)
    as (evs & _ & _ & _ & H).
  apply H. intros b [].
Defined.

(** C1 (as stated) fails: the primary service answers [{}], so its call
    does not raise; the store is up; yet the secondary service is called,
    because the response model rejects a reply without fields. *)
Lemma classify_content_secondary_after_reply :
  let w := world empty_database [] [answer 5 "{}"; answer 7 full_reply] in
  let prompt := _create_classification_prompt quarterly_report None in
  fst (_call_ai_service "OpenAI API temporarily unavailable" prompt
         "anthropic" (after_lookup w)) = Ok "{}" /\
  calls (trace (snd (classify_content classification_service
                       quarterly_report None w)))
    = [("anthropic", prompt); ("openai", prompt)] /\
  db_faults w = [].
Proof. vm_compute. repeat split. Qed.

(** ** C2: reading a reply *)

(** The decoder on a few texts: a repeated key keeps its last value and
    its first place; a number that starts with a zero, a comma before the
    closing brace and text after the object are errors. *)
Example loads_repeated_key :
  Json.loads (Str.qq "{'a': 1, 'b': [true, null, -2.5], 'a': NaN}")
  = Some (PDict [("a", PFloat NaN);
                 ("b", PList [PBool true; PNone; PFloat (Finite (-2.5))])]).
Proof. vm_compute. reflexivity. Qed.

Example loads_refused :
  Json.loads (Str.qq "{'a': 01}") = None /\
  Json.loads (Str.qq "{'a': 1,}") = None /\
  Json.loads (Str.qq "{'a': 1} and more") = None.
Proof. vm_compute. repeat split. Qed.

Example re_search_braces_greedy :
  re_search_braces "a {b} c {d} e" = Some "{b} c {d}" /\
  re_search_braces "} no match {" = None.
Proof. vm_compute. repeat split. Qed.

Lemma from_first_open_app pre rest :
  has_char "{" pre = false ->
  from_first_open (pre ++ String "{" rest) = Some (String "{" rest).
Proof.
  induction pre as [|c pre IH]; simpl; [reflexivity|].
  intros H. apply orb_false_iff in H as [Hc Hpre].
  rewrite Hc. auto.
Qed.

Lemma upto_last_close_none post :
  has_char "}" post = false -> upto_last_close post = None.
Proof.
  induction post as [|c post IH]; simpl; [reflexivity|].
  intros H. apply orb_false_iff in H as [Hc Hpost].
  now rewrite IH, Hc.
Qed.

Lemma upto_last_close_app body post :
  has_char "}" post = false ->
  upto_last_close (body ++ String "}" post) = Some (body ++ "}").
Proof.
  intros H. induction body as [|c body IH]; simpl.
  - now rewrite upto_last_close_none.
  - now rewrite IH.
Qed.

(** The match runs from the first opening brace of the reply to its last
    closing brace. *)
Lemma re_search_braces_app pre mid post :
  has_char "{" pre = false ->
  has_char "}" post = false ->
  re_search_braces (pre ++ "{" ++ mid ++ "}" ++ post)
    = Some ("{" ++ mid ++ "}").
Proof.
  intros Hpre Hpost. unfold re_search_braces.
  change ("{" ++ mid ++ "}" ++ post) with (String "{" (mid ++ String "}" post)).
  rewrite from_first_open_app by exact Hpre.
  change (String "{" (mid ++ String "}" post))
    with (String "{" mid ++ String "}" post).
  now rewrite upto_last_close_app.
Qed.

Lemma from_first_open_brace s t :
  from_first_open s = Some t -> exists r, t = String "{" r.
Proof.
  induction s as [|c s IH]; simpl; [discriminate|].
  destruct (Ascii.eqb c "{") eqn:E; auto.
  intros H. injection H as <-. apply Ascii.eqb_eq in E. subst. eauto.
Qed.

Lemma upto_last_close_head c r m :
  upto_last_close (String c r) = Some m -> exists r', m = String c r'.
Proof.
  simpl. destruct (upto_last_close r).
  - intros H. injection H as <-. eauto.
  - destruct (Ascii.eqb c "}"); [|discriminate].
    intros H. injection H as <-. eauto.
Qed.

Lemma members_dict fuel acc s v r :
  Json.members fuel acc s = Some (v, r) -> exists d, v = PDict d.
Proof.
  revert acc s. induction fuel as [|fuel IH]; intros acc s; simpl;
    [discriminate|].
  destruct s as [|c s]; [discriminate|].
  destruct (Ascii.eqb c Str.dquote); [|discriminate].
  destruct (Json.scanstring _ _ _) as [[k r1]|]; [|discriminate].
  destruct (Json.skip_ws r1) as [|c1 r2]; [discriminate|].
  destruct c1 as [[] [] [] [] [] [] [] []]; try discriminate.
  destruct (Json.value fuel _) as [[v' r3]|]; [|discriminate].
  destruct (Json.skip_ws r3) as [|c3 r4]; [discriminate|].
  destruct c3 as [[] [] [] [] [] [] [] []]; try discriminate;
    first [apply IH | intros H; injection H as <- _; eauto].
Qed.

(** A text that starts with a brace decodes to a dict or not at all. *)
Lemma loads_object r v :
  Json.loads (String "{" r) = Some v -> exists d, v = PDict d.
Proof.
  unfold Json.loads.
  change (Json.skip_ws (String "{" r)) with (String "{" r).
  set (fuel := (2 + 2 * String.length (String "{" r))%nat).
  destruct fuel as [|fuel]; [discriminate|].
  cbn [Json.value]. change (Ascii.eqb "{" Str.dquote) with false.
  change (Ascii.eqb "{" "{") with true. cbv iota.
  destruct (Json.skip_ws r) as [|c' r'] eqn:E; [discriminate|].
  destruct (Ascii.eqb c' "}").
  - destruct (Json.skip_ws r'); [|discriminate].
    intros H. injection H as <-. eauto.
  - destruct (Json.members fuel [] (String c' r')) as [[v' r'']|] eqn:M;
      [|discriminate].
    destruct (Json.skip_ws r''); [|discriminate].
    intros H. injection H as <-. eapply members_dict; eauto.
Qed.

Lemma parse_json_object_cases response :
  (exists text d,
      re_search_braces response = Some text /\
      Json.loads text = Some (PDict d) /\
      parse_json_object response = Ok d) \/
  (exists msg, parse_json_object response = Raise (ValueError msg)).
Proof.
  unfold parse_json_object, re_search_braces.
  destruct (from_first_open response) as [t|] eqn:F; [|right; eauto].
  destruct (from_first_open_brace _ _ F) as [r ->].
  destruct (upto_last_close (String "{" r)) as [m|] eqn:U; [|right; eauto].
  destruct (upto_last_close_head _ _ _ U) as [r' ->].
  destruct (Json.loads (String "{" r')) as [v|] eqn:L; [|right; eauto].
  destruct (loads_object _ _ L) as [d ->]. left. eauto.
Qed.

(** C2 (as amended).  [_parse_classification_response] returns a dict for
    every reply and raises nothing: the decoded text between the first
    opening brace and the last closing brace of the reply when that text
    decodes, and the fixed fallback data when the reply has no such text
    or the text does not decode.  So a JSON object with prose around it is
    parsed to its fields when the prose before it holds no opening brace
    and the prose after it no closing brace. *)
Theorem parse_classification_response_robust (response : string) :
  ((exists text d,
       re_search_braces response = Some text /\
       Json.loads text = Some (PDict d) /\
       _parse_classification_response response = d) \/
   _parse_classification_response response = _fallback_classification_data)
  /\
  (re_search_braces response = None ->
   _parse_classification_response response = _fallback_classification_data)
  /\
  (forall text,
      re_search_braces response = Some text ->
      Json.loads text = None ->
      _parse_classification_response response = _fallback_classification_data)
  /\
  (forall pre mid post d,
      response = pre ++ "{" ++ mid ++ "}" ++ post ->
      has_char "{" pre = false ->
      has_char "}" post = false ->
      Json.loads ("{" ++ mid ++ "}") = Some (PDict d) ->
      _parse_classification_response response = d).
Proof.
  unfold _parse_classification_response. splits.
  - destruct (parse_json_object_cases response)
      as [(text & d & S & L & ->) | [msg ->]].
    + left. exists text, d. auto.
    + right. reflexivity.
  - unfold parse_json_object. now intros ->.
  - unfold parse_json_object. now intros text -> ->.
  - intros pre mid post d -> Hpre Hpost L. unfold parse_json_object.
    now rewrite re_search_braces_app, L.
Qed.

(** A full reply between two sentences. *)
Lemma parse_classification_response_robust_witness :
  has_char "{" "Here is the classification: " = false /\
  has_char "}" " I hope this helps." = false /\
  Dict.lookup "category"
    (_parse_classification_response
       ("Here is the classification: " ++ full_reply ++ " I hope this helps."))
    = Some (PStr "03-Resources").
Proof.
  assert (L : exists d, Json.loads ("{" ++ reply_fields ++ "}") = Some (PDict d)
                        /\ Dict.lookup "category" d = Some (PStr "03-Resources")).
  { eexists. split; vm_compute; reflexivity. }
  destruct L as (d & L & C).
  split; [reflexivity|]. split; [reflexivity|].
  destruct (parse_classification_response_robust
              ("Here is the classification: " ++ full_reply
               ++ " I hope this helps.")) as (_ & _ & _ & H).
  rewrite (H "Here is the classification: " reply_fields
             " I hope this helps." d); auto.
Defined.

(** C2 (as stated) fails: the reply holds a valid JSON object after prose
    that holds braces of its own; the match starts at the brace of the
    prose, does not decode, and the fallback data is returned in place of
    the fields of the object. *)
Lemma parse_classification_response_prose_braces :
  let response := "Use {braces} with care: " ++ full_reply in
  (exists d, Json.loads full_reply = Some (PDict d) /\
             Dict.lookup "category" d = Some (PStr "03-Resources")) /\
  re_search_braces response = Some ("{braces} with care: " ++ full_reply) /\
  _parse_classification_response response = _fallback_classification_data /\
  Dict.lookup "category" (_parse_classification_response response)
    = Some (PStr "02-Areas").
Proof.
  cbv zeta. splits; try (vm_compute; reflexivity).
  eexists. split; vm_compute; reflexivity.
Qed.

(** ** C3: the keyword fallback *)

(** *** Lowering a text of ASCII *)

Lemma to_lower_ascii c :
  0 <= c < 128 -> Unicode.to_lower c = [lower_point c].
Proof.
  intros H. unfold Unicode.to_lower, lower_point.
  replace (c =? 304) with false by (symmetry; apply Z.eqb_neq; lia).
  change Unicode.lower_ranges
    with ((65, 90, 1, 32) :: tl Unicode.lower_ranges).
  cbn [find Unicode.in_lower_range]. rewrite Z.mod_1_r. cbn [Z.eqb].
  rewrite Bool.andb_true_r.
  destruct ((65 <=? c) && (c <=? 90)); [reflexivity|].
  assert (T : forallb (fun r => 128 <=? fst (fst (fst r)))
                      (tl Unicode.lower_ranges) = true)
    by (vm_compute; reflexivity).
  rewrite forallb_forall in T.
  rewrite find_all_false; [reflexivity|].
  intros [[[first last] step] offset] Hin. specialize (T _ Hin).
  cbn [fst] in T. apply Z.leb_le in T. unfold Unicode.in_lower_range.
  replace (first <=? c) with false by (symmetry; apply Z.leb_gt; lia).
  reflexivity.
Qed.

Lemma decode_ascii s :
  is_ascii s -> Str.decode s = map Str.byte (chars_of s).
Proof.
  unfold is_ascii, Str.decode, chars_of.
  induction s as [|b r IH]; intros H; [reflexivity|].
  cbn [list_ascii_of_string map Str.decode_from] in *.
  inversion H as [|? ? Hb Hr]; subst.
  apply Z.ltb_lt in Hb. rewrite Hb. f_equal. now apply IH.
Qed.

Lemma lower_points_ascii l : forall before,
  Forall (fun c => 0 <= c < 128) l ->
  Str.lower_points before l = map lower_point l.
Proof.
  induction l as [|c l IH]; intros before H; [reflexivity|].
  inversion H as [|? ? Hc Hl]; subst. cbn [Str.lower_points map].
  replace (c =? 931) with false by (symmetry; apply Z.eqb_neq; lia).
  rewrite (to_lower_ascii c Hc), IH by exact Hl. reflexivity.
Qed.

Lemma encode_ascii l :
  Forall (fun c => 0 <= c < 128) l ->
  chars_of (Str.encode l) = map Str.char l.
Proof.
  unfold chars_of. induction 1 as [|c l Hc Hl IH]; [reflexivity|].
  cbn [Str.encode map]. unfold Str.utf8.
  replace (c <? 128) with true by (symmetry; apply Z.ltb_lt; lia).
  cbn [append list_ascii_of_string]. now rewrite IH.
Qed.

Lemma lowered_char_decide a b :
  (existsb (fun p => Ascii.eqb (fst p) a && Ascii.eqb (snd p) b)
           (combine capitals small_letters)
   || (negb (existsb (Ascii.eqb a) capitals) && Ascii.eqb b a)) = true ->
  lowered_char a b.
Proof.
  intros H. apply Bool.orb_true_iff in H as [H|H].
  - left. apply existsb_exists in H as ([x y] & Hin & E).
    apply andb_true_iff in E as [E1 E2].
    apply Ascii.eqb_eq in E1, E2. cbn [fst snd] in *. now subst.
  - right. apply andb_true_iff in H as [H1 H2].
    apply Ascii.eqb_eq in H2. split; [|exact H2].
    intros Hin. apply Bool.negb_true_iff in H1.
    assert (E : existsb (Ascii.eqb a) capitals = true).
    { apply existsb_exists. exists a. split; [exact Hin|].
      apply Ascii.eqb_refl. }
    congruence.
Qed.

Lemma lowered_char_byte a :
  lowered_char a (Str.char (lower_point (Str.byte a))).
Proof.
  apply lowered_char_decide.
  destruct a as [[] [] [] [] [] [] [] []]; vm_compute; reflexivity.
Qed.

Lemma lower_ascii s : is_ascii s -> lowered_text s (Str.lower s).
Proof.
  intros H. unfold lowered_text, Str.lower.
  rewrite (decode_ascii s H).
  assert (B : Forall (fun c => 0 <= c < 128) (map Str.byte (chars_of s))).
  { apply Forall_map. eapply Forall_impl; [|exact H].
    intros c Hc. cbv beta in *. unfold Str.byte in *. lia. }
  rewrite (lower_points_ascii _ [] B).
  rewrite encode_ascii.
  2:{ apply Forall_map. eapply Forall_impl; [|exact B].
      intros c Hc. cbv beta. unfold lower_point.
      destruct ((65 <=? c) && (c <=? 90)) eqn:E; [|exact Hc].
      apply andb_true_iff in E as [E1 E2]. apply Z.leb_le in E1, E2. lia. }
  rewrite !map_map. clear. induction (chars_of s) as [|a l IH];
    constructor; [apply lowered_char_byte | exact IH].
Qed.

(** C3.  [_fallback_classification] returns the first category, in the
    order Projects, Areas, Resources, Archives, one of whose keywords
    occurs in the lowered content, with confidence 0.6 and the reasoning
    of the rule-based fallback; when no keyword of any category occurs it
    returns the Areas category with confidence 0.5.  For the quarterly
    report, a dispatch that finds nothing stored and reaches no provider
    returns the Projects category with that confidence and reasoning.
    The lowered content is the content in lower case: for a content of
    ASCII, the content with each capital letter replaced by its small
    letter, and beyond ASCII what [str.lower] gives, as for the Kelvin
    sign, a capital with an accent, a sigma at the end of a word and the
    capital I with a dot.  A content in capitals is therefore classified
    by the keywords it holds. *)
Theorem fallback_classification_first_match (content : string) :
  let r := _fallback_classification content in
  let content_lower := Str.lower content in
  map fst PARA_CLASSIFICATION_MODEL
    = ["01-Projects"; "02-Areas"; "03-Resources"; "04-Archives"] /\
  (forall i category rules,
      nth_error PARA_CLASSIFICATION_MODEL i = Some (category, rules) ->
      keyword_occurs content_lower rules ->
      (forall j category' rules',
          (j < i)%nat ->
          nth_error PARA_CLASSIFICATION_MODEL j = Some (category', rules') ->
          ~ keyword_occurs content_lower rules') ->
      ClassificationResponse.category r = category /\
      ClassificationResponse.confidence r = Finite 0.6 /\
      ClassificationResponse.reasoning r
        = "Rule-based classification fallback") /\
  ((forall category rules,
       In (category, rules) PARA_CLASSIFICATION_MODEL ->
       ~ keyword_occurs content_lower rules) ->
   ClassificationResponse.category r = "02-Areas" /\
   ClassificationResponse.confidence r = Finite 0.5) /\
  (forall self context w,
      fst (get_classification_history
             (generate_content_hash quarterly_report) w) = Ok None ->
      store_up w -> providers_down w ->
      exists resp,
        fst (classify_content self quarterly_report context w) = Ok resp /\
        ClassificationResponse.category resp = "01-Projects" /\
        ClassificationResponse.confidence resp = Finite 0.6 /\
        ClassificationResponse.reasoning resp
          = "Rule-based classification fallback") /\
  (is_ascii content -> lowered_text content content_lower) /\
  (Str.lower "URGENT: Project DEADLINE" = "urgent: project deadline" /\
   Str.lower kelvin_work = "work" /\
   Str.lower (Str.encode [201; 67; 79; 76; 69])
     = Str.encode [233; 99; 111; 108; 101] /\
   Str.lower (Str.encode [927; 916; 927; 931])
     = Str.encode [959; 948; 959; 962] /\
   Str.lower (Str.encode [931; 927; 931; 32; 931])
     = Str.encode [963; 959; 962; 32; 963] /\
   Str.lower (Str.encode [304]) = Str.encode [105; 775]) /\
  (let capitals := _fallback_classification "URGENT: Project DEADLINE" in
   let kelvin := _fallback_classification kelvin_work in
   let none := _fallback_classification "LUNCH" in
   ClassificationResponse.category capitals = "01-Projects" /\
   ClassificationResponse.confidence capitals = Finite 0.6 /\
   ClassificationResponse.category kelvin = "01-Projects" /\
   ClassificationResponse.confidence kelvin = Finite 0.6 /\
   ClassificationResponse.category none = "02-Areas" /\
   ClassificationResponse.confidence none = Finite 0.5).
Proof.
  intros r content_lower. splits.
  - reflexivity.
  - intros i category rules Hi Hocc Hbefore.
    assert (F : find (fun cr => matches content_lower (snd cr))
                     PARA_CLASSIFICATION_MODEL = Some (category, rules)).
    { apply (find_first _ _ i); auto.
      - now apply matches_keyword_occurs.
      - intros j [c' r'] Hj Hnth. apply matches_false. eauto. }
    unfold r, _fallback_classification. fold content_lower.
    rewrite F. auto.
  - intros Hnone.
    assert (F : find (fun cr => matches content_lower (snd cr))
                     PARA_CLASSIFICATION_MODEL = None).
    { apply find_all_false. intros [c' r'] Hin. apply matches_false. eauto. }
    unfold r, _fallback_classification. fold content_lower.
    rewrite F. auto.
  - intros self context w Hmiss Up Down. eexists. split.
    + now apply classify_content_miss_local.
    + repeat split.
  - apply lower_ascii.
  - vm_compute. reflexivity.
  - vm_compute. reflexivity.
  - vm_compute. reflexivity.
  - vm_compute. reflexivity.
  - vm_compute. reflexivity.
  - vm_compute. reflexivity.
  - vm_compute. repeat split.
Qed.

(** A content in capitals holds the keyword [urgent] of the first
    category once it is lowered. *)
Lemma fallback_classification_first_match_witness :
  exists rules,
    nth_error PARA_CLASSIFICATION_MODEL 0 = Some ("01-Projects", rules) /\
    keyword_occurs (Str.lower "URGENT: Project DEADLINE") rules /\
    ~ keyword_occurs "URGENT: Project DEADLINE" rules /\
    ClassificationResponse.category
      (_fallback_classification "URGENT: Project DEADLINE") = "01-Projects".
Proof.
  eexists. split; [reflexivity|].
  match goal with |- ?K /\ _ => assert (HK : K) end.
  { exists "urgent". split; [simpl; tauto|].
    exists "", ": project deadline". vm_compute. reflexivity. }
  split; [exact HK|]. split.
  - intros (keyword & Hin & Hocc).
    apply contains_occurs in Hocc. revert Hocc.
    simpl in Hin.
    repeat (destruct Hin as [<-|Hin]; [vm_compute; discriminate|]).
    destruct Hin.
  - destruct (fallback_classification_first_match "URGENT: Project DEADLINE")
      as (_ & H & _).
    apply (H O "01-Projects" _ eq_refl HK).
    intros j c' r' Hj. inversion Hj.
Defined.

(** ** C4: serving a stored classification *)

(** C4 (as amended).  When the lookup of the content hash succeeds and
    finds a stored classification whose fields the response model
    accepts, [classify_content] returns the stored result, calls no
    provider and writes nothing.  Hence when a submission has returned a
    response and the lookup of the next submission of the same content
    does not fail, that submission returns the same response from the
    same stored row, calls no provider and writes nothing. *)
Theorem classify_content_idempotent (self : Service) (content : string)
    (context : option string) :
  (forall w row resp,
      faulty w = false ->
      classification_by_hash (generate_content_hash content) (db w)
        = Some row ->
      row_response row = Ok resp ->
      let run := classify_content self content context w in
      fst run = Ok resp /\
      db (snd run) = db w /\
      trace (snd run) = trace w /\
      backend (snd run) = backend w) /\
  (forall w resp w1,
      classify_content self content context w = (Ok resp, w1) ->
      faulty w1 = false ->
      let again := classify_content self content context w1 in
      fst again = Ok resp /\
      db (snd again) = db w1 /\
      trace (snd again) = trace w1 /\
      backend (snd again) = backend w1 /\
      exists row,
        classification_by_hash (generate_content_hash content) (db w1)
          = Some row /\
        classification_by_hash (generate_content_hash content)
          (db (snd again)) = Some row).
Proof.
  assert (Hit : forall w row resp,
      faulty w = false ->
      classification_by_hash (generate_content_hash content) (db w)
        = Some row ->
      row_response row = Ok resp ->
      classify_content self content context w = (Ok resp, after_lookup w)).
  { intros w row resp F R V.
    rewrite (classify_content_hit self content context w
               (history_of (db w) row)).
    - now rewrite cached_classification_row, V.
    - now rewrite get_classification_history_run, F, R. }
  split.
  - intros w row resp F R V run. unfold run.
    rewrite (Hit w row resp F R V). repeat split.
  - intros w resp w1 E F again.
    destruct (classify_content_served _ _ _ _ _ _ E) as (row & R & V).
    unfold again. rewrite (Hit w1 row resp F R V). splits; auto.
    exists row. auto.
Qed.

(** The second submission of the quarterly report. *)
Lemma classify_content_idempotent_witness :
  let w1 := snd (classify_content classification_service quarterly_report
                   None (world empty_database [] [])) in
  let again := classify_content classification_service quarterly_report
                 None w1 in
  faulty w1 = false /\
  fst again = Ok (_fallback_classification quarterly_report) /\
  db (snd again) = db w1 /\
  trace (snd again) = trace w1.
Proof.
  intros w1 again.
  assert (F : faulty w1 = false) by reflexivity.
  split; [exact F|].
  destruct (classify_content_idempotent classification_service
              quarterly_report None) as [_ H].
  destruct (H (world empty_database [] [])
              (_fallback_classification quarterly_report) w1)
    as (A & B & C & _); [vm_compute; reflexivity | exact F |].
  auto.
Defined.

(** C4 (as stated) fails: the store holds a classification of the
    quarterly report, the lookup of the next submission fails, and the
    submission calls the primary service and returns its answer in place
    of the stored result. *)
Lemma classify_content_lookup_failure_calls_provider :
  let w := world store_with_report [true] [answer 5 full_reply] in
  let run := classify_content classification_service quarterly_report None w in
  option_map ContentClassification.category
    (classification_by_hash (generate_content_hash quarterly_report) (db w))
    = Some (PStr "01-Projects") /\
  calls (trace (snd run))
    = [("anthropic", _create_classification_prompt quarterly_report None)] /\
  option_map ContentClassification.category
    (classification_by_hash (generate_content_hash quarterly_report)
       (db (snd run)))
    = Some (PStr "03-Resources") /\
  match fst run with
  | Ok resp => ClassificationResponse.category resp = "03-Resources"
  | Raise _ => False
  end.
Proof. vm_compute. repeat split. Qed.

(** ** C5: the health update of each tier *)

(** C5 fails on the code.  On an empty store with both providers out of
    reach, [generate_smart_tags] and [analyze_content] return the result
    of their local substitute and record no health update at all: the
    trace holds the two provider calls and nothing else, and the health
    table stays empty.  [classify_content], in the same world, records
    the update named [fallback] for its local tier. *)
Theorem local_tier_health_update (content : string)
    (title category analysis context : option string) :
  let w := world empty_database [] [] in
  let tagged := generate_smart_tags tagging_service content title category
                  analysis w in
  let analyzed := analyze_content analysis_service content title context w in
  let classified := classify_content classification_service content context w in
  (fst tagged = Ok (_fallback_tagging content) /\
   trace (snd tagged)
     = [AiCall "anthropic" (_create_tagging_prompt content title category analysis);
        AiCall "openai" (_create_tagging_prompt content title category analysis)] /\
   health_updates (trace (snd tagged)) = [] /\
   ai_service_status (db (snd tagged)) = []) /\
  (fst analyzed = Ok (_fallback_analysis content) /\
   trace (snd analyzed)
     = [AiCall "anthropic" (_create_analysis_prompt content title context);
        AiCall "openai" (_create_analysis_prompt content title context)] /\
   health_updates (trace (snd analyzed)) = [] /\
   ai_service_status (db (snd analyzed)) = []) /\
  (fst classified = Ok (_fallback_classification content) /\
   health_updates (trace (snd classified)) = ["fallback"] /\
   map AIServiceStatus.service_name (ai_service_status (db (snd classified)))
     = ["fallback"]).
Proof.
  repeat split.
Qed.

(** ** C6: persistence errors *)

Lemma save_tags_run classification_id data service ms w :
  save_tags classification_id data service ms w =
  if faulty w then (Raise OperationalError, after_session w (db w))
  else match save_tags_body (clock w) classification_id data service ms (db w) with
       | Ok (u, d) => (Ok u, after_session w d)
       | Raise e => (Raise e, after_session w (db w))
       end.
Proof.
  unfold save_tags, save_tags_block, try_except, bind, time_time, raise.
  rewrite session_run. destruct (faulty w); [reflexivity|].
  destruct (save_tags_body _ _ _ _ _ _) as [[u d]|e]; reflexivity.
Qed.

Lemma save_analysis_run classification_id data service ms w :
  save_analysis classification_id data service ms w =
  if faulty w then (Raise OperationalError, after_session w (db w))
  else match save_analysis_body (clock w) classification_id data service ms (db w) with
       | Ok (u, d) => (Ok u, after_session w d)
       | Raise e => (Raise e, after_session w (db w))
       end.
Proof.
  unfold save_analysis, save_analysis_block, try_except, bind, time_time, raise.
  rewrite session_run. destruct (faulty w); [reflexivity|].
  destruct (save_analysis_body _ _ _ _ _ _) as [[u d]|e]; reflexivity.
Qed.

Lemma reraise {A} (block : M A) (w : World) e w1 :
  block w = (Raise e, w1) ->
  try_except block (fun e => raise e) w = (Raise e, w1).
Proof. unfold try_except. now intros ->. Qed.

(** C6.  An exception raised in the read of the classification store is
    caught and [get_classification_history] returns [None], as on a miss;
    so the read never raises.  An exception raised in a write
    ([save_classification], [save_tags], [save_analysis]) is raised again
    to the caller, and the tables stay as they were; in the last tier of
    [classify_content] it reaches the caller of the dispatch. *)
Theorem persistence_error_policy :
  (forall content_hash w e w1,
      get_classification_history_block content_hash w = (Raise e, w1) ->
      get_classification_history content_hash w = (Ok None, w1)) /\
  (forall content_hash w,
      faulty w = true ->
      get_classification_history content_hash w
        = (Ok None, after_session w (db w))) /\
  (forall content_hash w,
      exists r, fst (get_classification_history content_hash w) = Ok r) /\
  (forall content data service ms w e w1,
      save_classification_block content data service ms w = (Raise e, w1) ->
      save_classification content data service ms w = (Raise e, w1)) /\
  (forall classification_id data service ms w e w1,
      save_tags_block classification_id data service ms w = (Raise e, w1) ->
      save_tags classification_id data service ms w = (Raise e, w1)) /\
  (forall classification_id data service ms w e w1,
      save_analysis_block classification_id data service ms w = (Raise e, w1) ->
      save_analysis classification_id data service ms w = (Raise e, w1)) /\
  (forall content classification_id data service ms w,
      faulty w = true ->
      save_classification content data service ms w
        = (Raise OperationalError, after_session w (db w)) /\
      save_tags classification_id data service ms w
        = (Raise OperationalError, after_session w (db w)) /\
      save_analysis classification_id data service ms w
        = (Raise OperationalError, after_session w (db w))) /\
  (forall start_time content w,
      faulty w = true ->
      fst (classify_locally start_time content w) = Raise OperationalError).
Proof.
  splits.
  - intros h w e w1 H. unfold get_classification_history, try_except.
    now rewrite H.
  - intros h w F. now rewrite get_classification_history_run, F.
  - intros h w. rewrite get_classification_history_run. cbn [fst]. eauto.
  - intros. now apply reraise.
  - intros. now apply reraise.
  - intros. now apply reraise.
  - intros content cid data service ms w F.
    now rewrite save_classification_run, save_tags_run, save_analysis_run, F.
  - intros. now apply classify_locally_faulty.
Qed.

(** A store whose coming session fails. *)
Lemma persistence_error_policy_witness :
  let w := world store_with_report [true] [] in
  faulty w = true /\
  fst (get_classification_history (generate_content_hash quarterly_report) w)
    = Ok None /\
  fst (save_classification quarterly_report _fallback_classification_data
         "openai" 3 w) = Raise OperationalError.
Proof.
  intros w.
  destruct persistence_error_policy as (_ & R & _ & _ & _ & _ & W & _).
  assert (F : faulty w = true) by reflexivity.
  split; [exact F|]. split.
  - now rewrite (R _ w F).
  - destruct (W quarterly_report O _fallback_classification_data "openai" 3 w F)
      as [-> _]. reflexivity.
Defined.

(** ** C7: one row for one hash *)




Lemma map_update_first {A B} (g : A -> B) (p : A -> bool) (f : A -> A) l :
  (forall x, g (f x) = g x) -> map g (update_first p f l) = map g l.
Proof.
  intros H. induction l as [|a l IH]; simpl; auto.
  destruct (p a); simpl; now rewrite ?H, ?IH.
Qed.



Lemma NoDup_snoc {A} (l : list A) (x : A) :
  NoDup l -> ~ In x l -> NoDup (l ++ [x]).
Proof.
  intros N H. induction N as [|a l Ha N IH]; simpl.
  - constructor; [intros [] | constructor].
  - constructor.
    + intros Hin. apply in_app_or in Hin as [Hin|[->|[]]]; auto.
      apply H. now left.
    + apply IH. intros Hin. apply H. now right.
Qed.




(** The shape of a digest. *)
Lemma round_length st kw :
  List.length st = 8%nat -> List.length (Sha256.round st kw) = 8%nat.
Proof.
  destruct st as [|a [|b [|c [|d [|e [|f [|g [|h [|i r]]]]]]]]];
    try discriminate; reflexivity.
Qed.

Lemma rounds_length kws : forall st,
  List.length st = 8%nat ->
  List.length (fold_left Sha256.round kws st) = 8%nat.
Proof.
  induction kws as [|kw kws IH]; intros st H; simpl; [exact H|].
  apply IH, round_length, H.
Qed.

Lemma compress_length h block :
  List.length h = 8%nat -> List.length (Sha256.compress h block) = 8%nat.
Proof.
  intros H. unfold Sha256.compress.
  rewrite length_map, length_combine, rounds_length, H; [reflexivity|exact H].
Qed.

Lemma digest_length msg : List.length (Sha256.digest msg) = 8%nat.
Proof.
  unfold Sha256.digest. cbv zeta.
  generalize (Sha256.blocks
                (List.length (Sha256.words (List.length (Sha256.pad msg))
                                (Sha256.pad msg)))
                (Sha256.words (List.length (Sha256.pad msg))
                   (Sha256.pad msg))).
  intros bs. assert (H : List.length Sha256.H0 = 8%nat) by reflexivity.
  revert H. generalize Sha256.H0. induction bs as [|b bs IH]; intros h H.
  - exact H.
  - simpl. apply IH, compress_length, H.
Qed.

Lemma hex_digit_lower_hex d :
  0 <= d < 16 -> is_lower_hex (Sha256.hex_digit d) = true.
Proof.
  intros H.
  assert (C : d = 0 \/ d = 1 \/ d = 2 \/ d = 3 \/ d = 4 \/ d = 5 \/ d = 6 \/
              d = 7 \/ d = 8 \/ d = 9 \/ d = 10 \/ d = 11 \/ d = 12 \/
              d = 13 \/ d = 14 \/ d = 15) by lia.
  repeat (destruct C as [->|C]; [reflexivity|]). subst d. reflexivity.
Qed.

Lemma hex_chars k n :
  String.length (Sha256.hex k n) = k /\
  Forall (fun c => is_lower_hex c = true) (chars_of (Sha256.hex k n)).
Proof.
  induction k as [|k [L F]]; [split; [reflexivity|constructor]|].
  cbn [Sha256.hex String.length]. split; [now rewrite L|].
  unfold chars_of in *. cbn [list_ascii_of_string]. constructor; [|exact F].
  apply hex_digit_lower_hex, Z.mod_pos_bound. lia.
Qed.

Lemma chars_of_app s t : chars_of (s ++ t) = (chars_of s ++ chars_of t)%list.
Proof.
  unfold chars_of. induction s as [|c s IH]; [reflexivity|].
  cbn [append list_ascii_of_string]. now rewrite IH.
Qed.

Lemma string_length_append s t :
  String.length (s ++ t) = (String.length s + String.length t)%nat.
Proof.
  induction s as [|c s IH]; [reflexivity|].
  cbn [append String.length plus]. now rewrite IH.
Qed.

Lemma concat_hex ws :
  String.length (String.concat "" (map (Sha256.hex 8) ws))
    = (8 * List.length ws)%nat /\
  Forall (fun c => is_lower_hex c = true)
         (chars_of (String.concat "" (map (Sha256.hex 8) ws))).
Proof.
  induction ws as [|x ws [L F]]; [split; [reflexivity|constructor]|].
  destruct (hex_chars 8 x) as [Lx Fx].
  destruct ws as [|y ws].
  - cbn [map String.concat List.length]. split; [exact Lx | exact Fx].
  - change (String.concat "" (map (Sha256.hex 8) (x :: y :: ws)))
      with (Sha256.hex 8 x ++ "" ++
            String.concat "" (map (Sha256.hex 8) (y :: ws))).
    cbn [append]. split.
    + rewrite string_length_append, Lx, L. cbn [List.length]. lia.
    + rewrite chars_of_app. apply Forall_app. split; assumption.
Qed.



(** ** C8: the tags of a classification are replaced *)

Lemma add_tags_rows now classification_id data tags d d' :
  add_tags now classification_id data tags d = Ok d' ->
  exists rows,
    content_tags d' = (content_tags d ++ rows)%list /\
    map ContentTag.tag rows = tags /\
    Forall (fun t => ContentTag.classification_id t = classification_id /\
                     (next_id d <= ContentTag.id t)%nat) rows.
Proof.
  revert d. induction tags as [|tag rest IH]; intros d; simpl.
  - intros H. injection H as <-. exists []. splits; auto using app_nil_r.
  - destruct (Py.get _ _ _) as [group|e]; [|discriminate]. simpl.
    intros H. apply IH in H as (rows & T & G & F).
    cbn [content_tags with_tags next_id] in T, F.
    eexists (_ :: rows). splits.
    + rewrite T, <- app_assoc. reflexivity.
    + simpl. now rewrite G.
    + constructor; [split; [reflexivity | cbn; lia]|].
      eapply Forall_impl; [|exact F]. cbn. intros t [A B]. split; [auto|lia].
Qed.

Lemma save_tags_body_rows now classification_id data service ms d d' l :
  Dict.get "smart_tags" (PList []) data = PList l ->
  save_tags_body now classification_id data service ms d = Ok (tt, d') ->
  exists rows,
    content_tags d'
      = (filter (fun t => negb (Nat.eqb (ContentTag.classification_id t)
                                        classification_id))
                (content_tags d) ++ rows)%list /\
    map ContentTag.tag rows = l /\
    Forall (fun t => ContentTag.classification_id t = classification_id /\
                     (next_id d <= ContentTag.id t)%nat) rows.
Proof.
  intros L. unfold save_tags_body. rewrite L. cbn [Py.iter Py.len and_then].
  destruct (add_tags _ _ _ _ _) as [d1|e] eqn:A; [|discriminate].
  cbn [and_then]. intros H. injection H as <-.
  apply add_tags_rows in A as (rows & T & G & F).
  exists rows. cbn [content_tags _log_processing fresh with_logs with_tags] in *.
  auto.
Qed.

Lemma filter_none {A} (p : A -> bool) l :
  Forall (fun x => p x = false) l -> filter p l = [].
Proof.
  induction 1 as [|a l Ha _ IH]; simpl; auto. now rewrite Ha.
Qed.

Lemma filter_all {A} (p : A -> bool) l :
  Forall (fun x => p x = true) l -> filter p l = l.
Proof.
  induction 1 as [|a l Ha _ IH]; simpl; auto. now rewrite Ha, IH.
Qed.

Lemma filter_filter_other (cid cid' : nat) (l : list ContentTag.t) :
  cid' <> cid ->
  filter (fun t => Nat.eqb (ContentTag.classification_id t) cid')
    (filter (fun t => negb (Nat.eqb (ContentTag.classification_id t) cid)) l)
  = filter (fun t => Nat.eqb (ContentTag.classification_id t) cid') l.
Proof.
  intros Hne. induction l as [|a l IH]; simpl; auto.
  destruct (Nat.eqb_spec (ContentTag.classification_id a) cid) as [E|E]; simpl.
  - destruct (Nat.eqb_spec (ContentTag.classification_id a) cid'); [congruence|].
    exact IH.
  - destruct (Nat.eqb (ContentTag.classification_id a) cid'); now rewrite IH.
Qed.

(** C8.  When [save_tags] completes, the tags stored for the given
    classification are exactly the tags of the [smart_tags] list of the
    payload, in its order, each in a row with a key drawn during the call;
    no row stored for the classification before the call is in the table
    after it; the tags of other classifications are as before. *)
Theorem save_tags_replaces (classification_id : nat) (tags_data : pydict)
    (ai_service : string) (ms : Z) (w w' : World) (smart_tags : list pyval) :
  Dict.get "smart_tags" (PList []) tags_data = PList smart_tags ->
  save_tags classification_id tags_data ai_service ms w = (Ok tt, w') ->
  map ContentTag.tag (tags_of (db w') classification_id) = smart_tags /\
  Forall (fun t => (next_id (db w) <= ContentTag.id t)%nat)
         (tags_of (db w') classification_id) /\
  (forall t,
      In t (content_tags (db w)) ->
      ContentTag.classification_id t = classification_id ->
      (ContentTag.id t < next_id (db w))%nat ->
      ~ In t (content_tags (db w'))) /\
  (forall other,
      other <> classification_id ->
      tags_of (db w') other = tags_of (db w) other).
Proof.
  intros L. rewrite save_tags_run. destruct (faulty w); [discriminate|].
  destruct (save_tags_body _ _ _ _ _ _) as [[[] d]|e] eqn:S; [|discriminate].
  intros H. injection H as <-. cbn [db after_session].
  destruct (save_tags_body_rows _ _ _ _ _ _ _ _ L S) as (rows & T & G & F).
  assert (Mine : filter (fun t => Nat.eqb (ContentTag.classification_id t)
                                          classification_id) rows = rows).
  { apply filter_all. eapply Forall_impl; [|exact F].
    cbn. intros t [E _]. now apply Nat.eqb_eq. }
  assert (Old : filter (fun t => Nat.eqb (ContentTag.classification_id t)
                                         classification_id)
                  (filter (fun t => negb (Nat.eqb (ContentTag.classification_id t)
                                                  classification_id))
                          (content_tags (db w))) = []).
  { apply filter_none, Forall_forall. intros t Hin.
    apply filter_In in Hin as [_ Hin].
    now destruct (Nat.eqb (ContentTag.classification_id t) classification_id). }
  assert (Tags : tags_of d classification_id = rows).
  { unfold tags_of. now rewrite T, filter_app, Old, Mine. }
  splits.
  - now rewrite Tags.
  - rewrite Tags. eapply Forall_impl; [|exact F]. cbn. now intros t [_ B].
  - intros t Hin Hc Hid. rewrite T. intros Hin'.
    apply in_app_or in Hin' as [Hin'|Hin'].
    + apply filter_In in Hin' as [_ Hin']. rewrite Hc, Nat.eqb_refl in Hin'.
      discriminate.
    + rewrite Forall_forall in F. apply F in Hin' as [_ B]. lia.
  - intros other Hne. unfold tags_of. rewrite T, filter_app.
    rewrite filter_filter_other by exact Hne.
    rewrite (filter_none _ rows); [apply app_nil_r|].
    eapply Forall_impl; [|exact F]. cbn. intros t [E _]. rewrite E.
    apply Nat.eqb_neq. congruence.
Qed.

(** The tags of the stored quarterly report, written twice. *)
Lemma save_tags_replaces_witness :
  let first := [("smart_tags", PList [PStr "report"; PStr "quarter"])] in
  let second := [("smart_tags", PList [PStr "deadline"]);
                 ("confidence", PFloat (Finite 0.8))] in
  let w := snd (save_tags 0 first "anthropic" 3 (world store_with_report [] [])) in
  map ContentTag.tag (tags_of (db w) 0) = [PStr "report"; PStr "quarter"] /\
  exists w',
    save_tags 0 second "openai" 4 w = (Ok tt, w') /\
    map ContentTag.tag (tags_of (db w') 0) = [PStr "deadline"].
Proof.
  intros first second w. split; [reflexivity|].
  set (w' := snd (save_tags 0 second "openai" 4 w)).
  assert (E : save_tags 0 second "openai" 4 w = (Ok tt, w'))
    by (vm_compute; reflexivity).
  exists w'. split; [exact E|].
  exact (proj1 (save_tags_replaces 0 second "openai" 4 w w'
                  [PStr "deadline"] eq_refl E)).
Defined.

(** ** C9: tags served from the store *)

Lemma generate_smart_tags_hit self content title category analysis w
    existing :
  fst (get_classification_history (generate_content_hash content) w)
    = Ok (Some existing) ->
  History.tags existing <> [] ->
  generate_smart_tags self content title category analysis w
  = (cached_tags (History.tags existing), after_lookup w).
Proof.
  unfold generate_smart_tags, bind, time_time.
  rewrite get_classification_history_run. cbn [fst].
  intros H. injection H as ->. intros T. unfold has_tags.
  destruct (History.tags existing); [congruence | reflexivity].
Qed.

Lemma sum_fold vs acc total :
  Py.sum acc vs = Ok total ->
  exists fs,
    Forall2 (fun v f => Py.number v = Ok f) vs fs /\
    total = fold_left Py.fadd fs acc.
Proof.
  revert acc. induction vs as [|v vs IH]; intros acc; simpl.
  - intros H. injection H as <-. exists []. split; constructor.
  - destruct (Py.number v) as [f|e] eqn:N; [|discriminate].
    intros H. apply IH in H as (fs & F & ->).
    exists (f :: fs). split; [constructor|]; auto.
Qed.

Lemma sum_ok vs acc :
  Forall (fun v => exists f, Py.number v = Ok f) vs ->
  exists total, Py.sum acc vs = Ok total.
Proof.
  intros H. revert acc. induction H as [|v vs [f N] _ IH]; intros acc; simpl.
  - eauto.
  - rewrite N. apply IH.
Qed.

Lemma strs_ok vs :
  Forall (fun v => exists s, v = PStr s) vs ->
  exists ss, Pydantic.strs vs = Ok ss.
Proof.
  induction 1 as [|v vs [s ->] _ [ss IH]]; simpl; [eauto|].
  rewrite IH. simpl. eauto.
Qed.

Lemma groups_of_ok tags acc :
  Forall tag_fields_ok tags -> exists gs, groups_of tags acc = Ok gs.
Proof.
  intros H. revert acc.
  induction H as [|t tags ([s Hs] & _ & [g Hg]) _ IH]; intros acc; simpl.
  - eauto.
  - rewrite Hg, Hs. simpl. apply IH.
Qed.

Lemma strs_inv l : forall ss, Pydantic.strs l = Ok ss -> l = map PStr ss.
Proof.
  induction l as [|v l IH]; simpl; intros ss H.
  - injection H as <-. reflexivity.
  - destruct v; simpl in H; try discriminate.
    destruct (Pydantic.strs l) as [ss'|]; simpl in H; [|discriminate].
    injection H as <-. simpl. now rewrite (IH ss').
Qed.

Lemma plus64_fadd x y : Py.fadd x y = plus64 x y.
Proof.
  unfold Py.fadd, plus64, Py.as_double.
  destruct x as [a| |s], y as [b| |s'];
    repeat match goal with
    | |- context [Py.double ?q] => destruct (Py.double q)
    end;
    try reflexivity;
    repeat match goal with
    | u : bool |- _ => destruct u
    end; reflexivity.
Qed.

Lemma sum_floats fs : forall acc,
  Py.sum acc (map PFloat fs) = Ok (fold_left plus64 fs acc).
Proof.
  induction fs as [|f fs IH]; intros acc; [reflexivity|].
  cbn [map Py.sum Py.number fold_left]. rewrite IH, plus64_fadd. reflexivity.
Qed.

Lemma cached_tags_fields tags r :
  cached_tags tags = Ok r ->
  TaggingResponse.related_topics r = [] /\
  map PStr (TaggingResponse.smart_tags r) = map TagView.tag tags /\
  forall confidences,
    map TagView.confidence tags = map PFloat confidences ->
    TaggingResponse.confidence r = float_mean confidences.
Proof.
  unfold cached_tags.
  destruct (Py.sum _ _) as [total|e] eqn:S; [|discriminate]. simpl.
  destruct (forallb _ _); [|discriminate].
  destruct (Pydantic.strs _) as [ss|e] eqn:T; [|discriminate]. simpl.
  destruct (groups_of _ _) as [gs|e]; [|discriminate]. simpl.
  intros H. injection H as <-. simpl. splits; auto.
  - symmetry. now apply strs_inv.
  - intros confidences E. rewrite E, sum_floats in S. injection S as <-.
    assert (L : List.length tags = List.length confidences).
    { rewrite <- (length_map TagView.confidence), E. apply length_map. }
    rewrite L. unfold float_mean, Py.fdiv, Py.as_double.
    destruct (fold_left plus64 confidences (Finite 0)); reflexivity.
Qed.

Lemma cached_tags_ok tags :
  Forall tag_fields_ok tags -> exists r, cached_tags tags = Ok r.
Proof.
  intros H. unfold cached_tags.
  destruct (sum_ok (map TagView.confidence tags) (Finite 0)) as [total ->].
  { apply Forall_map. eapply Forall_impl; [|exact H]. now intros t (_ & F & _). }
  simpl.
  assert (Hh : forallb (fun t => hashable (TagView.group t)) tags = true).
  { apply forallb_forall. intros t Hin. rewrite Forall_forall in H.
    destruct (H t Hin) as (_ & _ & [g ->]). reflexivity. }
  rewrite Hh.
  destruct (strs_ok (map TagView.tag tags)) as [ss ->].
  { apply Forall_map. eapply Forall_impl; [|exact H]. now intros t (S & _). }
  simpl. destruct (groups_of_ok tags [] H) as [gs ->]. simpl. eauto.
Qed.

Lemma groups_of_typed tags : forall acc,
  Forall typed_tag tags ->
  if existsb group_is_null tags
  then groups_of tags acc = Raise ValidationError
  else exists gs, groups_of tags acc = Ok gs.
Proof.
  induction tags as [|t tags IH]; intros acc H; [cbn; eauto|].
  inversion H as [|? ? ([s Hs] & _ & G) H']; subst.
  cbn [existsb groups_of]. unfold group_is_null at 1.
  destruct G as [G|[g G]]; rewrite G; [reflexivity|].
  rewrite Hs. cbn [Pydantic.str_ and_then orb]. apply IH, H'.
Qed.

Lemma cached_tags_typed tags :
  Forall typed_tag tags ->
  if existsb group_is_null tags
  then cached_tags tags = Raise ValidationError
  else exists r, cached_tags tags = Ok r.
Proof.
  intros H. unfold cached_tags.
  destruct (sum_ok (map TagView.confidence tags) (Finite 0)) as [total ->].
  { apply Forall_map. eapply Forall_impl; [|exact H].
    intros t (_ & [f F] & _). rewrite F. now exists f. }
  cbn [and_then].
  assert (Hh : forallb (fun t => hashable (TagView.group t)) tags = true).
  { apply forallb_forall. intros t Hin. rewrite Forall_forall in H.
    destruct (H t Hin) as (_ & _ & [G|[g G]]); rewrite G; reflexivity. }
  rewrite Hh.
  destruct (strs_ok (map TagView.tag tags)) as [ss ->].
  { apply Forall_map. eapply Forall_impl; [|exact H]. now intros t (S & _). }
  cbn [and_then]. pose proof (groups_of_typed tags [] H) as G.
  destruct (existsb group_is_null tags).
  - now rewrite G.
  - destruct G as [gs ->]. cbn [and_then]. eauto.
Qed.

(** C9.  When the stored classification of the content has tags,
    [generate_smart_tags] calls no provider and writes nothing.  The
    response it returns has an empty list of related topics, the stored
    tags as its tags and, as its confidence, the quotient of the sum of
    the stored confidences by their number as binary64 arithmetic gives
    it, which is the arithmetic mean up to rounding only: three stored
    confidences of 0.1 give 0.10000000000000002.  Of rows as the typed
    columns hold them, it returns one exactly when no stored group is
    [NULL], and raises the validation error otherwise.  The response of a
    hit therefore differs in general from the response first returned:
    for the quarterly report the first response names a related topic
    and the response served from the store names none.  The rows that
    the local substitute writes hold as their group the text of the list
    of its first three tags, as the column of texts stores a list; a hit
    on them returns, with that text as its one group. *)
Theorem generate_smart_tags_cache_hit :
  (forall self content title category analysis w existing,
      fst (get_classification_history (generate_content_hash content) w)
        = Ok (Some existing) ->
      History.tags existing <> [] ->
      let run := generate_smart_tags self content title category analysis w in
      db (snd run) = db w /\
      trace (snd run) = trace w /\
      (forall r,
          fst run = Ok r ->
          TaggingResponse.related_topics r = [] /\
          map PStr (TaggingResponse.smart_tags r)
            = map TagView.tag (History.tags existing) /\
          forall confidences,
            map TagView.confidence (History.tags existing)
              = map PFloat confidences ->
            TaggingResponse.confidence r = float_mean confidences) /\
      (Forall typed_tag (History.tags existing) ->
       if existsb group_is_null (History.tags existing)
       then fst run = Raise ValidationError
       else exists r, fst run = Ok r)) /\
  (float_mean [Finite 0.1; Finite 0.1; Finite 0.1]
     = Finite (7205759403792795 # 72057594037927936) /\
   float_mean [Finite 0.9]
     = Finite (8106479329266893 # 9007199254740992) /\
   float_mean [Finite 0.9; Finite 0.5]
     = Finite (3152519739159347 # 4503599627370496) /\
   float_mean [Finite 0.1; Finite 0.2; Finite 0.3]
     = Finite (7205759403792795 # 36028797018963968) /\
   float_mean [Finite 0.7; Finite 0.8; Finite 0.9; Finite 0.6]
     = Finite (3 # 4)) /\
  (let w := world store_with_report [] [answer 5 tagging_reply] in
   let request w :=
     generate_smart_tags tagging_service quarterly_report None None None w in
   match request w with
   | (Ok first, w1) =>
       match request w1 with
       | (Ok second, w2) =>
           calls (trace w2) = calls (trace w1) /\
           TaggingResponse.related_topics first = ["planning"] /\
           TaggingResponse.related_topics second = [] /\
           TaggingResponse.smart_tags second = ["report"; "deadline"] /\
           TaggingResponse.confidence first = Finite 0.9 /\
           TaggingResponse.confidence second
             = Finite (8106479329266893 # 9007199254740992) /\
           TaggingResponse.semantic_groups first = [("work", ["report"])] /\
           TaggingResponse.semantic_groups second
             = [("general", ["deadline"])]
       | (Raise _, _) => False
       end
   | (Raise _, _) => False
   end) /\
  (let w := world store_with_report [] [] in
   let request w :=
     generate_smart_tags tagging_service quarterly_report None None None w in
   match request w with
   | (Ok first, w1) =>
       TaggingResponse.semantic_groups first
         = [("general", ["finish"; "quarterly"; "report"])] /\
       TaggingResponse.confidence first = Finite 0.4 /\
       map ContentTag.semantic_group (tags_of (db w1) 0)
         = repeat (PStr "{finish,quarterly,report}") 5 /\
       match request w1 with
       | (Ok second, w2) =>
           calls (trace w2) = calls (trace w1) /\
           TaggingResponse.smart_tags second
             = ["finish"; "quarterly"; "report"; "before"; "deadline"] /\
           TaggingResponse.smart_tags second
             = TaggingResponse.smart_tags first /\
           TaggingResponse.confidence second
             = Finite (3602879701896397 # 9007199254740992) /\
           TaggingResponse.semantic_groups second
             = [("{finish,quarterly,report}", ["deadline"])] /\
           TaggingResponse.related_topics second = []
       | (Raise _, _) => False
       end
   | (Raise _, _) => False
   end).
Proof.
  split; [|split; [|split]]; [| |vm_compute; repeat split|vm_compute; repeat split].
  - intros self content title category analysis w existing Hhit Htags run.
    unfold run. rewrite (generate_smart_tags_hit _ _ _ _ _ _ _ Hhit Htags).
    cbn [fst snd]. splits; auto.
    + intros r. apply cached_tags_fields.
    + apply cached_tags_typed.
  - vm_compute. repeat split.
Qed.

(** The second request for the tags of the quarterly report. *)
Lemma generate_smart_tags_cache_hit_witness :
  let w := snd (generate_smart_tags tagging_service quarterly_report None None
                  None (world store_with_report [] [answer 5 tagging_reply])) in
  exists existing r,
    fst (get_classification_history (generate_content_hash quarterly_report) w)
      = Ok (Some existing) /\
    History.tags existing <> [] /\
    Forall typed_tag (History.tags existing) /\
    fst (generate_smart_tags tagging_service quarterly_report None None None w)
      = Ok r /\
    TaggingResponse.related_topics r = [] /\
    TaggingResponse.confidence r = float_mean [Finite 0.9; Finite 0.9].
Proof.
  intros w.
  assert (E : exists existing,
             fst (get_classification_history
                    (generate_content_hash quarterly_report) w)
               = Ok (Some existing) /\
             History.tags existing <> [] /\
             Forall typed_tag (History.tags existing) /\
             existsb group_is_null (History.tags existing) = false /\
             map TagView.confidence (History.tags existing)
               = map PFloat [Finite 0.9; Finite 0.9]).
  { vm_compute. eexists. split; [reflexivity|]. split; [discriminate|].
    split; [|split; reflexivity].
    repeat constructor; try (eexists; reflexivity);
      right; eexists; reflexivity. }
  destruct E as (existing & Hhit & Htags & Hok & Hnull & Hconf).
  destruct generate_smart_tags_cache_hit as [H _].
  destruct (H tagging_service quarterly_report None None None w existing
              Hhit Htags) as (_ & _ & F & O).
  specialize (O Hok). rewrite Hnull in O. destruct O as [r R].
  exists existing, r. splits; auto.
  - now apply F.
  - destruct (F r R) as (_ & _ & C). now apply C.
Defined.

(** Three tags stored with the confidence 0.1: the response of the hit
    has a confidence above the mean of the three, which is the binary64
    value of 0.1 itself. *)
Lemma generate_smart_tags_confidence_not_mean :
  let w := world store_with_report [] [answer 5 three_tags_reply] in
  let request w :=
    generate_smart_tags tagging_service quarterly_report None None None w in
  let stored := 3602879701896397 # 36028797018963968 in
  Py.double 0.1 = Finite stored /\
  (exact_mean [stored; stored; stored] == stored)%Q /\
  match request w with
  | (Ok first, w1) =>
      map ContentTag.confidence (tags_of (db w1) 0)
        = [PFloat (Finite 0.1); PFloat (Finite 0.1); PFloat (Finite 0.1)] /\
      match request w1 with
      | (Ok second, w2) =>
          calls (trace w2) = calls (trace w1) /\
          TaggingResponse.confidence second
            = Finite (7205759403792795 # 72057594037927936) /\
          (stored < 7205759403792795 # 72057594037927936)%Q
      | (Raise _, _) => False
      end
  | (Raise _, _) => False
  end.
Proof. vm_compute. repeat split. Qed.

(** ** C10: the health counters *)

Lemma counters_le_refl r : counters_le r r.
Proof. unfold counters_le. splits; auto; lia. Qed.

Lemma Forall2_counters_le_refl l : Forall2 counters_le l l.
Proof. induction l; constructor; auto using counters_le_refl. Qed.

Lemma counters_grow_refl l : counters_grow l l.
Proof.
  exists l, []. splits; auto using app_nil_r, Forall2_counters_le_refl.
Qed.

Lemma update_first_counters_le (p : AIServiceStatus.t -> bool) f l :
  (forall r, counters_le r (f r)) ->
  Forall2 counters_le l (update_first p f l).
Proof.
  intros H. induction l as [|a l IH]; simpl; [constructor|].
  destruct (p a); constructor; auto using Forall2_counters_le_refl,
    counters_le_refl.
Qed.

Lemma update_ai_service_status_body_grows now name status rt ec sc d d' :
  0 <= ec -> 0 <= sc ->
  update_ai_service_status_body now name status rt ec sc d = Ok (tt, d') ->
  counters_grow (ai_service_status d) (ai_service_status d').
Proof.
  intros Hec Hsc. unfold update_ai_service_status_body.
  destruct (find _ _).
  - intros H. injection H as <-. cbn [ai_service_status with_status].
    eexists _, []. splits; [symmetry; apply app_nil_r | | constructor].
    apply update_first_counters_le. intros r. unfold counters_le. cbn.
    splits; auto; lia.
  - destruct (fresh d) as [i d0] eqn:F. intros H. injection H as <-.
    unfold fresh in F. injection F as <- <-.
    cbn [ai_service_status with_status].
    eexists _, [_]. splits; [reflexivity | apply Forall2_counters_le_refl |].
    constructor; [cbn; lia | constructor].
Qed.

Lemma counters_grow_lookup before after name r :
  counters_grow before after ->
  find (fun r => String.eqb (AIServiceStatus.service_name r) name) before
    = Some r ->
  exists r',
    find (fun r => String.eqb (AIServiceStatus.service_name r) name) after
      = Some r' /\
    counters_le r r'.
Proof.
  intros (kept & added & -> & K & _). induction K as [|a b l l' Hab K IH];
    simpl; [discriminate|].
  destruct Hab as (Hid & Hname & He & Hs). rewrite Hname.
  destruct (String.eqb (AIServiceStatus.service_name a) name).
  - intros H. injection H as <-. exists b. unfold counters_le. auto.
  - exact IH.
Qed.

(** C10.  [update_ai_service_status] never raises, whatever the session
    does.  When the two deltas are not negative, every row of the health
    table keeps its place, key and service name, and its [error_count] and
    [success_count] do not decrease; a row that the call adds starts with
    counters that are not negative.  So the counters stored for a service
    never decrease. *)
Theorem update_ai_service_status_monotone (service_name status : string)
    (response_time_ms : option Z) (error_count success_count : Z) (w : World) :
  exists w',
    update_ai_service_status service_name status response_time_ms
      error_count success_count w = (Ok tt, w') /\
    (0 <= error_count -> 0 <= success_count ->
     counters_grow (ai_service_status (db w)) (ai_service_status (db w')) /\
     forall name errors successes,
       counters_of name (db w) = Some (errors, successes) ->
       exists errors' successes',
         counters_of name (db w') = Some (errors', successes') /\
         errors <= errors' /\ successes <= successes').
Proof.
  assert (G : exists w',
             update_ai_service_status service_name status response_time_ms
               error_count success_count w = (Ok tt, w') /\
             (0 <= error_count -> 0 <= success_count ->
              counters_grow (ai_service_status (db w))
                            (ai_service_status (db w')))).
  { unfold update_ai_service_status, try_except, bind, emit, time_time, ret.
    rewrite session_run. destruct (faulty _).
    - eexists. split; [reflexivity|]. intros _ _. apply counters_grow_refl.
    - destruct (update_ai_service_status_body _ _ _ _ _ _ _)
        as [[[] d]|e] eqn:B.
      + eexists. split; [reflexivity|]. intros Hec Hsc. cbn [db after_session].
        exact (update_ai_service_status_body_grows _ _ _ _ _ _ _ _ Hec Hsc B).
      + eexists. split; [reflexivity|]. intros _ _. apply counters_grow_refl. }
  destruct G as (w' & E & G). exists w'. split; [exact E|].
  intros Hec Hsc. specialize (G Hec Hsc). split; [exact G|].
  intros name errors successes. unfold counters_of.
  destruct (find _ (ai_service_status (db w))) as [r|] eqn:F; [|discriminate].
  intros H. injection H as <- <-.
  destruct (counters_grow_lookup _ _ _ _ G F) as (r' & F' & _ & _ & He & Hs).
  rewrite F'. simpl. eauto.
Qed.

(** Two updates for the primary service on the store of the report. *)
Lemma update_ai_service_status_monotone_witness :
  let w := snd (update_ai_service_status "anthropic" "active" (Some 12) 0 1
                  (world store_with_report [] [])) in
  counters_of "anthropic" (db w) = Some (0, 1) /\
  exists w',
    update_ai_service_status "anthropic" "error" None 1 0 w = (Ok tt, w') /\
    counters_of "anthropic" (db w') = Some (1, 1).
Proof.
  intros w. split; [reflexivity|].
  destruct (update_ai_service_status_monotone "anthropic" "error" None 1 0 w)
    as (w' & E & G).
  exists w'. split; [exact E|].
  destruct G as [_ G]; [lia | lia |].
  destruct (G "anthropic" 0 1 eq_refl) as (errors' & successes' & C & _).
  assert (E' : w' = snd (update_ai_service_status "anthropic" "error" None 1 0 w))
    by now rewrite E.
  rewrite E'. reflexivity.
Defined.

(** * Properties of more of the code *)

(** ** The match of a reply *)

Lemma from_first_open_split s t :
  from_first_open s = Some t ->
  exists pre r, s = pre ++ t /\ t = String "{" r /\ has_char "{" pre = false.
Proof.
  induction s as [|c s IH]; simpl; [discriminate|].
  destruct (Ascii.eqb c "{") eqn:E.
  - intros H. injection H as <-. apply Ascii.eqb_eq in E. subst c.
    exists "", s. auto.
  - intros H. destruct (IH H) as (pre & r & -> & -> & Hpre).
    exists (String c pre), r. simpl. rewrite E. auto.
Qed.

Lemma upto_last_close_split s m :
  upto_last_close s = Some m ->
  exists body post,
    m = body ++ "}" /\ s = m ++ post /\ has_char "}" post = false.
Proof.
  revert m. induction s as [|c s IH]; simpl; [discriminate|]. intros m.
  destruct (upto_last_close s) as [p|] eqn:U.
  - intros H. injection H as <-.
    destruct (IH p eq_refl) as (body & post & -> & E & Hpost).
    exists (String c body), post. simpl. rewrite E at 1. auto.
  - destruct (Ascii.eqb c "}") eqn:E; [|discriminate].
    intros H. injection H as <-. apply Ascii.eqb_eq in E. subst c.
    exists "", s. simpl. repeat split.
    clear IH. induction s as [|c s IH]; simpl in *; auto.
    destruct (upto_last_close s); [discriminate|].
    destruct (Ascii.eqb c "}"); [discriminate|]. auto.
Qed.

Lemma append_assoc (a b c : string) : (a ++ b) ++ c = a ++ (b ++ c).
Proof. induction a; simpl; congruence. Qed.

(** X1.  [re.search] with the pattern of the three parsers finds a match
    exactly when the reply holds an opening brace with a closing brace
    somewhere after it, and the match is then the text from the first
    opening brace of the reply to its last closing brace. *)
Theorem re_search_braces_exact (response text : string) :
  re_search_braces response = Some text <->
  exists pre mid post,
    response = pre ++ text ++ post /\
    text = "{" ++ mid ++ "}" /\
    has_char "{" pre = false /\
    has_char "}" post = false.
Proof.
  split.
  - unfold re_search_braces.
    destruct (from_first_open response) as [t|] eqn:F; [|discriminate].
    intros U.
    destruct (from_first_open_split _ _ F) as (pre & r & -> & -> & Hpre).
    destruct (upto_last_close_split _ _ U) as (body & post & -> & E & Hpost).
    destruct body as [|c body]; simpl in E.
    + discriminate.
    + injection E as <- E. exists pre, body, post. simpl.
      rewrite E. auto.
  - intros (pre & mid & post & -> & -> & Hpre & Hpost).
    rewrite append_assoc, append_assoc.
    now apply re_search_braces_app.
Qed.

(** ** The parsers of the tagging and of the analysis *)

(** X2.  [_parse_tagging_response] and [_parse_analysis_response] return
    a dict for every reply: the decoded match when the reply has a match
    that decodes, and the fallback data of their task in the two other
    cases.  Whatever they return for the match of one reply, they return
    for every reply with the same match. *)
Theorem parse_tagging_and_analysis_response (response : string) :
  match re_search_braces response with
  | None =>
      _parse_tagging_response response = _fallback_tagging_data /\
      _parse_analysis_response response = _fallback_analysis_data
  | Some text =>
      match Json.loads text with
      | None =>
          _parse_tagging_response response = _fallback_tagging_data /\
          _parse_analysis_response response = _fallback_analysis_data
      | Some v =>
          v = PDict (_parse_tagging_response response) /\
          v = PDict (_parse_analysis_response response)
      end
  end /\
  (forall other,
      re_search_braces other = re_search_braces response ->
      _parse_tagging_response other = _parse_tagging_response response /\
      _parse_analysis_response other = _parse_analysis_response response).
Proof.
  unfold _parse_tagging_response, _parse_analysis_response. split.
  - destruct (parse_json_object_cases response)
      as [(text & d & S & L & E) | [msg E]]; rewrite E.
    + now rewrite S, L.
    + unfold parse_json_object in E.
      destruct (re_search_braces response) as [text|]; auto.
      destruct (Json.loads text) as [[]|]; auto; discriminate.
  - intros other H. unfold parse_json_object. now rewrite H.
Qed.

(** ** The local substitute of the tagging *)

(** *** Code points and their bytes *)

Lemma byte_char n : 0 <= n < 256 -> Str.byte (Str.char n) = n.
Proof.
  intros H. unfold Str.byte, Str.char.
  rewrite nat_ascii_embedding by lia. lia.
Qed.

Ltac decide_ltb :=
  repeat match goal with
         | |- context [?a <? ?b] =>
             destruct (Z.ltb_spec a b);
             try (exfalso; Z.div_mod_to_equations; lia)
         end.

Lemma decode_utf8 c s :
  is_code_point c ->
  Str.decode_from 0 0 (Str.utf8 c ++ s) = c :: Str.decode_from 0 0 s.
Proof.
  unfold is_code_point, Str.utf8. intros H.
  destruct (Z.ltb_spec c 128);
    [|destruct (Z.ltb_spec c 2048); [|destruct (Z.ltb_spec c 65536)]];
    cbn [append Str.decode_from];
    rewrite !byte_char by (Z.div_mod_to_equations; lia);
    decide_ltb; f_equal; Z.div_mod_to_equations; lia.
Qed.

Lemma decode_encode points :
  Forall is_code_point points -> Str.decode (Str.encode points) = points.
Proof.
  unfold Str.decode. induction 1 as [|c l Hc Hl IH]; [reflexivity|].
  cbn [Str.encode]. rewrite decode_utf8 by exact Hc. now rewrite IH.
Qed.

Lemma encode_app a b : Str.encode (a ++ b) = Str.encode a ++ Str.encode b.
Proof.
  induction a as [|c a IH]; [reflexivity|].
  cbn [app Str.encode]. now rewrite IH, append_assoc.
Qed.

Lemma len_utf8 c s :
  is_code_point c -> Str.len (Str.utf8 c ++ s) = S (Str.len s).
Proof.
  unfold is_code_point, Str.utf8. intros H.
  destruct (Z.ltb_spec c 128);
    [|destruct (Z.ltb_spec c 2048); [|destruct (Z.ltb_spec c 65536)]];
    cbn [append Str.len]; unfold Str.is_continuation, Str.char;
    rewrite !nat_ascii_embedding by (Z.div_mod_to_equations; lia);
    repeat match goal with
           | |- context [(?a <=? ?b)%nat] =>
               destruct (Nat.leb_spec a b);
               try (exfalso; Z.div_mod_to_equations; lia)
           | |- context [(?a <? ?b)%nat] =>
               destruct (Nat.ltb_spec a b);
               try (exfalso; Z.div_mod_to_equations; lia)
           end;
    reflexivity.
Qed.

Lemma len_encode points :
  Forall is_code_point points ->
  Str.len (Str.encode points) = List.length points.
Proof.
  induction 1 as [|c l Hc Hl IH]; [reflexivity|].
  cbn [Str.encode List.length]. rewrite len_utf8 by exact Hc. now rewrite IH.
Qed.

(** *** The lower-case forms are code points *)

Lemma to_lower_code_points c :
  is_code_point c -> Forall is_code_point (Unicode.to_lower c).
Proof.
  unfold is_code_point. intros H. unfold Unicode.to_lower.
  destruct (c =? 304); [repeat constructor; lia|].
  destruct (find _ _) as [[[[first last] step] offset]|] eqn:F;
    [|repeat constructor; lia].
  apply find_some in F as [Hin Hr].
  assert (T : forallb (fun r : Z * Z * Z * Z =>
                         let '(first, last, _, offset) := r in
                         (0 <=? first + offset) && (last + offset <? 1114112))
                      Unicode.lower_ranges = true)
    by (vm_compute; reflexivity).
  rewrite forallb_forall in T. specialize (T _ Hin). cbv beta iota in T.
  apply andb_true_iff in T as [T1 T2].
  apply Z.leb_le in T1. apply Z.ltb_lt in T2.
  unfold Unicode.in_lower_range in Hr.
  apply andb_true_iff in Hr as [Hr _]. apply andb_true_iff in Hr as [R1 R2].
  apply Z.leb_le in R1, R2. repeat constructor; lia.
Qed.

Lemma lower_points_code_points l : forall before,
  Forall is_code_point l -> Forall is_code_point (Str.lower_points before l).
Proof.
  induction l as [|c l IH]; intros before H; [constructor|].
  inversion H as [|? ? Hc Hl]; subst. cbn [Str.lower_points].
  apply Forall_app. split; [|now apply IH].
  destruct (c =? 931); [|now apply to_lower_code_points].
  destruct (_ && _); repeat constructor; unfold is_code_point; lia.
Qed.

Lemma lower_text points :
  Forall is_code_point points ->
  Str.lower (Str.encode points) = Str.encode (Str.lower_points [] points) /\
  Str.decode (Str.lower (Str.encode points)) = Str.lower_points [] points.
Proof.
  intros H. unfold Str.lower. rewrite (decode_encode _ H). split; [reflexivity|].
  apply decode_encode. now apply lower_points_code_points.
Qed.

(** *** White space *)

Lemma space_code_point c : Unicode.is_space c = true -> is_code_point c.
Proof.
  unfold Unicode.is_space, Unicode.in_ranges. intros H.
  apply existsb_exists in H as ([a b] & Hin & Hab).
  apply andb_true_iff in Hab as [A B]. apply Z.leb_le in A, B.
  cbn [fst snd] in A, B. unfold is_code_point.
  simpl in Hin.
  repeat (destruct Hin as [Hin|Hin]; [inversion Hin; subst; lia|]).
  destruct Hin.
Qed.

Lemma space_lower c : Unicode.is_space c = true -> Unicode.to_lower c = [c].
Proof.
  unfold Unicode.is_space, Unicode.in_ranges. intros H.
  apply existsb_exists in H as ([a b] & Hin & Hab).
  apply andb_true_iff in Hab as [A B]. apply Z.leb_le in A, B.
  cbn [fst snd] in A, B.
  match type of Hin with
  | In _ ?L =>
      assert (T : forallb (fun sp : Z * Z =>
                    forallb (fun r : Z * Z * Z * Z =>
                               let '(first, last, _, _) := r in
                               (last <? fst sp) || (snd sp <? first))
                            Unicode.lower_ranges) L = true)
        by (vm_compute; reflexivity)
  end.
  rewrite forallb_forall in T. specialize (T _ Hin).
  rewrite forallb_forall in T. cbn [fst snd] in T.
  unfold Unicode.to_lower.
  replace (c =? 304) with false.
  2:{ symmetry. apply Z.eqb_neq. simpl in Hin.
      repeat (destruct Hin as [Hin|Hin]; [inversion Hin; subst; lia|]).
      destruct Hin. }
  rewrite find_all_false; [reflexivity|].
  intros [[[first last] step] offset] Hr. specialize (T _ Hr).
  cbv beta iota in T. unfold Unicode.in_lower_range.
  apply orb_true_iff in T as [T|T]; apply Z.ltb_lt in T.
  - replace (c <=? last) with false by (symmetry; apply Z.leb_gt; lia).
    now rewrite Bool.andb_false_r.
  - replace (first <=? c) with false by (symmetry; apply Z.leb_gt; lia).
    reflexivity.
Qed.

(** *** The words of a text *)

Lemma split_points_runs l : forall cur run,
  Forall (fun c => Unicode.is_space c = false) cur ->
  In run (Str.split_points cur l) ->
  run <> [] /\
  Forall (fun c => Unicode.is_space c = false) run /\
  exists before after, (rev cur ++ l = before ++ run ++ after)%list.
Proof.
  assert (Flush : forall cur rest run,
            Forall (fun c => Unicode.is_space c = false) cur ->
            In run (match cur with [] => [] | _ => [rev cur] end) ->
            run <> [] /\
            Forall (fun c => Unicode.is_space c = false) run /\
            exists before after,
              (rev cur ++ rest = before ++ run ++ after)%list).
  { intros [|a cur] rest run Hcur; [intros []|]. intros [<-|[]]. splits.
    - simpl. destruct (rev cur); discriminate.
    - apply Forall_rev. exact Hcur.
    - exists [], rest. reflexivity. }
  induction l as [|c r IH]; intros cur run Hcur.
  - apply Flush. exact Hcur.
  - cbn [Str.split_points]. destruct (Unicode.is_space c) eqn:E.
    + intros Hin. apply in_app_or in Hin as [Hin|Hin].
      * apply Flush; assumption.
      * destruct (IH [] run (Forall_nil _) Hin) as (N & F & before & after & Eq).
        splits; auto. exists (rev cur ++ c :: before)%list, after.
        simpl in Eq. rewrite Eq, <- app_assoc. reflexivity.
    + intros Hin.
      destruct (IH (c :: cur) run (Forall_cons _ E Hcur) Hin)
        as (N & F & before & after & Eq).
      splits; auto. exists before, after. rewrite <- Eq.
      simpl. now rewrite <- app_assoc.
Qed.

Lemma split_points_spaces l :
  Forall (fun c => Unicode.is_space c = true) l -> Str.split_points [] l = [].
Proof.
  induction 1 as [|c l Hc Hl IH]; [reflexivity|].
  cbn [Str.split_points]. rewrite Hc. exact IH.
Qed.

Lemma lower_points_spaces l : forall before,
  Forall (fun c => Unicode.is_space c = true) l ->
  Str.lower_points before l = l.
Proof.
  induction l as [|c l IH]; intros before H; [reflexivity|].
  inversion H as [|? ? Hc Hl]; subst. cbn [Str.lower_points].
  replace (c =? 931) with false.
  2:{ symmetry. apply Z.eqb_neq. intros ->. vm_compute in Hc. discriminate. }
  rewrite (space_lower c Hc), IH by exact Hl. reflexivity.
Qed.

Lemma in_firstn {A} n (l : list A) x : In x (firstn n l) -> In x l.
Proof.
  revert l. induction n as [|n IH]; intros l; simpl; [intros []|].
  destruct l as [|a l]; simpl; [intros []|]. intros [->|H]; auto.
Qed.

(** X3.  [_fallback_tagging] returns at most five tags.  Each tag is a
    word of the lowered content: the text of a run of its code points
    that holds no white space; it is longer than three characters and
    is none of the common words.  When the content is a text, each tag
    occurs in the lowered content and is the text of more than three
    code points.  The group [general] holds the first three of the tags,
    the confidence is 0.4, and a content made of white space only gets
    no tag.  White space is that of Unicode, so that a no-break space
    parts two words, and the lower case is that of Unicode, so that a
    capital with an accent is lowered; a word is measured in code
    points, not in bytes. *)
Theorem fallback_tagging_tags (content : string) :
  let r := _fallback_tagging content in
  let tags := TaggingResponse.smart_tags r in
  (List.length tags <= 5)%nat /\
  Forall (fun tag =>
            (exists before run after,
                Str.decode (Str.lower content)
                  = (before ++ run ++ after)%list /\
                tag = Str.encode run /\
                Forall (fun c => Unicode.is_space c = false) run) /\
            (3 < Str.len tag)%nat /\
            ~ In tag common_words)
         tags /\
  (is_text content ->
   is_text (Str.lower content) /\
   Forall (fun tag =>
             Str.occurs_in tag (Str.lower content) /\
             exists run,
               tag = Str.encode run /\
               Forall is_code_point run /\
               (3 < List.length run)%nat)
          tags) /\
  TaggingResponse.semantic_groups r = [("general", firstn 3 tags)] /\
  TaggingResponse.confidence r = Finite 0.4 /\
  (Forall (fun c => Unicode.is_space c = true) (Str.decode content) ->
   tags = []) /\
  (let tags_of := fun points =>
       TaggingResponse.smart_tags (_fallback_tagging (Str.encode points)) in
   TaggingResponse.smart_tags (_fallback_tagging "Finish the quarterly report")
     = ["finish"; "quarterly"; "report"] /\
   TaggingResponse.smart_tags (_fallback_tagging "THE CAT WITH Rain")
     = ["rain"] /\
   TaggingResponse.smart_tags
     (_fallback_tagging
        "one three five seven eleven thirteen seventeen nineteen")
     = ["three"; "five"; "seven"; "eleven"; "thirteen"] /\
   TaggingResponse.semantic_groups
     (_fallback_tagging
        "one three five seven eleven thirteen seventeen nineteen")
     = [("general", ["three"; "five"; "seven"])] /\
   tags_of [97; 108; 112; 104; 97; 160; 98; 114; 97; 118; 111]
     = ["alpha"; "bravo"] /\
   tags_of [201; 67; 79; 76; 69; 32; 78; 111; 114; 109; 97; 108; 101]
     = [Str.encode [233; 99; 111; 108; 101]; "normale"] /\
   tags_of [26085; 26412; 35486; 32; 97; 108; 112; 104; 97] = ["alpha"] /\
   tags_of [927; 916; 927; 931; 32; 931; 927; 934; 921; 913; 931]
     = [Str.encode [959; 948; 959; 962];
        Str.encode [963; 959; 966; 953; 945; 962]] /\
   tags_of [32; 9; 10; 12288] = []).
Proof.
  intros r tags. unfold tags, r, _fallback_tagging.
  cbn [TaggingResponse.smart_tags TaggingResponse.semantic_groups
       TaggingResponse.confidence].
  set (words := Str.split (Str.lower content)).
  set (unique_words := filter _ words).
  assert (Words : forall tag, In tag (firstn 5 unique_words) ->
            (exists run, In run (Str.split_points []
                                   (Str.decode (Str.lower content))) /\
                         tag = Str.encode run) /\
            (3 < Str.len tag)%nat /\ ~ In tag common_words).
  { intros tag Hin. apply in_firstn in Hin.
    apply filter_In in Hin as [Hw Hf].
    apply andb_true_iff in Hf as [Hcommon Hlen]. splits.
    - unfold words, Str.split in Hw. apply in_map_iff in Hw as (run & E & Hr).
      exists run. auto.
    - now apply Nat.ltb_lt.
    - intros Hin. apply negb_true_iff in Hcommon.
      assert (E : existsb (String.eqb tag) common_words = true).
      { apply existsb_exists. exists tag. split; auto. apply String.eqb_refl. }
      congruence. }
  split; [apply firstn_le_length|].
  split; [|split; [|split; [|split; [|split]]]].
  - apply Forall_forall. intros tag Hin.
    destruct (Words tag Hin) as ((run & Hr & ->) & Hlen & Hcommon).
    destruct (split_points_runs _ [] run (Forall_nil _) Hr)
      as (_ & F & before & after & Eq).
    splits; auto. exists before, run, after. auto.
  - intros (points & -> & Hp).
    destruct (lower_text points Hp) as [L D].
    pose proof (lower_points_code_points points [] Hp) as Hl.
    split; [rewrite L; eexists; split; [reflexivity | exact Hl]|].
    apply Forall_forall. intros tag Hin.
    destruct (Words tag Hin) as ((run & Hr & ->) & Hlen & Hcommon).
    rewrite D in Hr.
    destruct (split_points_runs _ [] run (Forall_nil _) Hr)
      as (_ & F & before & after & Eq).
    simpl in Eq.
    assert (V : Forall is_code_point run).
    { rewrite Eq in Hl. apply Forall_app in Hl as [_ Hl].
      now apply Forall_app in Hl as [Hl _]. }
    split.
    + exists (Str.encode before), (Str.encode after).
      now rewrite L, Eq, !encode_app.
    + exists run. splits; auto. now rewrite <- (len_encode run V).
  - rewrite firstn_firstn. reflexivity.
  - reflexivity.
  - intros Hsp.
    assert (W : words = []).
    { unfold words, Str.split, Str.lower.
      rewrite (lower_points_spaces _ [] Hsp).
      rewrite decode_encode.
      - now rewrite split_points_spaces.
      - eapply Forall_impl; [|exact Hsp]. apply space_code_point. }
    unfold unique_words. now rewrite W.
  - vm_compute. repeat split.
Qed.

(** A content with a capital that bears an accent is a text, and its tags
    occur in its lowered form. *)
Lemma fallback_tagging_tags_witness :
  let content :=
    Str.encode [201; 67; 79; 76; 69; 32; 78; 111; 114; 109; 97; 108; 101] in
  is_text content /\
  TaggingResponse.smart_tags (_fallback_tagging content)
    = [Str.encode [233; 99; 111; 108; 101]; "normale"] /\
  Forall (fun tag =>
            Str.occurs_in tag (Str.lower content) /\
            exists run,
              tag = Str.encode run /\
              Forall is_code_point run /\
              (3 < List.length run)%nat)
         (TaggingResponse.smart_tags (_fallback_tagging content)).
Proof.
  intros content.
  assert (T : is_text content).
  { eexists. split; [reflexivity|].
    repeat constructor; unfold is_code_point; lia. }
  split; [exact T|]. split; [vm_compute; reflexivity|].
  destruct (fallback_tagging_tags content) as (_ & _ & H & _).
  exact (proj2 (H T)).
Defined.

(** ** Saving a classification and reading it back *)

Lemma save_classification_body_row now content data service ms d i d' :
  save_classification_body now content data service ms d = Ok (i, d') ->
  exists row,
    classification_by_hash (generate_content_hash content) d' = Some row /\
    ContentClassification.id row = i /\
    ContentClassification.ai_service_used row = service /\
    ContentClassification.updated_at row = now /\
    content_tags d' = content_tags d /\
    content_analyses d' = content_analyses d /\
    Forall (fun k =>
              row_field k row
              = Dict.get k
                  match classification_by_hash
                          (generate_content_hash content) d with
                  | Some old => row_field k old
                  | None => default_field k
                  end data)
           classification_keys.
Proof.
  unfold save_classification_body.
  destruct (classification_by_hash _ d) as [existing|] eqn:E.
  - intros H. injection H as <- <-. eexists. splits.
    + unfold classification_by_hash in *. cbn [content_classifications
        _log_processing fresh with_logs with_classifications].
      apply find_update_first; [exact E|].
      cbn [ContentClassification.content_hash].
      apply find_some in E. apply E.
    + reflexivity.
    + reflexivity.
    + reflexivity.
    + reflexivity.
    + reflexivity.
    + repeat constructor.
  - destruct (fresh d) as [j d0] eqn:F. intros H. injection H as <- <-.
    unfold fresh in F. injection F as <- <-. eexists. splits.
    + unfold classification_by_hash in *. cbn [content_classifications
        _log_processing fresh with_logs with_classifications].
      apply find_app_new; [exact E|].
      cbn [ContentClassification.content_hash]. apply String.eqb_refl.
    + reflexivity.
    + reflexivity.
    + reflexivity.
    + reflexivity.
    + reflexivity.
    + repeat constructor.
Qed.

(** X4.  After a [save_classification] that returns, a lookup of the
    hash of the content that does not fail returns the saved
    classification: its key is the key returned, its service the service
    given, its time of update the time of the save, and each field is the
    value of the data or, for a key that the data lack, the value the row
    had before (the default of the field, for a new row).  The save
    leaves the tags and the analyses as they were. *)
Theorem save_classification_then_history (content : string) (data : pydict)
    (service : string) (ms : Z) (w w' : World) (i : nat) :
  save_classification content data service ms w = (Ok i, w') ->
  faulty w' = false ->
  exists h,
    fst (get_classification_history (generate_content_hash content) w')
      = Ok (Some h) /\
    History.id h = i /\
    History.ai_service_used h = service /\
    History.updated_at h = clock w /\
    Forall (fun k =>
              history_field k h
              = Dict.get k
                  match classification_by_hash
                          (generate_content_hash content) (db w) with
                  | Some old => row_field k old
                  | None => default_field k
                  end data)
           classification_keys /\
    content_tags (db w') = content_tags (db w) /\
    content_analyses (db w') = content_analyses (db w).
Proof.
  intros H Hf. rewrite save_classification_run in H.
  destruct (faulty w); [discriminate|].
  destruct (save_classification_body _ _ _ _ _ _) as [[j d]|e] eqn:B;
    [|discriminate].
  injection H as <- <-.
  destruct (save_classification_body_row _ _ _ _ _ _ _ _ B)
    as (row & R & Hi & Hs & Hu & Ht & Ha & HF).
  exists (history_of d row).
  rewrite get_classification_history_run, Hf.
  cbn [db after_session fst]. rewrite R. splits; auto.
Qed.

(** The quarterly report is stored; a save with a category alone changes
    the category and keeps the priority. *)
Lemma save_classification_then_history_witness :
  let w := world store_with_report [false; false] [] in
  let r := save_classification quarterly_report
             [("category", PStr "04-Archive")] "openai" 7 w in
  exists h,
    fst (get_classification_history
           (generate_content_hash quarterly_report) (snd r)) = Ok (Some h) /\
    History.ai_service_used h = "openai" /\
    History.category h = PStr "04-Archive" /\
    History.priority h = PStr "normal".
Proof.
  intros w r.
  assert (H1 : save_classification quarterly_report
                 [("category", PStr "04-Archive")] "openai" 7 w
               = (Ok O, snd r)) by (vm_compute; reflexivity).
  assert (H2 : faulty (snd r) = false) by (vm_compute; reflexivity).
  pose proof (@save_classification_then_history quarterly_report
     [("category", PStr "04-Archive")] "openai" 7 w (snd r) O) as T.
  specialize (T H1). specialize (T H2).
  destruct T as (h & G & _ & S & _ & F & _).
  exists h. split; [exact G|]. split; [exact S|].
  vm_compute in F.
  pose proof (Forall_inv F) as F1.
  pose proof (Forall_inv (Forall_inv_tail (Forall_inv_tail F))) as F3.
  split; [exact F1 | exact F3].
Defined.

(** ** One analysis for a classification *)

Lemma filter_update_first_length {A} (p q : A -> bool) (f : A -> A) l :
  (forall x, q (f x) = q x) ->
  List.length (filter q (update_first p f l)) = List.length (filter q l).
Proof.
  intros H. induction l as [|x l IH]; simpl; [reflexivity|].
  destruct (p x); simpl.
  - rewrite H. destruct (q x); reflexivity.
  - destruct (q x); simpl; congruence.
Qed.

Lemma filter_update_first_other {A} (p : A -> bool) (f : A -> A) l :
  (forall x, p (f x) = p x) ->
  filter (fun x => negb (p x)) (update_first p f l)
  = filter (fun x => negb (p x)) l.
Proof.
  intros H. induction l as [|x l IH]; simpl; [reflexivity|].
  destruct (p x) eqn:P; simpl.
  - rewrite H, P. reflexivity.
  - rewrite P. simpl. congruence.
Qed.

Lemma find_filter_length {A} (p : A -> bool) l :
  find p l = None -> List.length (filter p l) = O.
Proof.
  induction l as [|x l IH]; simpl; [reflexivity|].
  destruct (p x); [discriminate|auto].
Qed.

Lemma find_filter_pos {A} (p : A -> bool) l x :
  find p l = Some x -> (1 <= List.length (filter p l))%nat.
Proof.
  induction l as [|y l IH]; simpl; [discriminate|].
  destruct (p y); simpl; [lia|auto].
Qed.

Lemma save_analysis_body_row now cid data service ms d d' :
  save_analysis_body now cid data service ms d = Ok (tt, d') ->
  exists a,
    analysis_of d' cid = Some a /\
    ContentAnalysis.ai_service_used a = service /\
    Forall (fun k => analysis_field k a = Dict.get k (analysis_default k) data)
           analysis_keys /\
    List.length (analyses_of d' cid)
      = Nat.max 1 (List.length (analyses_of d cid)) /\
    analyses_of_others d' cid = analyses_of_others d cid /\
    content_classifications d' = content_classifications d /\
    content_tags d' = content_tags d.
Proof.
  unfold save_analysis_body, analysis_of, analyses_of, analyses_of_others.
  destruct (Py.len _) as [n|e]; [|discriminate]. cbn [and_then].
  destruct (find _ (content_analyses d)) as [old|] eqn:E.
  - intros H. injection H as <-.
    cbn [_log_processing fresh with_logs with_analyses content_analyses
         content_classifications content_tags].
    eexists. splits.
    + apply find_update_first; [exact E|].
      cbn [ContentAnalysis.classification_id].
      apply find_some in E. apply E.
    + reflexivity.
    + repeat constructor.
    + rewrite filter_update_first_length by reflexivity.
      apply find_filter_pos in E. lia.
    + apply (filter_update_first_other
               (fun a => Nat.eqb (ContentAnalysis.classification_id a) cid)).
      reflexivity.
    + reflexivity.
    + reflexivity.
  - destruct (fresh d) as [j d0] eqn:F. unfold fresh in F.
    injection F as <- <-. intros H. injection H as <-.
    cbn [_log_processing fresh with_logs with_analyses content_analyses
         content_classifications content_tags].
    eexists. splits.
    + apply find_app_new; [exact E|].
      cbn [ContentAnalysis.classification_id]. apply Nat.eqb_refl.
    + reflexivity.
    + repeat constructor.
    + rewrite filter_app, length_app, (find_filter_length _ _ E).
      cbn [filter ContentAnalysis.classification_id]. rewrite Nat.eqb_refl.
      reflexivity.
    + rewrite filter_app.
      cbn [filter ContentAnalysis.classification_id]. rewrite Nat.eqb_refl.
      cbn [negb]. apply app_nil_r.
    + reflexivity.
    + reflexivity.
Qed.

(** X5.  A [save_analysis] that returns leaves an analysis of the
    classification whose six fields are the values of the data, or the
    constant defaults for the keys that the data lack, whatever was stored
    before, and whose service is the service given.  The classification
    has as many analyses as before, and one if it had none; the analyses
    of the other classifications, the classifications and the tags are as
    before. *)
Theorem save_analysis_upsert (classification_id : nat) (data : pydict)
    (service : string) (ms : Z) (w w' : World) :
  save_analysis classification_id data service ms w = (Ok tt, w') ->
  exists a,
    analysis_of (db w') classification_id = Some a /\
    ContentAnalysis.ai_service_used a = service /\
    Forall (fun k => analysis_field k a = Dict.get k (analysis_default k) data)
           analysis_keys /\
    List.length (analyses_of (db w') classification_id)
      = Nat.max 1 (List.length (analyses_of (db w) classification_id)) /\
    analyses_of_others (db w') classification_id
      = analyses_of_others (db w) classification_id /\
    content_classifications (db w') = content_classifications (db w) /\
    content_tags (db w') = content_tags (db w).
Proof.
  intros H. rewrite save_analysis_run in H.
  destruct (faulty w); [discriminate|].
  destruct (save_analysis_body _ _ _ _ _ _) as [[[] d]|e] eqn:B;
    [|discriminate].
  injection H as <-. cbn [db after_session].
  exact (save_analysis_body_row _ _ _ _ _ _ _ B).
Qed.

(** An analysis with a summary is stored for the quarterly report; a save
    with a sentiment alone resets the summary. *)
Lemma save_analysis_upsert_witness :
  let w := world store_with_report [false; false] [] in
  let w1 := snd (save_analysis 0 [("summary", PStr "A report")] "openai" 5 w) in
  let w2 := snd (save_analysis 0 [("sentiment", PStr "positive")] "fallback" 6 w1) in
  option_map ContentAnalysis.summary (analysis_of (db w1) 0)
    = Some (PStr "A report") /\
  exists a,
    analysis_of (db w2) 0 = Some a /\
    ContentAnalysis.sentiment a = PStr "positive" /\
    ContentAnalysis.summary a = PStr "" /\
    List.length (analyses_of (db w2) 0) = 1%nat.
Proof.
  intros w w1 w2. split; [vm_compute; reflexivity|].
  assert (H : save_analysis 0 [("sentiment", PStr "positive")] "fallback" 6 w1
              = (Ok tt, w2)) by (vm_compute; reflexivity).
  pose proof (@save_analysis_upsert 0 [("sentiment", PStr "positive")]
                "fallback" 6 w1 w2) as T.
  specialize (T H). destruct T as (a & G & _ & F & L & _).
  exists a. split; [exact G|].
  vm_compute in F.
  pose proof (Forall_inv (Forall_inv_tail F)) as F2.
  pose proof (Forall_inv (Forall_inv_tail (Forall_inv_tail
                (Forall_inv_tail (Forall_inv_tail F))))) as F5.
  split; [exact F2|]. split; [exact F5|].
  rewrite L. vm_compute. reflexivity.
Defined.

(** ** When [save_tags] raises *)

Lemma iter_len v l : Py.iter v = Ok l -> exists n, Py.len v = Ok n.
Proof. destruct v; simpl; try discriminate; eauto. Qed.

Lemma iter_raises v e : Py.iter v = Raise e -> e = TypeError.
Proof. destruct v; simpl; congruence. Qed.

Lemma add_tags_ok now cid data g tags :
  Dict.get "semantic_groups" (PDict []) data = PDict g ->
  forall d, exists d', add_tags now cid data tags d = Ok d'.
Proof.
  intros G. induction tags as [|t l IH]; intros d; simpl; [eauto|].
  rewrite G. cbn [Py.get and_then]. destruct (fresh d). apply IH.
Qed.

(** X6.  [save_tags] returns only when the session does not fail, the
    value of [smart_tags] can be iterated and, if it holds a tag, the
    value of [semantic_groups] is a dict.  When it raises, the tables are
    as they were, so that the tags stored before are kept, and the
    exception is that of the session, the [TypeError] of the iteration,
    or the [AttributeError] of the [get] on the first tag. *)
Theorem save_tags_outcome (classification_id : nat) (data : pydict)
    (service : string) (ms : Z) (w : World) :
  let smart_tags := Dict.get "smart_tags" (PList []) data in
  let groups := Dict.get "semantic_groups" (PDict []) data in
  match save_tags classification_id data service ms w with
  | (Ok _, w') =>
      faulty w = false /\
      exists tags, Py.iter smart_tags = Ok tags /\
                   (tags = [] \/ exists g, groups = PDict g)
  | (Raise e, w') =>
      db w' = db w /\
      (e = OperationalError /\ faulty w = true \/
       e = TypeError /\ faulty w = false /\
         Py.iter smart_tags = Raise TypeError \/
       e = AttributeError /\ faulty w = false /\
         (exists t l, Py.iter smart_tags = Ok (t :: l)) /\
         Py.get "general" (PStr "general") groups = Raise AttributeError)
  end.
Proof.
  intros smart_tags groups. rewrite save_tags_run.
  destruct (faulty w) eqn:Hf; [split; auto|].
  unfold save_tags_body. fold smart_tags.
  destruct (Py.iter smart_tags) as [tags|e] eqn:I; cbn [and_then].
  - destruct (iter_len _ _ I) as [n L]. destruct tags as [|t l].
    + cbn [add_tags and_then]. rewrite L. cbn [and_then]. split; eauto.
    + cbn [add_tags]. fold groups.
      destruct groups as [| | | | | |g] eqn:G; cbn [Py.get and_then];
        try (split; [reflexivity|]; right; right; splits; eauto; fail).
      destruct (fresh _) as [j d0].
      match goal with |- context [add_tags ?n ?c ?dt ?tg ?d] =>
        destruct (add_tags_ok n c dt g tg G d) as [d' ->] end.
      cbn [and_then]. rewrite L. cbn [and_then]. split; eauto.
  - pose proof (iter_raises _ _ I) as ->. split; [reflexivity|].
    right; left. auto.
Qed.

(** ** What tagging and analysis leave alone *)

Section Frames.

Variable R : Database -> Database -> Prop.
Hypothesis R_refl : forall d, R d d.
Hypothesis R_trans : forall a b c, R a b -> R b c -> R a c.

Lemma respects_ret {A} (a : A) : respects R (ret a).
Proof. intros w. apply R_refl. Qed.

Lemma respects_raise {A} e : respects R (@raise A e).
Proof. intros w. apply R_refl. Qed.

Lemma respects_lift {A} (r : result A) : respects R (lift r).
Proof. intros w. apply R_refl. Qed.

Lemma respects_time : respects R time_time.
Proof. intros w. apply R_refl. Qed.

Lemma respects_emit e : respects R (emit e).
Proof. intros w. apply R_refl. Qed.

Lemma respects_request e : respects R (request e).
Proof.
  intros w. unfold request. destruct (backend w); [apply R_refl|].
  destruct (body _); apply R_refl.
Qed.

Lemma respects_bind {A B} (c : M A) (k : A -> M B) :
  respects R c -> (forall a, respects R (k a)) -> respects R (bind c k).
Proof.
  intros Hc Hk w. unfold bind. specialize (Hc w).
  destruct (c w) as [[a|e] w1]; [|exact Hc].
  exact (R_trans _ _ _ Hc (Hk a w1)).
Qed.

Lemma respects_try_except {A} (c : M A) (h : exn -> M A) :
  respects R c -> (forall e, respects R (h e)) -> respects R (try_except c h).
Proof.
  intros Hc Hh w. unfold try_except. specialize (Hc w).
  destruct (c w) as [[a|e] w1]; [exact Hc|].
  exact (R_trans _ _ _ Hc (Hh e w1)).
Qed.

Lemma respects_session {A} (body : Database -> result (A * Database)) :
  (forall d a d', body d = Ok (a, d') -> R d d') -> respects R (session body).
Proof.
  intros H w. rewrite session_run. destruct (faulty w); [apply R_refl|].
  destruct (body (db w)) as [[a d]|e] eqn:B; [|apply R_refl].
  exact (H _ _ _ B).
Qed.

Lemma respects_call detail prompt service :
  respects R (_call_ai_service detail prompt service).
Proof.
  unfold _call_ai_service. apply respects_bind; [apply respects_emit|].
  intros _. repeat match goal with
    |- respects R (if ?b then _ else _) => destruct b
    end; auto using respects_request, respects_raise.
Qed.

Lemma respects_status name status rt ec sc :
  (forall now d d', update_ai_service_status_body now name status rt ec sc d
                    = Ok (tt, d') -> R d d') ->
  respects R (update_ai_service_status name status rt ec sc).
Proof.
  intros H. unfold update_ai_service_status.
  apply respects_bind; [apply respects_emit|]. intros _.
  apply respects_try_except; [|intros; apply respects_ret].
  apply respects_bind; [apply respects_time|]. intros now.
  apply respects_session. intros d [] d'. apply H.
Qed.

End Frames.

(** The steps of a computation, each of which respects the relation whose
    reflexivity is [rf] and whose transitivity is [tr]. *)
Ltac frame_steps rf tr :=
  repeat first
    [ apply (respects_bind _ tr); [|intros ?]
    | apply (respects_try_except _ tr); [|intros ?]
    | apply (respects_ret _ rf)
    | apply (respects_raise _ rf)
    | apply (respects_lift _ rf)
    | apply (respects_time _ rf)
    | apply (respects_call _ rf tr) ].

(** The tables that the status of a service is not in. *)
Lemma update_ai_service_status_body_frame now name status rt ec sc d d' :
  update_ai_service_status_body now name status rt ec sc d = Ok (tt, d') ->
  content_classifications d' = content_classifications d /\
  content_tags d' = content_tags d /\
  content_analyses d' = content_analyses d /\
  processing_logs d' = processing_logs d.
Proof.
  unfold update_ai_service_status_body.
  destruct (find _ _); [|destruct (fresh _) eqn:F];
    intros H; injection H as <-; simpl; auto.
  unfold fresh in F. injection F as <- <-. auto.
Qed.

Lemma tagging_frame_refl target d : tagging_frame target d d.
Proof. unfold tagging_frame. auto. Qed.

Lemma tagging_frame_trans target a b c :
  tagging_frame target a b -> tagging_frame target b c ->
  tagging_frame target a c.
Proof.
  intros (A1 & A2 & A3 & A4) (B1 & B2 & B3 & B4). unfold tagging_frame. splits.
  - congruence.
  - congruence.
  - intros cid H. rewrite (B3 cid H). auto.
  - intros H. destruct (A4 H), (B4 H). split; congruence.
Qed.

Lemma add_tags_frame now cid data tags d d' :
  add_tags now cid data tags d = Ok d' ->
  content_classifications d' = content_classifications d /\
  content_analyses d' = content_analyses d.
Proof.
  revert d. induction tags as [|t l IH]; intros d; simpl.
  - intros H. injection H as <-. auto.
  - destruct (Py.get _ _ _) as [g|e]; [|discriminate]. cbn [and_then].
    destruct (fresh d) as [j d0] eqn:F. unfold fresh in F.
    injection F as <- <-. intros H. apply IH in H. exact H.
Qed.

Lemma save_tags_body_frame now cid data service ms d d' :
  save_tags_body now cid data service ms d = Ok (tt, d') ->
  tagging_frame (Some cid) d d'.
Proof.
  unfold save_tags_body.
  destruct (Py.iter _) as [tags|e]; [|discriminate]. cbn [and_then].
  destruct (add_tags _ _ _ _ _) as [d1|e] eqn:A; [|discriminate].
  cbn [and_then]. destruct (Py.len _) as [n|e]; [|discriminate].
  cbn [and_then]. intros H. injection H as <-.
  destruct (add_tags_frame _ _ _ _ _ _ A) as (C1 & C2).
  destruct (add_tags_rows _ _ _ _ _ _ A) as (rows & T & _ & F).
  unfold tagging_frame. splits; try exact C1; try exact C2.
  - intros cid' H. unfold tags_of.
    cbn [_log_processing fresh with_logs content_tags].
    rewrite T. cbn [with_tags content_tags]. rewrite filter_app.
    rewrite filter_filter_other by congruence.
    rewrite (filter_none _ rows); [apply app_nil_r|].
    eapply Forall_impl; [|exact F]. intros t [E _]. cbn beta.
    rewrite E. apply Nat.eqb_neq. congruence.
  - discriminate.
Qed.

Lemma respects_save_tags cid data service ms target :
  target = Some cid ->
  respects (tagging_frame target) (save_tags cid data service ms).
Proof.
  intros ->. unfold save_tags, save_tags_block.
  frame_steps (tagging_frame_refl (Some cid)) (tagging_frame_trans (Some cid)).
  apply (respects_session _ (tagging_frame_refl _)).
  intros d [] d'. apply save_tags_body_frame.
Qed.

Lemma respects_status_tagging target name status rt ec sc :
  respects (tagging_frame target)
    (update_ai_service_status name status rt ec sc).
Proof.
  apply (respects_status _ (tagging_frame_refl _) (tagging_frame_trans _)).
  intros now d d' H.
  destruct (update_ai_service_status_body_frame _ _ _ _ _ _ _ _ H)
    as (C & T & A & L).
  unfold tagging_frame, tags_of. rewrite T. auto.
Qed.

Lemma respects_saving_tags existing data service start :
  respects (tagging_frame (option_map History.id existing))
    (match existing with
     | Some ex =>
         now <- time_time ;;
         save_tags (History.id ex) data service (now - start)
     | None => ret tt
     end).
Proof.
  destruct existing as [ex|]; cbn [option_map].
  - apply (respects_bind _ (tagging_frame_trans _));
      [apply (respects_time _ (tagging_frame_refl _))|].
    intros now. now apply respects_save_tags.
  - apply respects_ret, tagging_frame_refl.
Qed.

Lemma respects_tag_with start existing prompt service :
  respects (tagging_frame (option_map History.id existing))
    (tag_with start existing prompt service).
Proof.
  unfold tag_with.
  apply (respects_bind _ (tagging_frame_trans _));
    [apply (respects_call _ (tagging_frame_refl _) (tagging_frame_trans _))|].
  intros response.
  apply (respects_bind _ (tagging_frame_trans _));
    [apply respects_saving_tags|]. intros _.
  apply (respects_bind _ (tagging_frame_trans _));
    [apply (respects_time _ (tagging_frame_refl _))|]. intros now.
  apply (respects_bind _ (tagging_frame_trans _));
    [apply respects_status_tagging|]. intros _.
  apply (respects_lift _ (tagging_frame_refl _)).
Qed.

Lemma respects_tag_locally start existing content :
  respects (tagging_frame (option_map History.id existing))
    (tag_locally start existing content).
Proof.
  unfold tag_locally.
  apply (respects_bind _ (tagging_frame_trans _));
    [apply respects_saving_tags|]. intros _.
  apply (respects_ret _ (tagging_frame_refl _)).
Qed.

Lemma respects_tagging_tiers self content title category analysis start
    existing :
  respects (tagging_frame (option_map History.id existing))
    (match has_tags existing with
     | Some tags => lift (cached_tags tags)
     | None =>
         let prompt := _create_tagging_prompt content title category analysis in
         try_except
           (tag_with start existing prompt (primary_service self))
           (fun e =>
              try_except
                (tag_with start existing prompt (fallback_service self))
                (fun fallback_error => tag_locally start existing content))
     end).
Proof.
  destruct (has_tags existing);
    [apply (respects_lift _ (tagging_frame_refl _))|].
  cbv zeta.
  apply (respects_try_except _ (tagging_frame_trans _));
    [apply respects_tag_with|]. intros e.
  apply (respects_try_except _ (tagging_frame_trans _));
    [apply respects_tag_with|]. intros fallback_error.
  apply respects_tag_locally.
Qed.

(** X7.  [generate_smart_tags] never changes a stored classification or
    a stored analysis, whatever the providers answer and whether the
    store fails or not.  It changes the tags of no classification but the
    one stored for the content; when none is stored for the content it
    leaves all tags and the processing log as they were, so that the tags
    it returns are kept nowhere. *)
Theorem generate_smart_tags_frame (self : Service) (content : string)
    (title category analysis : option string) (w : World) :
  let w' := snd (generate_smart_tags self content title category analysis w) in
  let stored :=
    classification_by_hash (generate_content_hash content) (db w) in
  content_classifications (db w') = content_classifications (db w) /\
  content_analyses (db w') = content_analyses (db w) /\
  (forall cid,
      option_map ContentClassification.id stored <> Some cid ->
      tags_of (db w') cid = tags_of (db w) cid) /\
  (stored = None ->
   content_tags (db w') = content_tags (db w) /\
   processing_logs (db w') = processing_logs (db w)).
Proof.
  intros w' stored.
  set (existing := if faulty w then None
                   else option_map (history_of (db w)) stored).
  assert (F : tagging_frame (option_map History.id existing) (db w) (db w')).
  { subst w'. unfold generate_smart_tags, bind, time_time.
    rewrite get_classification_history_run. fold stored. fold existing.
    exact (respects_tagging_tiers self content title category analysis
             (clock w) existing (after_session w (db w))). }
  destruct F as (C & A & T & N). splits; auto.
  - intros cid H. apply T. intros E. apply H. subst existing.
    destruct (faulty w); [discriminate|].
    destruct stored; [exact E|discriminate].
  - intros H. apply N. subst existing. rewrite H.
    destruct (faulty w); reflexivity.
Qed.

Lemma analysis_frame_refl target d : analysis_frame target d d.
Proof. unfold analysis_frame. auto. Qed.

Lemma analysis_frame_trans target a b c :
  analysis_frame target a b -> analysis_frame target b c ->
  analysis_frame target a c.
Proof.
  intros (A1 & A2 & A3 & A4) (B1 & B2 & B3 & B4). unfold analysis_frame. splits.
  - congruence.
  - congruence.
  - intros cid H. rewrite (B3 cid H). auto.
  - intros H. destruct (A4 H), (B4 H). split; congruence.
Qed.

Lemma filter_filter_implied {A} (p q : A -> bool) l :
  (forall x, p x = true -> q x = true) ->
  filter p (filter q l) = filter p l.
Proof.
  intros H. induction l as [|x l IH]; simpl; [reflexivity|].
  destruct (q x) eqn:Q; simpl; rewrite IH; [reflexivity|].
  destruct (p x) eqn:P; [|reflexivity].
  rewrite (H x P) in Q. discriminate.
Qed.

Lemma save_analysis_body_frame now cid data service ms d d' :
  save_analysis_body now cid data service ms d = Ok (tt, d') ->
  analysis_frame (Some cid) d d'.
Proof.
  intros H.
  destruct (save_analysis_body_row _ _ _ _ _ _ _ H)
    as (a & _ & _ & _ & _ & O & C & T).
  unfold analysis_frame. splits; auto; [|discriminate].
  intros cid' N. unfold analyses_of, analyses_of_others in *.
  assert (I : forall x : ContentAnalysis.t,
             Nat.eqb (ContentAnalysis.classification_id x) cid' = true ->
             negb (Nat.eqb (ContentAnalysis.classification_id x) cid) = true).
  { intros x E. apply Nat.eqb_eq in E. apply Bool.negb_true_iff.
    apply Nat.eqb_neq. congruence. }
  rewrite <- (filter_filter_implied _ _ (content_analyses d') I).
  rewrite <- (filter_filter_implied _ _ (content_analyses d) I).
  now rewrite O.
Qed.

Lemma respects_save_analysis cid data service ms target :
  target = Some cid ->
  respects (analysis_frame target) (save_analysis cid data service ms).
Proof.
  intros ->. unfold save_analysis, save_analysis_block.
  frame_steps (analysis_frame_refl (Some cid))
              (analysis_frame_trans (Some cid)).
  apply (respects_session _ (analysis_frame_refl _)).
  intros d [] d'. apply save_analysis_body_frame.
Qed.

Lemma respects_status_analysis target name status rt ec sc :
  respects (analysis_frame target)
    (update_ai_service_status name status rt ec sc).
Proof.
  apply (respects_status _ (analysis_frame_refl _) (analysis_frame_trans _)).
  intros now d d' H.
  destruct (update_ai_service_status_body_frame _ _ _ _ _ _ _ _ H)
    as (C & T & A & L).
  unfold analysis_frame, analyses_of. rewrite A. auto.
Qed.

Lemma respects_saving_analysis existing data service start :
  respects (analysis_frame (option_map History.id existing))
    (match existing with
     | Some ex =>
         now <- time_time ;;
         save_analysis (History.id ex) data service (now - start)
     | None => ret tt
     end).
Proof.
  destruct existing as [ex|]; cbn [option_map].
  - apply (respects_bind _ (analysis_frame_trans _));
      [apply (respects_time _ (analysis_frame_refl _))|].
    intros now. now apply respects_save_analysis.
  - apply respects_ret, analysis_frame_refl.
Qed.

Lemma respects_analyze_with start existing prompt service :
  respects (analysis_frame (option_map History.id existing))
    (analyze_with start existing prompt service).
Proof.
  unfold analyze_with.
  apply (respects_bind _ (analysis_frame_trans _));
    [apply (respects_call _ (analysis_frame_refl _) (analysis_frame_trans _))|].
  intros response.
  apply (respects_bind _ (analysis_frame_trans _));
    [apply respects_saving_analysis|]. intros _.
  apply (respects_bind _ (analysis_frame_trans _));
    [apply (respects_time _ (analysis_frame_refl _))|]. intros now.
  apply (respects_bind _ (analysis_frame_trans _));
    [apply respects_status_analysis|]. intros _.
  apply (respects_lift _ (analysis_frame_refl _)).
Qed.

Lemma respects_analyze_locally start existing content :
  respects (analysis_frame (option_map History.id existing))
    (analyze_locally start existing content).
Proof.
  unfold analyze_locally.
  apply (respects_bind _ (analysis_frame_trans _));
    [apply respects_saving_analysis|]. intros _.
  apply (respects_ret _ (analysis_frame_refl _)).
Qed.

Lemma respects_analysis_tiers self content title context start existing :
  respects (analysis_frame (option_map History.id existing))
    (match has_analysis existing with
     | Some analysis => lift (cached_analysis analysis)
     | None =>
         let prompt := _create_analysis_prompt content title context in
         try_except
           (analyze_with start existing prompt (primary_service self))
           (fun e =>
              try_except
                (analyze_with start existing prompt (fallback_service self))
                (fun fallback_error =>
                   analyze_locally start existing content))
     end).
Proof.
  destruct (has_analysis existing);
    [apply (respects_lift _ (analysis_frame_refl _))|].
  cbv zeta.
  apply (respects_try_except _ (analysis_frame_trans _));
    [apply respects_analyze_with|]. intros e.
  apply (respects_try_except _ (analysis_frame_trans _));
    [apply respects_analyze_with|]. intros fallback_error.
  apply respects_analyze_locally.
Qed.

(** X8.  [analyze_content] never changes a stored classification or a
    stored tag, whatever the providers answer and whether the store
    fails or not.  It changes the analysis of no classification but the
    one stored for the content; when none is stored for the content it
    leaves all analyses and the processing log as they were, so that the
    analysis it returns is kept nowhere. *)
Theorem analyze_content_frame (self : Service) (content : string)
    (title context : option string) (w : World) :
  let w' := snd (analyze_content self content title context w) in
  let stored :=
    classification_by_hash (generate_content_hash content) (db w) in
  content_classifications (db w') = content_classifications (db w) /\
  content_tags (db w') = content_tags (db w) /\
  (forall cid,
      option_map ContentClassification.id stored <> Some cid ->
      analyses_of (db w') cid = analyses_of (db w) cid) /\
  (stored = None ->
   content_analyses (db w') = content_analyses (db w) /\
   processing_logs (db w') = processing_logs (db w)).
Proof.
  intros w' stored.
  set (existing := if faulty w then None
                   else option_map (history_of (db w)) stored).
  assert (F : analysis_frame (option_map History.id existing) (db w) (db w')).
  { subst w'. unfold analyze_content, bind, time_time.
    rewrite get_classification_history_run. fold stored. fold existing.
    exact (respects_analysis_tiers self content title context
             (clock w) existing (after_session w (db w))). }
  destruct F as (C & T & A & N). splits; auto.
  - intros cid H. apply A. intros E. apply H. subst existing.
    destruct (faulty w); [discriminate|].
    destruct stored; [exact E|discriminate].
  - intros H. apply N. subst existing. rewrite H.
    destruct (faulty w); reflexivity.
Qed.

(** ** The tags returned are the tags stored *)

Lemma tagging_make_smart_tags data r :
  TaggingResponse.make data = Ok r ->
  Dict.get "smart_tags" (PList []) data
  = PList (map PStr (TaggingResponse.smart_tags r)).
Proof.
  unfold TaggingResponse.make, Dict.get.
  destruct (Dict.lookup "smart_tags" data) as [[| | | | |l|]|];
    simpl; try discriminate.
  destruct (Pydantic.strs l) as [ss|] eqn:S; simpl; [|discriminate].
  destruct (Pydantic.float_ _); simpl; [|discriminate].
  destruct (Pydantic.dict_str_list_str _); simpl; [|discriminate].
  destruct (Pydantic.list_str _); simpl; [|discriminate].
  intros H. injection H as <-. simpl. now rewrite (strs_inv _ _ S).
Qed.

Lemma filter_negb_nil {A} (p : A -> bool) l :
  filter p (filter (fun x => negb (p x)) l) = [].
Proof.
  induction l as [|x l IH]; simpl; [reflexivity|].
  destruct (p x) eqn:P; simpl; [exact IH|]. now rewrite P.
Qed.

Lemma save_tags_stored cid data service ms w w' l :
  Dict.get "smart_tags" (PList []) data = PList l ->
  save_tags cid data service ms w = (Ok tt, w') ->
  map ContentTag.tag (tags_of (db w') cid) = l.
Proof.
  intros L H. rewrite save_tags_run in H.
  destruct (faulty w); [discriminate|].
  destruct (save_tags_body _ _ _ _ _ _) as [[[] d]|e] eqn:B; [|discriminate].
  injection H as <-. cbn [db after_session].
  destruct (save_tags_body_rows _ _ _ _ _ _ _ _ L B) as (rows & T & M & F).
  unfold tags_of. rewrite T, filter_app.
  rewrite (filter_negb_nil
             (fun t => Nat.eqb (ContentTag.classification_id t) cid)).
  rewrite filter_all; [exact M|].
  eapply Forall_impl; [|exact F]. intros t [E _]. cbn beta.
  rewrite E. apply Nat.eqb_refl.
Qed.

Lemma tag_with_returns start ex prompt service w r w' :
  tag_with start (Some ex) prompt service w = (Ok r, w') ->
  map ContentTag.tag (tags_of (db w') (History.id ex))
  = map PStr (TaggingResponse.smart_tags r).
Proof.
  unfold tag_with, bind, time_time, lift.
  destruct (_call_ai_service _ _ _ w) as [[response|e] w1]; [|discriminate].
  destruct (save_tags _ _ _ _ w1) as [[[]|e] w2] eqn:S; [|discriminate].
  destruct (update_ai_service_status_run service "active"
              (Some (clock w2 - start)) 0 1 w2) as (d & -> & _ & T & _).
  intros H. injection H as M <-. cbn [db after_session].
  unfold tags_of. rewrite T.
  exact (save_tags_stored _ _ _ _ _ _ _ (tagging_make_smart_tags _ _ M) S).
Qed.

Lemma tag_locally_returns start ex content w r w' :
  tag_locally start (Some ex) content w = (Ok r, w') ->
  map ContentTag.tag (tags_of (db w') (History.id ex))
  = map PStr (TaggingResponse.smart_tags r).
Proof.
  unfold tag_locally, bind, time_time, ret.
  destruct (save_tags _ _ _ _ w) as [[[]|e] w2] eqn:S; [|discriminate].
  intros H. injection H as <- <-.
  exact (save_tags_stored _ (TaggingResponse.dict (_fallback_tagging content))
           _ _ _ _ _ eq_refl S).
Qed.

(** X9.  When a classification without tags is stored for the content
    and the lookup does not fail, a [generate_smart_tags] that returns
    has stored the tags it returns: the tags of the classification are
    then the tags of the response, in the same order, whichever tier
    produced them and whatever the tiers before it had stored. *)
Theorem generate_smart_tags_stores_returned (self : Service)
    (content : string) (title category analysis : option string)
    (w w' : World) (row : ContentClassification.t) (r : TaggingResponse.t) :
  faulty w = false ->
  classification_by_hash (generate_content_hash content) (db w) = Some row ->
  tags_of (db w) (ContentClassification.id row) = [] ->
  generate_smart_tags self content title category analysis w = (Ok r, w') ->
  map ContentTag.tag (tags_of (db w') (ContentClassification.id row))
  = map PStr (TaggingResponse.smart_tags r).
Proof.
  intros Hf Hrow Hnone. unfold generate_smart_tags, bind, time_time.
  rewrite get_classification_history_run, Hf, Hrow. cbn [option_map].
  unfold has_tags. cbn [History.tags history_of]. rewrite Hnone. cbn [map].
  cbv zeta. unfold try_except.
  change (ContentClassification.id row)
    with (History.id (history_of (db w) row)).
  generalize (history_of (db w) row) as ex. intros ex.
  destruct (tag_with _ _ _ (primary_service self) _) as [[r1|e1] w1] eqn:T1.
  - intros H. injection H as <- <-. exact (tag_with_returns _ _ _ _ _ _ _ T1).
  - destruct (tag_with _ _ _ (fallback_service self) _) as [[r2|e2] w2] eqn:T2.
    + intros H. injection H as <- <-.
      exact (tag_with_returns _ _ _ _ _ _ _ T2).
    + apply tag_locally_returns.
Qed.

(** The quarterly report is stored without tags and the first provider
    answers with two tags. *)
Lemma generate_smart_tags_stores_returned_witness :
  let w := world store_with_report [] [answer 40 tagging_reply] in
  let run := generate_smart_tags tagging_service quarterly_report
               None None None w in
  map ContentTag.tag (tags_of (db (snd run)) 0)
  = [PStr "report"; PStr "deadline"].
Proof.
  intros w run.
  pose (r := {| TaggingResponse.smart_tags := ["report"; "deadline"];
                TaggingResponse.confidence := Finite 0.9;
                TaggingResponse.semantic_groups := [("work", ["report"])];
                TaggingResponse.related_topics := ["planning"] |}).
  pose (row := {| ContentClassification.id := 0;
                  ContentClassification.content_hash :=
                    generate_content_hash quarterly_report;
                  ContentClassification.content_preview := quarterly_report;
                  ContentClassification.category := PStr "01-Projects";
                  ContentClassification.confidence := PFloat (Finite 0.6);
                  ContentClassification.priority := PStr "normal";
                  ContentClassification.status := PStr "active";
                  ContentClassification.complexity := PStr "medium";
                  ContentClassification.estimated_time := PStr "1 hour";
                  ContentClassification.reasoning :=
                    PStr "Rule-based classification fallback";
                  ContentClassification.ai_service_used := "fallback";
                  ContentClassification.created_at := 0;
                  ContentClassification.updated_at := 0 |}).
  assert (H1 : faulty w = false) by (vm_compute; reflexivity).
  assert (H2 : classification_by_hash
                 (generate_content_hash quarterly_report) (db w) = Some row)
    by (vm_compute; reflexivity).
  assert (H3 : tags_of (db w) (ContentClassification.id row) = [])
    by (vm_compute; reflexivity).
  assert (H4 : generate_smart_tags tagging_service quarterly_report
                 None None None w = (Ok r, snd run))
    by (vm_compute; reflexivity).
  pose proof (@generate_smart_tags_stores_returned tagging_service
                quarterly_report None None None w (snd run) row r) as T.
  specialize (T H1). specialize (T H2). specialize (T H3). specialize (T H4).
  exact T.
Defined.

(** ** An analysis is computed once *)

Lemma strs_map ss : Pydantic.strs (map PStr ss) = Ok ss.
Proof. induction ss as [|s ss IH]; simpl; [|rewrite IH]; reflexivity. Qed.

Lemma analysis_make_dict r :
  AnalysisResponse.make (AnalysisResponse.dict r) = Ok r.
Proof.
  destruct r. unfold AnalysisResponse.make, AnalysisResponse.dict.
  cbn [Dict.lookup String.eqb Ascii.eqb Bool.eqb Pydantic.list_str
       Pydantic.str_ Pydantic.float_ AnalysisResponse.entities
       AnalysisResponse.sentiment AnalysisResponse.complexity_score
       AnalysisResponse.key_concepts AnalysisResponse.summary
       AnalysisResponse.language].
  rewrite !strs_map. reflexivity.
Qed.

Lemma analysis_make_get data r x1 x2 x3 x4 x5 x6 :
  AnalysisResponse.make data = Ok r ->
  AnalysisResponse.make
    [("entities", Dict.get "entities" x1 data);
     ("sentiment", Dict.get "sentiment" x2 data);
     ("complexity_score", Dict.get "complexity_score" x3 data);
     ("key_concepts", Dict.get "key_concepts" x4 data);
     ("summary", Dict.get "summary" x5 data);
     ("language", Dict.get "language" x6 data)] = Ok r.
Proof.
  unfold AnalysisResponse.make, Dict.get. intros H.
  cbn [Dict.lookup String.eqb Ascii.eqb Bool.eqb].
  repeat match type of H with
  | context [Dict.lookup ?k data] =>
      destruct (Dict.lookup k data) as [[]|]; simpl in H; try discriminate H
  end; try exact H;
  repeat match type of H with
  | context [Pydantic.strs ?l] =>
      destruct (Pydantic.strs l); simpl in H; try discriminate H
  end.
Qed.

Lemma save_analysis_served data service ms w w' row r :
  AnalysisResponse.make data = Ok r ->
  save_analysis (ContentClassification.id row) data service ms w = (Ok tt, w') ->
  served_analysis (db w') row = Some (Ok r) /\
  content_classifications (db w') = content_classifications (db w).
Proof.
  intros M H. rewrite save_analysis_run in H.
  destruct (faulty w); [discriminate|].
  destruct (save_analysis_body _ _ _ _ _ _) as [[[] d]|e] eqn:B; [|discriminate].
  injection H as <-. cbn [db after_session].
  destruct (save_analysis_body_row _ _ _ _ _ _ _ B)
    as (a & A & _ & F & _ & _ & C & _).
  split; [|exact C].
  unfold served_analysis. cbn [History.analysis history_of]. rewrite A.
  cbn [option_map]. unfold cached_analysis.
  cbn [AnalysisView.entities AnalysisView.sentiment
       AnalysisView.complexity_score AnalysisView.key_concepts
       AnalysisView.summary AnalysisView.language].
  pose proof (Forall_inv F) as F1. apply Forall_inv_tail in F.
  pose proof (Forall_inv F) as F2. apply Forall_inv_tail in F.
  pose proof (Forall_inv F) as F3. apply Forall_inv_tail in F.
  pose proof (Forall_inv F) as F4. apply Forall_inv_tail in F.
  pose proof (Forall_inv F) as F5. apply Forall_inv_tail in F.
  pose proof (Forall_inv F) as F6.
  cbv beta in F1, F2, F3, F4, F5, F6.
  change (analysis_field "entities" a) with (ContentAnalysis.entities a) in F1.
  change (analysis_field "sentiment" a) with (ContentAnalysis.sentiment a) in F2.
  change (analysis_field "complexity_score" a)
    with (ContentAnalysis.complexity_score a) in F3.
  change (analysis_field "key_concepts" a)
    with (ContentAnalysis.key_concepts a) in F4.
  change (analysis_field "summary" a) with (ContentAnalysis.summary a) in F5.
  change (analysis_field "language" a) with (ContentAnalysis.language a) in F6.
  rewrite F1, F2, F3, F4, F5, F6. f_equal. now apply analysis_make_get.
Qed.

Lemma status_keeps_served name status rt ec sc w row :
  exists w',
    update_ai_service_status name status rt ec sc w = (Ok tt, w') /\
    served_analysis (db w') row = served_analysis (db w) row /\
    content_classifications (db w') = content_classifications (db w).
Proof.
  destruct (update_ai_service_status_run name status rt ec sc w)
    as (d & E & C & _ & A).
  eexists. split; [exact E|]. cbn [db after_session]. split; [|exact C].
  unfold served_analysis, history_of, analysis_of. cbn [History.analysis].
  now rewrite A.
Qed.

Lemma analyze_with_returns start row ex prompt service w r w' :
  History.id ex = ContentClassification.id row ->
  analyze_with start (Some ex) prompt service w = (Ok r, w') ->
  served_analysis (db w') row = Some (Ok r) /\
  content_classifications (db w') = content_classifications (db w).
Proof.
  intros I. unfold analyze_with, bind, time_time, lift. rewrite I.
  destruct (call_run "AI service temporarily unavailable" prompt service w)
    as (r0 & w1 & -> & _ & _ & D & _).
  destruct r0 as [response|e]; [|discriminate].
  destruct (save_analysis _ _ _ _ w1) as [[[]|e] w2] eqn:S; [|discriminate].
  destruct (status_keeps_served service "active" (Some (clock w2 - start))
              0 1 w2 row) as (w3 & -> & V & C).
  intros H. injection H as M <-.
  destruct (save_analysis_served _ _ _ _ _ _ _ M S) as (V' & C').
  split; congruence.
Qed.

Lemma analyze_locally_returns start row ex content w r w' :
  History.id ex = ContentClassification.id row ->
  analyze_locally start (Some ex) content w = (Ok r, w') ->
  served_analysis (db w') row = Some (Ok r) /\
  content_classifications (db w') = content_classifications (db w).
Proof.
  intros I. unfold analyze_locally, bind, time_time, ret. rewrite I.
  destruct (save_analysis _ _ _ _ w) as [[[]|e] w2] eqn:S; [|discriminate].
  intros H. injection H as <- <-.
  exact (save_analysis_served _ _ _ _ _ _ _ (analysis_make_dict _) S).
Qed.

Lemma analyze_with_classifications start existing prompt service w :
  content_classifications (db (snd (analyze_with start existing prompt service w)))
  = content_classifications (db w).
Proof. apply (respects_analyze_with start existing prompt service w). Qed.

(** X10.  When a classification without an analysis is stored for the
    content and the lookup does not fail, an [analyze_content] that
    returns has stored what it returns: the next [analyze_content] for the
    same content whose lookup does not fail returns the same response from
    the store, whatever its title and context, without a request to a
    provider and without a change of the store. *)
Theorem analyze_content_round_trip (self : Service) (content : string)
    (title context title' context' : option string) (w w' : World)
    (row : ContentClassification.t) (r : AnalysisResponse.t) :
  faulty w = false ->
  classification_by_hash (generate_content_hash content) (db w) = Some row ->
  analysis_of (db w) (ContentClassification.id row) = None ->
  analyze_content self content title context w = (Ok r, w') ->
  faulty w' = false ->
  analyze_content self content title' context' w'
  = (Ok r, after_lookup w').
Proof.
  intros Hf Hrow Hnone H Hf'.
  assert (S : served_analysis (db w') row = Some (Ok r) /\
              content_classifications (db w') = content_classifications (db w)).
  { revert H. unfold analyze_content, bind, time_time.
    rewrite get_classification_history_run, Hf, Hrow. cbn [option_map].
    unfold has_analysis. cbn [History.analysis history_of]. rewrite Hnone.
    cbv zeta. unfold try_except.
    assert (I : History.id (history_of (db w) row)
                = ContentClassification.id row) by reflexivity.
    revert I. generalize (history_of (db w) row) as ex. intros ex I.
    set (w0 := after_session w (db w)).
    change (db w) with (db w0).
    destruct (analyze_with _ _ _ (primary_service self) w0)
      as [[r1|e1] w1] eqn:T1.
    - intros H. injection H as <- <-.
      exact (analyze_with_returns _ _ _ _ _ _ _ _ I T1).
    - pose proof (analyze_with_classifications (clock w) (Some ex)
                    (_create_analysis_prompt content title context)
                    (primary_service self) w0) as C1.
      rewrite T1 in C1. cbn [snd] in C1.
      destruct (analyze_with _ _ _ (fallback_service self) w1)
        as [[r2|e2] w2] eqn:T2.
      + intros H. injection H as <- <-.
        destruct (analyze_with_returns _ _ _ _ _ _ _ _ I T2) as (V & C).
        split; congruence.
      + pose proof (analyze_with_classifications (clock w) (Some ex)
                      (_create_analysis_prompt content title context)
                      (fallback_service self) w1) as C2.
        rewrite T2 in C2. cbn [snd] in C2. intros H.
        destruct (analyze_locally_returns _ _ _ _ _ _ _ I H) as (V & C).
        split; congruence. }
  destruct S as (V & C).
  unfold analyze_content, bind, time_time.
  rewrite get_classification_history_run, Hf'.
  unfold classification_by_hash in *. rewrite C, Hrow. cbn [option_map].
  unfold has_analysis. unfold served_analysis in V.
  destruct (History.analysis (history_of (db w') row)) as [v|];
    [|discriminate].
  cbn [option_map] in V. injection V as V. unfold lift, after_lookup.
  now rewrite V.
Qed.

(** The quarterly report is stored without an analysis and no provider
    answers: the local analysis is stored, and served to the next call. *)
Lemma analyze_content_round_trip_witness :
  let w := world store_with_report [] [] in
  let w' := snd (analyze_content analysis_service quarterly_report
                   None None w) in
  let r := {| AnalysisResponse.entities := ["content"];
              AnalysisResponse.sentiment := "neutral";
              AnalysisResponse.complexity_score := Finite 0.5;
              AnalysisResponse.key_concepts := ["knowledge"; "management"];
              AnalysisResponse.summary :=
                "Content analysis completed with basic processing.";
              AnalysisResponse.language := "English" |} in
  analyze_content analysis_service quarterly_report (Some "Report") None w'
  = (Ok r, after_lookup w').
Proof.
  intros w w' r.
  pose (row := {| ContentClassification.id := 0;
                  ContentClassification.content_hash :=
                    generate_content_hash quarterly_report;
                  ContentClassification.content_preview := quarterly_report;
                  ContentClassification.category := PStr "01-Projects";
                  ContentClassification.confidence := PFloat (Finite 0.6);
                  ContentClassification.priority := PStr "normal";
                  ContentClassification.status := PStr "active";
                  ContentClassification.complexity := PStr "medium";
                  ContentClassification.estimated_time := PStr "1 hour";
                  ContentClassification.reasoning :=
                    PStr "Rule-based classification fallback";
                  ContentClassification.ai_service_used := "fallback";
                  ContentClassification.created_at := 0;
                  ContentClassification.updated_at := 0 |}).
  assert (H1 : faulty w = false) by (vm_compute; reflexivity).
  assert (H2 : classification_by_hash
                 (generate_content_hash quarterly_report) (db w) = Some row)
    by (vm_compute; reflexivity).
  assert (H3 : analysis_of (db w) (ContentClassification.id row) = None)
    by (vm_compute; reflexivity).
  assert (H4 : analyze_content analysis_service quarterly_report None None w
               = (Ok r, w')) by (vm_compute; reflexivity).
  assert (H5 : faulty w' = false) by (vm_compute; reflexivity).
  pose proof (@analyze_content_round_trip analysis_service quarterly_report
                None None (Some "Report") None w w' row r) as T.
  specialize (T H1). specialize (T H2). specialize (T H3). specialize (T H4).
  specialize (T H5). exact T.
Defined.

(** ** A service name that is not supported *)

Lemma call_unsupported detail prompt service w :
  supported service = false ->
  _call_ai_service detail prompt service w
  = (Raise (ValueError ("Unsupported AI service: " ++ service)),
     with_event w (AiCall service prompt)).
Proof.
  unfold supported, _call_ai_service, bind, emit, raise. intros H.
  apply Bool.orb_false_iff in H. destruct H as [H H3].
  apply Bool.orb_false_iff in H. destruct H as [H1 H2].
  now rewrite H1, H2, H3.
Qed.

Lemma classify_with_unsupported start content prompt service w :
  supported service = false ->
  classify_with start content prompt service w
  = (Raise (ValueError ("Unsupported AI service: " ++ service)),
     with_event w (AiCall service prompt)).
Proof.
  intros H. unfold classify_with, bind. now rewrite call_unsupported.
Qed.

Lemma store_up_tail w d : store_up w -> store_up (after_session w d).
Proof.
  unfold store_up. cbn [db_faults after_session]. intros H b Hin.
  apply H. destruct (db_faults w); [destruct Hin | now right].
Qed.

(** X11.  When neither service name of the configuration is one of
    [anthropic], [perplexity] and [openai], a [classify_content] for
    content that is not stored, on a store that does not fail, sends no
    request to a provider, although replies are there to be had: it
    returns the rule-based classification and stores it under the
    service name [fallback]. *)
Theorem classify_content_unsupported_services (self : Service)
    (content : string) (context : option string) (w : World) :
  supported (primary_service self) = false ->
  supported (fallback_service self) = false ->
  store_up w ->
  classification_by_hash (generate_content_hash content) (db w) = None ->
  let run := classify_content self content context w in
  fst run = Ok (_fallback_classification content) /\
  backend (snd run) = backend w /\
  option_map ContentClassification.ai_service_used
    (classification_by_hash (generate_content_hash content) (db (snd run)))
  = Some "fallback".
Proof.
  intros H1 H2 Up Miss run. subst run.
  rewrite classify_content_miss.
  2:{ rewrite get_classification_history_run, (store_up_not_faulty _ Up), Miss.
      reflexivity. }
  unfold try_except.
  rewrite (classify_with_unsupported _ _ _ _ _ H1).
  rewrite (classify_with_unsupported _ _ _ _ _ H2).
  set (w2 := with_event _ _).
  assert (F : faulty w2 = false).
  { apply (store_up_not_faulty (after_lookup w)), store_up_tail, Up. }
  assert (B : backend w2 = backend w) by reflexivity.
  clearbody w2. unfold classify_locally, bind, time_time, ret.
  rewrite save_classification_run, F.
  destruct (save_classification_body _ _ _ _ _ _) as [[i d]|e] eqn:S.
  2:{ destruct (save_classification_body_ok (clock w2) content
                  (ClassificationResponse.dict (_fallback_classification content))
                  "fallback" (clock w2 - clock w) (db w2)) as (i & d & E).
      congruence. }
  destruct (save_classification_body_row _ _ _ _ _ _ _ _ S)
    as (row & R & _ & Sv & _).
  match goal with |- context [update_ai_service_status ?n ?s ?rt ?ec ?sc ?x] =>
    destruct (update_ai_service_status_run n s rt ec sc x)
      as (d' & -> & C & _) end.
  cbn [fst snd db backend after_session with_event] in *.
  splits; auto.
  unfold classification_by_hash in *. rewrite C, R. cbn [option_map].
  now rewrite Sv.
Qed.

(** A service configured with the names [claude] and [gpt] and a
    provider that would answer. *)
Lemma classify_content_unsupported_services_witness :
  let self := {| primary_service := "claude"; fallback_service := "gpt";
                 max_tokens := 1000 |} in
  let w := world empty_database [] [answer 30 full_reply] in
  let run := classify_content self quarterly_report None w in
  fst run = Ok (_fallback_classification quarterly_report) /\
  backend (snd run) = [answer 30 full_reply].
Proof.
  intros self w run.
  assert (H1 : supported (primary_service self) = false) by reflexivity.
  assert (H2 : supported (fallback_service self) = false) by reflexivity.
  assert (H3 : store_up w) by (intros b []).
  assert (H4 : classification_by_hash
                 (generate_content_hash quarterly_report) (db w) = None)
    by reflexivity.
  pose proof (@classify_content_unsupported_services self quarterly_report
                None w) as T.
  specialize (T H1). specialize (T H2). specialize (T H3). specialize (T H4).
  destruct T as (A & B & _). split; [exact A | exact B].
Defined.

(** ** A reply that cannot be read *)

Lemma call_supported detail prompt service w reply rest text :
  supported service = true ->
  backend w = reply :: rest ->
  body reply = Some text ->
  _call_ai_service detail prompt service w
  = (Ok text, after_request (with_event w (AiCall service prompt)) reply rest).
Proof.
  unfold supported, _call_ai_service, bind, emit. intros S B T.
  assert (R : forall u, request u (with_event w (AiCall service prompt))
              = (Ok text, after_request (with_event w (AiCall service prompt))
                            reply rest)).
  { intros u. unfold request. cbn [backend with_event]. now rewrite B, T. }
  destruct (String.eqb service "anthropic"); [apply R|].
  destruct (String.eqb service "perplexity"); [apply R|].
  destruct (String.eqb service "openai"); [apply R|discriminate].
Qed.

Lemma classify_with_unread start content prompt service w reply rest text e :
  supported service = true ->
  backend w = reply :: rest ->
  body reply = Some text ->
  parse_json_object text = Raise e ->
  faulty w = false ->
  exists w',
    classify_with start content prompt service w
      = (Ok unread_reply_response, w') /\
    trace w' = (trace w ++ [AiCall service prompt;
                            StatusUpdate service "active"])%list /\
    option_map ContentClassification.ai_service_used
      (classification_by_hash (generate_content_hash content) (db w'))
    = Some service.
Proof.
  intros S B T P F. unfold classify_with, bind.
  rewrite (call_supported _ _ _ w reply rest text S B T).
  unfold _parse_classification_response. rewrite P.
  set (w2 := after_request _ _ _).
  assert (F2 : faulty w2 = false) by exact F.
  assert (Tr : trace w2 = (trace w ++ [AiCall service prompt])%list)
    by reflexivity.
  clearbody w2. unfold time_time.
  rewrite save_classification_run, F2.
  destruct (save_classification_body _ _ _ _ _ _) as [[i d]|e'] eqn:Sv.
  2:{ destruct (save_classification_body_ok (clock w2) content
                  _fallback_classification_data service
                  (clock w2 - start) (db w2)) as (i & d & E).
      congruence. }
  destruct (save_classification_body_row _ _ _ _ _ _ _ _ Sv)
    as (row & R & _ & Su & _).
  match goal with |- context [update_ai_service_status ?n ?s ?rt ?ec ?sc ?x] =>
    destruct (update_ai_service_status_run n s rt ec sc x)
      as (d' & -> & C & _) end.
  unfold lift. eexists. split; [reflexivity|].
  cbn [db trace after_session with_event] in *. split.
  - rewrite Tr, <- app_assoc. reflexivity.
  - unfold classification_by_hash in *. rewrite C, R. cbn [option_map].
    now rewrite Su.
Qed.

(** X12.  When the first provider answers with a text that holds no JSON
    object that can be read, [classify_content], for content that is not
    stored and on a store that does not fail, does not go on to the
    second provider or to the rules: it returns the constant
    classification of [_fallback_classification_data], stores it under
    the name of the first provider, and reports that provider as
    active. *)
Theorem classify_content_unread_reply (self : Service) (content : string)
    (context : option string) (w : World) (reply : BackendReply)
    (rest : list BackendReply) (text : string) (e : exn) :
  supported (primary_service self) = true ->
  backend w = reply :: rest ->
  body reply = Some text ->
  parse_json_object text = Raise e ->
  store_up w ->
  classification_by_hash (generate_content_hash content) (db w) = None ->
  let run := classify_content self content context w in
  fst run = Ok unread_reply_response /\
  calls (trace (snd run))
    = (calls (trace w)
       ++ [(primary_service self,
            _create_classification_prompt content context)])%list /\
  health_updates (trace (snd run))
    = (health_updates (trace w) ++ [primary_service self])%list /\
  option_map ContentClassification.ai_service_used
    (classification_by_hash (generate_content_hash content) (db (snd run)))
  = Some (primary_service self).
Proof.
  intros S B T P Up Miss run. subst run.
  rewrite classify_content_miss.
  2:{ rewrite get_classification_history_run, (store_up_not_faulty _ Up), Miss.
      reflexivity. }
  unfold try_except.
  destruct (classify_with_unread (clock w) content
              (_create_classification_prompt content context)
              (primary_service self) (after_lookup w) reply rest text e
              S B T P) as (w' & -> & Tr & Sv).
  { apply store_up_not_faulty, store_up_tail, Up. }
  cbn [fst snd]. rewrite Tr. cbn [trace after_lookup after_session].
  splits; auto.
  - unfold calls. rewrite !flat_map_app. reflexivity.
  - unfold health_updates. rewrite !flat_map_app. reflexivity.
Qed.

(** The first provider answers in prose. *)
Lemma classify_content_unread_reply_witness :
  let w := world empty_database []
             [answer 30 "I cannot classify this."; answer 20 full_reply] in
  let run := classify_content classification_service quarterly_report None w in
  fst run = Ok unread_reply_response /\
  health_updates (trace (snd run)) = ["anthropic"].
Proof.
  intros w run.
  assert (H1 : supported (primary_service classification_service) = true)
    by reflexivity.
  assert (H2 : backend w = [answer 30 "I cannot classify this.";
                            answer 20 full_reply]) by reflexivity.
  assert (H3 : body (answer 30 "I cannot classify this.")
               = Some "I cannot classify this.") by reflexivity.
  assert (H4 : parse_json_object "I cannot classify this."
               = Raise (ValueError "No JSON found in response"))
    by reflexivity.
  assert (H5 : store_up w) by (intros b []).
  assert (H6 : classification_by_hash
                 (generate_content_hash quarterly_report) (db w) = None)
    by reflexivity.
  pose proof (@classify_content_unread_reply classification_service
                quarterly_report None w _ _ _ _ H1 H2 H3 H4 H5 H6) as T.
  destruct T as (A & _ & B & _). split; [exact A | exact B].
Defined.

(** ** The history endpoint *)

(** X13.  [GET /api/classification/history/{content_hash}] returns the
    stored classification with its tags and its analysis when a row with
    the hash exists and the lookup does not fail.  In every other case,
    that of a store that fails included, it raises an [HTTPException]
    with status 404: a failure of the store is reported as a
    classification that was not found.  The tables are never changed. *)
Theorem history_endpoint (content_hash : string) (w : World) :
  let run := Api.get_classification_history content_hash w in
  db (snd run) = db w /\
  match classification_by_hash content_hash (db w) with
  | Some row =>
      fst run = if faulty w
                then Raise (HTTPException 404 "Classification not found")
                else Ok (history_of (db w) row)
  | None => fst run = Raise (HTTPException 404 "Classification not found")
  end.
Proof.
  intros run. subst run. unfold Api.get_classification_history, bind.
  rewrite get_classification_history_run.
  destruct (faulty w), (classification_by_hash content_hash (db w));
    split; reflexivity.
Qed.

(** ** The health of the database *)

Lemma split_char_whole sep s :
  has_char sep s = false -> split_char sep s = [s].
Proof.
  induction s as [|c r IH]; [reflexivity|]. cbn [has_char split_char].
  intros H. apply Bool.orb_false_iff in H. destruct H as [E H].
  now rewrite E, (IH H).
Qed.

Lemma split_char_parts sep s :
  has_char sep s = true ->
  exists part part' parts, split_char sep s = part :: part' :: parts.
Proof.
  induction s as [|c r IH]; [discriminate|]. cbn [has_char split_char].
  destruct (Ascii.eqb c sep) eqn:E; cbn [orb].
  - intros _. destruct (has_char sep r) eqn:H.
    + destruct (IH eq_refl) as (a & b & l & ->). eauto.
    + rewrite (split_char_whole _ _ H). eauto.
  - intros H. destruct (IH H) as (a & b & l & ->). eauto.
Qed.

Lemma after_last_at_step c r :
  after_last_at (String c r)
  = if has_char "@" r then after_last_at r
    else if Ascii.eqb c "@" then r else String c r.
Proof.
  unfold after_last_at. cbn [split_char].
  destruct (has_char "@" r) eqn:H.
  - destruct (split_char_parts _ _ H) as (a & b & l & ->).
    destruct (Ascii.eqb c "@"); reflexivity.
  - rewrite (split_char_whole _ _ H). destruct (Ascii.eqb c "@"); reflexivity.
Qed.

Lemma after_last_at_no_at url : has_char "@" (after_last_at url) = false.
Proof.
  induction url as [|c r IH]; [reflexivity|]. rewrite after_last_at_step.
  destruct (has_char "@" r) eqn:H; [exact IH|].
  destruct (Ascii.eqb c "@") eqn:E; [exact H|].
  cbn [has_char]. now rewrite E, H.
Qed.

Lemma after_last_at_suffix url :
  exists before, url = before ++ after_last_at url.
Proof.
  induction url as [|c r [before IH]]; [now exists ""|].
  rewrite after_last_at_step. destruct (has_char "@" r).
  - exists (String c before). cbn [append]. now rewrite <- IH.
  - destruct (Ascii.eqb c "@"); [now exists (String c "")|now exists ""].
Qed.

Lemma has_char_app c s t :
  has_char c (s ++ t) = has_char c s || has_char c t.
Proof.
  induction s as [|a s IH]; [reflexivity|]. cbn [append has_char].
  rewrite IH. apply Bool.orb_assoc.
Qed.

Lemma after_last_at_split credentials host :
  has_char "@" host = false ->
  after_last_at (credentials ++ "@" ++ host) = host.
Proof.
  intros H. induction credentials as [|c r IH].
  - cbn [append]. rewrite after_last_at_step, H. reflexivity.
  - cbn [append]. rewrite after_last_at_step, has_char_app.
    cbn [append has_char Ascii.eqb Bool.eqb]. rewrite Bool.orb_true_r.
    exact IH.
Qed.

(** X14.  [check_database_health] never raises.  When the connection
    works the dict is healthy, has no error, and shows of the URL what
    follows its last [@]: a text without [@], so that for a URL made of
    credentials, [@] and a host without [@] it is the host.  When the
    connection fails the dict is unhealthy, has no entry for the URL, and
    carries the text of the exception as the driver wrote it, whatever
    that text names: nothing is hidden from it.  The time stamp is the
    time of the call. *)
Theorem check_database_health_outcome (str : exn -> string)
    (DATABASE_URL : string) (w : World) :
  exists h,
    fst (check_database_health str DATABASE_URL w) = Ok h /\
    Health.timestamp h = clock w /\
    (if faulty w
     then Health.status h = "unhealthy" /\
          Health.database_url h = None /\
          Health.error h = Some (str OperationalError)
     else Health.status h = "healthy" /\
          Health.error h = None /\
          exists shown,
            Health.database_url h = Some shown /\
            has_char "@" shown = false /\
            (exists before, DATABASE_URL = before ++ shown) /\
            (forall credentials host,
                DATABASE_URL = credentials ++ "@" ++ host ->
                has_char "@" host = false -> shown = host)).
Proof.
  unfold check_database_health, try_except, bind, time_time, ret.
  rewrite session_run. destruct (faulty w).
  - eexists. splits; reflexivity.
  - eexists. splits; try reflexivity. eexists. splits.
    + reflexivity.
    + apply after_last_at_no_at.
    + apply after_last_at_suffix.
    + intros credentials host -> H. now apply after_last_at_split.
Qed.

Lemma check_database_health_run str url w :
  exists h,
    check_database_health str url w = (Ok h, after_session w (db w)) /\
    (Health.status h = "healthy" <-> faulty w = false).
Proof.
  unfold check_database_health, try_except, bind, time_time, ret.
  rewrite session_run. destruct (faulty w); eexists; split;
    try reflexivity; cbn [Health.status]; split; congruence.
Qed.

(** X15.  The first [health_check] of a new [DatabaseManager] checks the
    database and is healthy exactly when the connection works.  For the
    five minutes that follow, every [health_check] returns that same
    status without a connection to the database, whatever has become of
    the database meanwhile; from five minutes on, the database is checked
    again. *)
Theorem health_check_cache (str : exn -> string) (DATABASE_URL : string)
    (w : World) :
  let run := health_check str DATABASE_URL db_manager w in
  exists h self,
    fst run = Ok (Some h, self) /\
    (Health.status h = "healthy" <-> faulty w = false) /\
    (forall w2,
        clock w2 - clock w < 300000 ->
        health_check str DATABASE_URL self w2 = (Ok (Some h, self), w2)) /\
    (forall w2,
        300000 <= clock w2 - clock w ->
        exists h2 self2,
          health_check str DATABASE_URL self w2
            = (Ok (Some h2, self2), after_session w2 (db w2)) /\
          (Health.status h2 = "healthy" <-> faulty w2 = false) /\
          Health.timestamp h2 = clock w2).
Proof.
  intros run. subst run. unfold health_check at 1, bind, time_time, ret.
  cbn [last_health_check db_manager].
  destruct (check_database_health_run str DATABASE_URL w) as (h & -> & Hh).
  do 2 eexists. splits.
  - reflexivity.
  - exact Hh.
  - intros w2 H. unfold health_check, bind, time_time, ret.
    cbn [last_health_check health_check_interval db_manager _health_status].
    assert (E : (clock w2 - clock w <? 300 * 1000) = true)
      by (apply Z.ltb_lt; lia).
    now rewrite E.
  - intros w2 H. unfold health_check, bind, time_time, ret.
    cbn [last_health_check health_check_interval db_manager _health_status].
    assert (E : (clock w2 - clock w <? 300 * 1000) = false)
      by (apply Z.ltb_ge; lia).
    rewrite E.
    unfold check_database_health, try_except, bind, time_time, ret.
    rewrite session_run.
    destruct (faulty w2); do 2 eexists; splits; try reflexivity;
      cbn [Health.status]; split; congruence.
Qed.

(** ** Clean-up and metrics *)

Lemma filter_idem {A} (p : A -> bool) l : filter p (filter p l) = filter p l.
Proof.
  induction l as [|x l IH]; simpl; [reflexivity|].
  destruct (p x) eqn:P; simpl; [rewrite P, IH|]; auto.
Qed.

Lemma cutoff_spec now days :
  (cutoff_in_range now days /\
   cutoff now days = Ok (now - days * milliseconds_per_day)) \/
  (~ cutoff_in_range now days /\ cutoff now days = Raise OverflowError).
Proof.
  unfold cutoff, cutoff_in_range. cbv zeta.
  destruct (Z.abs days <=? 999999999) eqn:A; cbn [andb].
  - destruct (datetime_min <=? now - days * milliseconds_per_day) eqn:B;
      cbn [andb].
    + destruct (now - days * milliseconds_per_day <=? datetime_max) eqn:C.
      * left. apply Z.leb_le in A, B, C. auto.
      * right. apply Z.leb_gt in C. split; [lia|reflexivity].
    + right. apply Z.leb_gt in B. split; [lia|reflexivity].
  - right. apply Z.leb_gt in A. split; [lia|reflexivity].
Qed.

Lemma cleanup_old_data_run metrics days w :
  cleanup_old_data metrics days w =
  match cutoff (clock w) days with
  | Raise e => (Raise e, w)
  | Ok cutoff_date =>
      if faulty w then (Raise OperationalError, after_session w (db w))
      else
        (Ok (filter (fun m => negb (SystemMetrics.timestamp m <? cutoff_date))
                    metrics),
         after_session w
           (with_logs (db w)
              (filter (fun l => negb (ProcessingLog.created_at l <? cutoff_date))
                      (processing_logs (db w)))))
  end.
Proof.
  unfold cleanup_old_data, try_except, bind, time_time, raise, lift.
  destruct (cutoff (clock w) days) as [c|e]; [|reflexivity].
  rewrite session_run. destruct (faulty w); reflexivity.
Qed.

(** X16.  A [cleanup_old_data] that returns has deleted the processing
    logs and the metrics older than the number of days given, counted
    back from the time of the call, and no others: a row stamped at the
    cutoff itself is kept.  The classifications, tags, analyses and
    service statuses are as before, and a second clean-up at the same
    time deletes nothing more.  It raises in two cases, and leaves the
    tables as they were in both: an [OverflowError], before the database
    is reached, when the cutoff is not a moment that a [datetime] holds,
    and the exception of the session when the session fails. *)
Theorem cleanup_old_data_keeps_recent (metrics : list SystemMetrics.t)
    (days_to_keep : Z) (w : World) :
  let cutoff_date := clock w - days_to_keep * milliseconds_per_day in
  match cleanup_old_data metrics days_to_keep w with
  | (Ok metrics', w') =>
      cutoff_in_range (clock w) days_to_keep /\
      (forall l, In l (processing_logs (db w')) <->
                 In l (processing_logs (db w)) /\
                 cutoff_date <= ProcessingLog.created_at l) /\
      (forall m, In m metrics' <->
                 In m metrics /\ cutoff_date <= SystemMetrics.timestamp m) /\
      content_classifications (db w') = content_classifications (db w) /\
      content_tags (db w') = content_tags (db w) /\
      content_analyses (db w') = content_analyses (db w) /\
      ai_service_status (db w') = ai_service_status (db w) /\
      (faulty w' = false ->
       cleanup_old_data metrics' days_to_keep w'
       = (Ok metrics', after_session w' (db w')))
  | (Raise e, w') =>
      db w' = db w /\
      (e = OverflowError /\ ~ cutoff_in_range (clock w) days_to_keep /\
       w' = w \/
       e = OperationalError /\ cutoff_in_range (clock w) days_to_keep /\
       faulty w = true)
  end.
Proof.
  intros cutoff_date. rewrite cleanup_old_data_run.
  destruct (cutoff_spec (clock w) days_to_keep) as [[R E]|[R E]]; rewrite E.
  2:{ split; [reflexivity|]. left. auto. }
  destruct (faulty w) eqn:F; [split; [reflexivity|]; right; auto|].
  fold cutoff_date.
  cbn [db after_session with_logs processing_logs content_classifications
       content_tags content_analyses ai_service_status].
  splits; try reflexivity.
  - exact R.
  - intros l. rewrite filter_In, Bool.negb_true_iff, Z.ltb_ge. reflexivity.
  - intros m. rewrite filter_In, Bool.negb_true_iff, Z.ltb_ge. reflexivity.
  - intros F'. rewrite cleanup_old_data_run.
    cbn [clock after_session]. rewrite E, F'.
    cbn [db after_session with_logs processing_logs]. fold cutoff_date.
    rewrite !filter_idem. reflexivity.
Qed.

Lemma record_metric_run metrics name value unit tags w :
  record_metric metrics name value unit tags w =
  if faulty w then (Ok metrics, after_session w (db w))
  else
    (Ok (metrics ++
         [{| SystemMetrics.id := next_id (db w);
             SystemMetrics.metric_name := name;
             SystemMetrics.metric_value := value;
             SystemMetrics.metric_unit := unit;
             SystemMetrics.tags := tags;
             SystemMetrics.timestamp := clock w |}])%list,
     after_session w (snd (fresh (db w)))).
Proof.
  unfold record_metric, try_except, bind, time_time, ret.
  rewrite session_run. destruct (faulty w); reflexivity.
Qed.

(** X17.  [record_metric] never raises: when the session fails the
    metric is dropped and the caller is not told.  Otherwise one row
    with the values given, stamped with the time of the call, is added
    after the metrics there were; a clean-up that returns and runs
    before the number of days it keeps has passed keeps the row.  No table of the classifications changes. *)
Theorem record_metric_then_cleanup (metrics : list SystemMetrics.t)
    (metric_name : string) (metric_value : pyfloat)
    (metric_unit : option string) (tags : option pydict) (w : World) :
  let run := record_metric metrics metric_name metric_value metric_unit
               tags w in
  exists metrics',
    fst run = Ok metrics' /\
    content_classifications (db (snd run)) = content_classifications (db w) /\
    content_tags (db (snd run)) = content_tags (db w) /\
    content_analyses (db (snd run)) = content_analyses (db w) /\
    processing_logs (db (snd run)) = processing_logs (db w) /\
    if faulty w then metrics' = metrics
    else
      exists m,
        metrics' = (metrics ++ [m])%list /\
        SystemMetrics.metric_name m = metric_name /\
        SystemMetrics.metric_value m = metric_value /\
        SystemMetrics.metric_unit m = metric_unit /\
        SystemMetrics.tags m = tags /\
        SystemMetrics.timestamp m = clock w /\
        forall days_to_keep w2 kept w3,
          clock w2 - clock w <= days_to_keep * milliseconds_per_day ->
          cleanup_old_data metrics' days_to_keep w2 = (Ok kept, w3) ->
          In m kept.
Proof.
  intros run. subst run. rewrite record_metric_run.
  destruct (faulty w); eexists; splits; try reflexivity.
  eexists. splits; try reflexivity.
  intros days w2 kept w3 H. rewrite cleanup_old_data_run.
  destruct (cutoff_spec (clock w2) days) as [[R E]|[R E]]; rewrite E;
    [|discriminate].
  destruct (faulty w2); [discriminate|].
  intros E'. injection E' as <- _.
  apply filter_In. split; [apply in_or_app; right; now left|].
  cbn [SystemMetrics.timestamp]. apply Bool.negb_true_iff, Z.ltb_ge. lia.
Qed.

(** ** The status of a service *)

Lemma find_update_first_other {A} (p q : A -> bool) (f : A -> A) l :
  (forall x, p x = true -> q x = false) ->
  (forall x, q (f x) = q x) ->
  find q (update_first p f l) = find q l.
Proof.
  intros Hp Hf. induction l as [|x l IH]; simpl; [reflexivity|].
  destruct (p x) eqn:P; simpl.
  - now rewrite Hf, (Hp x P).
  - destruct (q x); auto.
Qed.

Lemma find_app_other {A} (q : A -> bool) l y :
  q y = false -> find q (l ++ [y]) = find q l.
Proof.
  intros H. induction l as [|x l IH]; simpl; [now rewrite H|].
  destruct (q x); auto.
Qed.

Lemma names_differ (name other : string) (r : AIServiceStatus.t) :
  other <> name ->
  String.eqb (AIServiceStatus.service_name r) name = true ->
  String.eqb (AIServiceStatus.service_name r) other = false.
Proof.
  intros N E. apply String.eqb_eq in E. apply String.eqb_neq. congruence.
Qed.

Lemma update_ai_service_status_body_row now name status rt ec sc d d' :
  update_ai_service_status_body now name status rt ec sc d = Ok (tt, d') ->
  (forall other, other <> name -> status_of other d' = status_of other d) /\
  (NoDup (status_names d) -> NoDup (status_names d')) /\
  exists r,
    status_of name d' = Some r /\
    AIServiceStatus.status r = status /\
    AIServiceStatus.response_time_ms r = rt /\
    AIServiceStatus.updated_at r = now /\
    AIServiceStatus.last_successful_call r
    = if String.eqb status "active" then Some now
      else match status_of name d with
           | Some old => AIServiceStatus.last_successful_call old
           | None => None
           end.
Proof.
  unfold update_ai_service_status_body, status_of, status_names.
  destruct (find _ (ai_service_status d)) as [old|] eqn:E.
  - intros H. injection H as <-. cbn [ai_service_status with_status]. splits.
    + intros other N. apply find_update_first_other; [|reflexivity].
      intros x. apply names_differ, N.
    + now rewrite map_update_first by reflexivity.
    + eexists. split.
      * apply find_update_first; [exact E|].
        cbn [AIServiceStatus.service_name]. apply find_some in E. apply E.
      * splits; reflexivity.
  - destruct (fresh d) as [i d0] eqn:F. unfold fresh in F.
    injection F as <- <-. intros H. injection H as <-.
    cbn [ai_service_status with_status]. splits.
    + intros other N. apply find_app_other.
      cbn [AIServiceStatus.service_name]. apply String.eqb_neq. congruence.
    + intros ND. rewrite map_app. apply NoDup_snoc; [exact ND|].
      cbn [map AIServiceStatus.service_name]. intros Hin.
      apply in_map_iff in Hin as (r & Er & Hin).
      apply (find_none _ _ E) in Hin. rewrite Er, String.eqb_refl in Hin.
      discriminate.
    + eexists. split.
      * apply find_app_new; [exact E|].
        cbn [AIServiceStatus.service_name]. apply String.eqb_refl.
      * splits; reflexivity.
Qed.

(** X18.  [update_ai_service_status] never raises, changes the row of no
    other service, and keeps the names of the table distinct.  When its
    session works, the row of the service holds the status, the response
    time and the time of the call; its time of the last successful call
    is the time of the call for the status [active] and is otherwise
    what it was, so that a report of an error keeps the time of the last
    success.  When its session fails the table is as it was. *)
Theorem update_ai_service_status_row (service_name status : string)
    (response_time_ms : option Z) (error_count success_count : Z)
    (w : World) :
  let run := update_ai_service_status service_name status response_time_ms
               error_count success_count w in
  fst run = Ok tt /\
  (forall other, other <> service_name ->
     status_of other (db (snd run)) = status_of other (db w)) /\
  (NoDup (status_names (db w)) -> NoDup (status_names (db (snd run)))) /\
  if faulty w then ai_service_status (db (snd run)) = ai_service_status (db w)
  else
    exists r,
      status_of service_name (db (snd run)) = Some r /\
      AIServiceStatus.status r = status /\
      AIServiceStatus.response_time_ms r = response_time_ms /\
      AIServiceStatus.updated_at r = clock w /\
      AIServiceStatus.last_successful_call r
      = if String.eqb status "active" then Some (clock w)
        else match status_of service_name (db w) with
             | Some old => AIServiceStatus.last_successful_call old
             | None => None
             end.
Proof.
  intros run. subst run.
  unfold update_ai_service_status, try_except, bind, emit, time_time, ret.
  rewrite session_run.
  change (faulty (with_event w (StatusUpdate service_name status)))
    with (faulty w).
  destruct (faulty w); [cbn [fst snd db after_session with_event]; auto|].
  cbn [db clock with_event].
  destruct (update_ai_service_status_body _ _ _ _ _ _ _) as [[[] d]|e] eqn:B.
  - cbn [fst snd db after_session].
    destruct (update_ai_service_status_body_row _ _ _ _ _ _ _ _ B)
      as (O & N & R).
    splits; auto.
  - exfalso. revert B. unfold update_ai_service_status_body.
    destruct (find _ _); [|destruct (fresh _)]; discriminate.
Qed.

(** ** The complete classification *)

Lemma generate_smart_tags_classifications self content title category
    analysis w :
  content_classifications
    (db (snd (generate_smart_tags self content title category analysis w)))
  = content_classifications (db w).
Proof.
  unfold generate_smart_tags, bind, time_time.
  rewrite get_classification_history_run.
  match goal with |- context [has_tags ?ex] =>
    apply (respects_tagging_tiers self content title category analysis
             (clock w) ex (after_session w (db w))) end.
Qed.

Lemma analyze_content_classifications self content title context w :
  content_classifications
    (db (snd (analyze_content self content title context w)))
  = content_classifications (db w).
Proof.
  unfold analyze_content, bind, time_time.
  rewrite get_classification_history_run.
  match goal with |- context [has_analysis ?ex] =>
    apply (respects_analysis_tiers self content title context
             (clock w) ex (after_session w (db w))) end.
Qed.

Lemma served_same_table content resp d d' :
  content_classifications d' = content_classifications d ->
  served content resp d -> served content resp d'.
Proof.
  unfold served, classification_by_hash. intros ->. auto.
Qed.

(** X19.  [POST /api/classification/complete] raises nothing but an
    [HTTPException] with status 500 that carries the text of the
    exception of the step that failed.  When it returns, the hash of the
    response is the hash of the content, and the classification of the
    response is the one that the store then holds for the content: the
    tagging and the analysis that follow the classification have not
    changed it. *)
Theorem complete_classification_result (str : exn -> string)
    (repr : pyfloat -> string)
    (classification_service tagging_service analysis_service : Service)
    (content : string) (context : option string) (w : World) :
  let run := Api.complete_classification str repr classification_service
               tagging_service analysis_service content context w in
  match fst run with
  | Ok response =>
      CompleteResponse.content_hash response = generate_content_hash content /\
      served content (CompleteResponse.classification response) (db (snd run))
  | Raise e => exists cause, e = HTTPException 500 (str cause)
  end.
Proof.
  intros run. subst run.
  unfold Api.complete_classification, Api.internal_error, try_except, bind,
    raise, ret.
  destruct (classify_content _ _ _ w) as [[c|e] w1] eqn:C; [|cbn; eauto].
  pose proof (classify_content_served _ _ _ _ _ _ C) as S.
  match goal with |- context [generate_smart_tags ?s ?c ?t ?cat ?a w1] =>
    pose proof (generate_smart_tags_classifications s c t cat a w1) as T;
    destruct (generate_smart_tags s c t cat a w1) as [[tg|e] w2]
  end; [|cbn; eauto].
  cbn [snd] in T.
  pose proof (analyze_content_classifications analysis_service content None
                context w2) as A.
  destruct (analyze_content _ _ _ _ w2) as [[an|e] w3]; [|cbn; eauto].
  cbn [fst snd CompleteResponse.content_hash CompleteResponse.classification]
    in *.
  split; [reflexivity|].
  apply (served_same_table _ _ (db w1)); [congruence | exact S].
Qed.

(** ** A tagging without tags is not kept *)

Section WorldFrames.

Variable R : World -> World -> Prop.
Hypothesis R_refl : forall w, R w w.
Hypothesis R_trans : forall a b c, R a b -> R b c -> R a c.
Hypothesis R_session : forall w d, R w (after_session w d).
Hypothesis R_event : forall w e, R w (with_event w e).
Hypothesis R_request :
  forall w r rest, backend w = r :: rest -> R w (after_request w r rest).

Lemma keeps_ret {A} (a : A) : keeps R (ret a).
Proof. intros w. apply R_refl. Qed.

Lemma keeps_raise {A} e : keeps R (@raise A e).
Proof. intros w. apply R_refl. Qed.

Lemma keeps_lift {A} (r : result A) : keeps R (lift r).
Proof. intros w. apply R_refl. Qed.

Lemma keeps_time : keeps R time_time.
Proof. intros w. apply R_refl. Qed.

Lemma keeps_emit e : keeps R (emit e).
Proof. intros w. apply R_event. Qed.

Lemma keeps_request e : keeps R (request e).
Proof.
  intros w. unfold request. destruct (backend w) eqn:B; [apply R_refl|].
  destruct (body _); now apply R_request.
Qed.

Lemma keeps_session {A} (body : Database -> result (A * Database)) :
  keeps R (session body).
Proof.
  intros w. rewrite session_run. destruct (faulty w); [apply R_session|].
  destruct (body (db w)) as [[a d]|e]; apply R_session.
Qed.

Lemma keeps_bind {A B} (c : M A) (k : A -> M B) :
  keeps R c -> (forall a, keeps R (k a)) -> keeps R (bind c k).
Proof.
  intros Hc Hk w. unfold bind. specialize (Hc w).
  destruct (c w) as [[a|e] w1]; [|exact Hc].
  exact (R_trans _ _ _ Hc (Hk a w1)).
Qed.

Lemma keeps_try_except {A} (c : M A) (h : exn -> M A) :
  keeps R c -> (forall e, keeps R (h e)) -> keeps R (try_except c h).
Proof.
  intros Hc Hh w. unfold try_except. specialize (Hc w).
  destruct (c w) as [[a|e] w1]; [exact Hc|].
  exact (R_trans _ _ _ Hc (Hh e w1)).
Qed.

Lemma keeps_provider service detail :
  keeps R
    (if String.eqb service "anthropic" then
       request (HTTPException 500 "Anthropic API temporarily unavailable")
     else if String.eqb service "perplexity" then
       request (HTTPException 500 "Perplexity API temporarily unavailable")
     else if String.eqb service "openai" then
       request (HTTPException 500 detail)
     else raise (ValueError ("Unsupported AI service: " ++ service))).
Proof.
  repeat match goal with
    |- keeps R (if ?b then _ else _) => destruct b
    end; auto using keeps_request, keeps_raise.
Qed.

Lemma keeps_call detail prompt service :
  keeps R (_call_ai_service detail prompt service).
Proof.
  unfold _call_ai_service. apply keeps_bind; [apply keeps_emit|].
  intros _. apply keeps_provider.
Qed.

Lemma keeps_status name status rt ec sc :
  keeps R (update_ai_service_status name status rt ec sc).
Proof.
  unfold update_ai_service_status.
  apply keeps_bind; [apply keeps_emit|]. intros _.
  apply keeps_try_except; [|intros; apply keeps_ret].
  apply keeps_bind; [apply keeps_time|]. intros now. apply keeps_session.
Qed.

Lemma keeps_save_tags cid data service ms :
  keeps R (save_tags cid data service ms).
Proof.
  unfold save_tags, save_tags_block.
  apply keeps_try_except; [|intros; apply keeps_raise].
  apply keeps_bind; [apply keeps_time|]. intros now. apply keeps_session.
Qed.

Lemma keeps_saving_tags (existing : option History.t) data service start :
  keeps R
    (match existing with
     | Some ex =>
         now <- time_time ;;
         save_tags (History.id ex) data service (now - start)
     | None => ret tt
     end).
Proof.
  destruct existing as [ex|]; [|apply keeps_ret].
  apply keeps_bind; [apply keeps_time|]. intros now. apply keeps_save_tags.
Qed.

Lemma keeps_tagged start existing service (response : string) :
  keeps R
    (match existing with
     | Some ex =>
         now <- time_time ;;
         save_tags (History.id ex) (_parse_tagging_response response) service
           (now - start)
     | None => ret tt
     end ;;;
     now <- time_time ;;
     update_ai_service_status service "active" (Some (now - start)) 0 1 ;;;
     lift (TaggingResponse.make (_parse_tagging_response response))).
Proof.
  apply keeps_bind; [apply keeps_saving_tags|]. intros _.
  apply keeps_bind; [apply keeps_time|]. intros now.
  apply keeps_bind; [apply keeps_status|]. intros _. apply keeps_lift.
Qed.

Lemma keeps_tag_with start existing prompt service :
  keeps R (tag_with start existing prompt service).
Proof.
  unfold tag_with. apply keeps_bind; [apply keeps_call|].
  intros response. apply keeps_tagged.
Qed.

Lemma keeps_tag_locally start existing content :
  keeps R (tag_locally start existing content).
Proof.
  unfold tag_locally. apply keeps_bind; [apply keeps_saving_tags|].
  intros _. apply keeps_ret.
Qed.

End WorldFrames.

Lemma tagging_tiers_ask self content title category analysis start existing w :
  let prompt := _create_tagging_prompt content title category analysis in
  later (with_event w (AiCall (primary_service self) prompt))
    (snd (try_except
            (tag_with start existing prompt (primary_service self))
            (fun e =>
               try_except
                 (tag_with start existing prompt (fallback_service self))
                 (fun fallback_error => tag_locally start existing content))
            w)).
Proof.
  intros prompt.
  pose proof later_refl as L1. pose proof later_trans as L2.
  pose proof later_after_session as L3. pose proof later_with_event as L4.
  pose proof later_after_request as L5.
  set (w1 := with_event w (AiCall (primary_service self) prompt)).
  match goal with |- later _ (snd (try_except _ ?h w)) =>
    change (later w1
              (snd (try_except
                      (bind
                         (if String.eqb (primary_service self) "anthropic" then
                            request (HTTPException 500
                                       "Anthropic API temporarily unavailable")
                          else if String.eqb (primary_service self) "perplexity"
                          then
                            request (HTTPException 500
                                       "Perplexity API temporarily unavailable")
                          else if String.eqb (primary_service self) "openai" then
                            request (HTTPException 500
                                       "AI service temporarily unavailable")
                          else raise (ValueError ("Unsupported AI service: "
                                                  ++ primary_service self)))
                         (fun response =>
                            match existing with
                            | Some ex =>
                                now <- time_time ;;
                                save_tags (History.id ex)
                                  (_parse_tagging_response response)
                                  (primary_service self) (now - start)
                            | None => ret tt
                            end ;;;
                            now <- time_time ;;
                            update_ai_service_status (primary_service self)
                              "active" (Some (now - start)) 0 1 ;;;
                            lift (TaggingResponse.make
                                    (_parse_tagging_response response))))
                      h w1)))
  end.
  apply (keeps_try_except later L2).
  - apply (keeps_bind later L2).
    + apply (keeps_provider later L1 L5).
    + intros response. apply (keeps_tagged later L1 L2 L3 L4).
  - intros e. apply (keeps_try_except later L2).
    + apply (keeps_tag_with later L1 L2 L3 L4 L5).
    + intros e'. apply (keeps_tag_locally later L1 L2 L3).
Qed.

Lemma tagging_tiers_return self content prompt start ex w r w' :
  try_except
    (tag_with start (Some ex) prompt (primary_service self))
    (fun e =>
       try_except
         (tag_with start (Some ex) prompt (fallback_service self))
         (fun fallback_error => tag_locally start (Some ex) content))
    w = (Ok r, w') ->
  map ContentTag.tag (tags_of (db w') (History.id ex))
  = map PStr (TaggingResponse.smart_tags r).
Proof.
  unfold try_except.
  destruct (tag_with _ _ _ (primary_service self) _) as [[r1|e1] w1] eqn:T1.
  - intros H. injection H as <- <-. exact (tag_with_returns _ _ _ _ _ _ _ T1).
  - destruct (tag_with _ _ _ (fallback_service self) _) as [[r2|e2] w2] eqn:T2.
    + intros H. injection H as <- <-.
      exact (tag_with_returns _ _ _ _ _ _ _ T2).
    + apply tag_locally_returns.
Qed.

(** X20.  A tagging that yields no tag is not kept for later calls.  When
    a classification without tags is stored for the content and the
    lookup does not fail, and [generate_smart_tags] returns a response
    without tags, every later [generate_smart_tags] for the same content
    from the world it left asks the first provider again. *)
Theorem generate_smart_tags_empty_not_kept (self : Service)
    (content : string) (title category analysis : option string)
    (w w' : World) (row : ContentClassification.t) (r : TaggingResponse.t) :
  faulty w = false ->
  classification_by_hash (generate_content_hash content) (db w) = Some row ->
  tags_of (db w) (ContentClassification.id row) = [] ->
  generate_smart_tags self content title category analysis w = (Ok r, w') ->
  TaggingResponse.smart_tags r = [] ->
  forall title' category' analysis',
  exists evs,
    calls (trace (snd (generate_smart_tags self content title' category'
                         analysis' w')))
    = (calls (trace w')
       ++ (primary_service self,
           _create_tagging_prompt content title' category' analysis')
       :: evs)%list.
Proof.
  intros Hf Hrow Hnone H Hempty title' category' analysis'.
  assert (C : content_classifications (db w') = content_classifications (db w)).
  { pose proof (generate_smart_tags_classifications self content title
                  category analysis w) as C. now rewrite H in C. }
  assert (T : tags_of (db w') (ContentClassification.id row) = []).
  { revert H. unfold generate_smart_tags, bind, time_time.
    rewrite get_classification_history_run, Hf, Hrow. cbn [option_map].
    unfold has_tags. cbn [History.tags history_of]. rewrite Hnone. cbn [map].
    cbv zeta. intros H.
    apply tagging_tiers_return in H. rewrite Hempty in H.
    cbn [map History.id history_of] in H.
    now apply map_eq_nil in H. }
  unfold generate_smart_tags, bind, time_time.
  rewrite get_classification_history_run.
  assert (N : has_tags
                (if faulty w' then None
                 else option_map (history_of (db w'))
                        (classification_by_hash
                           (generate_content_hash content) (db w'))) = None).
  { destruct (faulty w'); [reflexivity|].
    unfold classification_by_hash in *. rewrite C, Hrow. cbn [option_map].
    unfold has_tags. cbn [History.tags history_of]. now rewrite T. }
  rewrite N.
  match goal with |- context [snd (try_except _ _ ?x)] =>
    destruct (tagging_tiers_ask self content title' category' analysis'
                (clock w')
                (if faulty w' then None
                 else option_map (history_of (db w'))
                        (classification_by_hash
                           (generate_content_hash content) (db w')))
                x) as (_ & _ & evs & E)
  end.
  exists (calls evs). cbv zeta in E. rewrite E.
  cbn [trace with_event after_session]. unfold calls.
  rewrite !flat_map_app. cbn [flat_map]. rewrite <- app_assoc. reflexivity.
Qed.

(** The quarterly report is stored without tags and the first provider
    answers with an empty list of tags. *)
Lemma generate_smart_tags_empty_not_kept_witness :
  let reply :=
    Str.qq "{'smart_tags': [], 'confidence': 0.9, 'semantic_groups': {}, 'related_topics': []}" in
  let w := world store_with_report [] [answer 40 reply] in
  let w' := snd (generate_smart_tags tagging_service quarterly_report
                   None None None w) in
  exists evs,
    calls (trace (snd (generate_smart_tags tagging_service quarterly_report
                         None None None w')))
    = (calls (trace w')
       ++ ("anthropic",
           _create_tagging_prompt quarterly_report None None None)
       :: evs)%list.
Proof.
  intros reply w w'.
  pose (r := {| TaggingResponse.smart_tags := [];
                TaggingResponse.confidence := Finite 0.9;
                TaggingResponse.semantic_groups := [];
                TaggingResponse.related_topics := [] |}).
  pose (row := {| ContentClassification.id := 0;
                  ContentClassification.content_hash :=
                    generate_content_hash quarterly_report;
                  ContentClassification.content_preview := quarterly_report;
                  ContentClassification.category := PStr "01-Projects";
                  ContentClassification.confidence := PFloat (Finite 0.6);
                  ContentClassification.priority := PStr "normal";
                  ContentClassification.status := PStr "active";
                  ContentClassification.complexity := PStr "medium";
                  ContentClassification.estimated_time := PStr "1 hour";
                  ContentClassification.reasoning :=
                    PStr "Rule-based classification fallback";
                  ContentClassification.ai_service_used := "fallback";
                  ContentClassification.created_at := 0;
                  ContentClassification.updated_at := 0 |}).
  assert (H1 : faulty w = false) by (vm_compute; reflexivity).
  assert (H2 : classification_by_hash
                 (generate_content_hash quarterly_report) (db w) = Some row)
    by (vm_compute; reflexivity).
  assert (H3 : tags_of (db w) (ContentClassification.id row) = [])
    by (vm_compute; reflexivity).
  assert (H4 : generate_smart_tags tagging_service quarterly_report
                 None None None w = (Ok r, w'))
    by (vm_compute; reflexivity).
  assert (H5 : TaggingResponse.smart_tags r = []) by reflexivity.
  pose proof (@generate_smart_tags_empty_not_kept tagging_service
                quarterly_report None None None w w' row r) as T.
  specialize (T H1). specialize (T H2). specialize (T H3). specialize (T H4).
  specialize (T H5). exact (T None None None).
Defined.

(** ** The hash of a content *)

(** X21.  The hash of a content is a text of 64 characters, each a digit
    or one of the letters [a] to [f]: it fills the column [content_hash]
    of 64 characters, whatever the length of the content. *)
Theorem generate_content_hash_hex (content : string) :
  String.length (generate_content_hash content) = 64%nat /\
  Forall (fun c => is_lower_hex c = true)
         (chars_of (generate_content_hash content)).
Proof.
  unfold generate_content_hash, Sha256.hexdigest.
  destruct (concat_hex
              (Sha256.digest
                 (map (fun c => Z.of_nat (nat_of_ascii c))
                      (list_ascii_of_string content)))) as [L F].
  rewrite digest_length in L. split; [exact L | exact F].
Qed.

(** ** The preview of a content *)

Lemma len_app a b : Str.len (a ++ b) = (Str.len a + Str.len b)%nat.
Proof.
  induction a as [|c a IH]; [reflexivity|]. cbn [append Str.len].
  rewrite IH. destruct (Str.is_continuation c); reflexivity.
Qed.

Lemma skip_continuation_split s :
  s = fst (Str.skip_continuation s) ++ snd (Str.skip_continuation s) /\
  Str.len (fst (Str.skip_continuation s)) = O.
Proof.
  induction s as [|c s [E L]]; [split; reflexivity|].
  cbn [Str.skip_continuation].
  destruct (Str.is_continuation c) eqn:C; [|split; reflexivity].
  destruct (Str.skip_continuation s) as [a b]. cbn [fst snd] in *.
  split; [cbn [append]; now rewrite <- E|].
  cbn [Str.len]. now rewrite C.
Qed.

Lemma take_prefix n : forall s,
  (Str.len (Str.take n s) <= n)%nat /\ exists rest, s = Str.take n s ++ rest.
Proof.
  induction n as [|n IH]; intros s.
  - destruct s; (split; [apply Nat.le_refl | eexists; reflexivity]).
  - destruct s as [|c r]; [split; [apply Nat.le_0_l | now exists ""]|].
    cbn [Str.take].
    destruct (skip_continuation_split r) as [E L].
    destruct (Str.skip_continuation r) as [cont rest] eqn:S.
    cbn [fst snd] in *.
    destruct (IH rest) as [B [tl P]]. split.
    + cbn [Str.len]. rewrite len_app, L.
      destruct (Str.is_continuation c); cbn [plus]; lia.
    + exists tl. cbn [append]. rewrite append_assoc, <- P, <- E.
      reflexivity.
Qed.

Lemma preview_short content : (Str.len (preview content) <= 503)%nat.
Proof.
  unfold preview. destruct (500 <? Str.len content)%nat eqn:H.
  - rewrite len_app. destruct (take_prefix 500 content) as [B _].
    change (Str.len "...") with 3%nat. lia.
  - apply Nat.ltb_ge in H. lia.
Qed.

Lemma Forall_update_first {A} (P : A -> Prop) (p : A -> bool) (f : A -> A) l :
  (forall x, P x -> P (f x)) -> Forall P l -> Forall P (update_first p f l).
Proof.
  intros H F. induction F as [|x l Px F IH]; simpl; [constructor|].
  destruct (p x); constructor; auto.
Qed.

(** X22.  The preview of a content has at most 503 characters: it is the
    content itself when that has at most 500 characters, and otherwise a
    beginning of the content of at most 500 characters followed by three
    dots.  [save_classification] keeps the previews of the table that
    short: a save that returns gives a new row the preview of its content
    and leaves a row that it updates the preview it has, and a save that
    raises leaves the tables as they were. *)
Theorem save_classification_preview (content : string) (data : pydict)
    (service : string) (ms : Z) (w : World) :
  let run := save_classification content data service ms w in
  let stored d := classification_by_hash (generate_content_hash content) d in
  (Str.len (preview content) <= 503)%nat /\
  ((Str.len content <= 500)%nat -> preview content = content) /\
  ((500 < Str.len content)%nat ->
   exists kept rest,
     content = kept ++ rest /\ (Str.len kept <= 500)%nat /\
     preview content = kept ++ "...") /\
  (previews_short (db w) -> previews_short (db (snd run))) /\
  match fst run with
  | Ok _ =>
      option_map ContentClassification.content_preview (stored (db (snd run)))
      = match stored (db w) with
        | Some old => Some (ContentClassification.content_preview old)
        | None => Some (preview content)
        end
  | Raise _ => db (snd run) = db w
  end.
Proof.
  intros run stored. splits.
  - apply preview_short.
  - intros H. unfold preview. apply Nat.ltb_ge in H. now rewrite H.
  - intros H. unfold preview. apply Nat.ltb_lt in H. rewrite H.
    destruct (take_prefix 500 content) as [B [rest P]].
    exists (Str.take 500 content), rest. auto.
  - subst run. rewrite save_classification_run.
    destruct (faulty w); [auto|].
    unfold save_classification_body, previews_short.
    destruct (classification_by_hash _ (db w)) as [old|] eqn:E.
    + cbn [snd db after_session _log_processing fresh with_logs
           with_classifications content_classifications].
      apply Forall_update_first. auto.
    + destruct (fresh (db w)) as [i d0] eqn:F. unfold fresh in F.
      injection F as <- <-.
      cbn [snd db after_session _log_processing fresh with_logs
           with_classifications content_classifications].
      intros H. apply Forall_app. split; [exact H|].
      constructor; [|constructor].
      cbn [ContentClassification.content_preview]. apply preview_short.
  - subst run stored. cbv beta. rewrite save_classification_run.
    destruct (faulty w); [reflexivity|].
    destruct (save_classification_body _ _ _ _ _ _) as [[i d]|e] eqn:B;
      [|reflexivity].
    cbn [fst snd db after_session].
    revert B. unfold save_classification_body.
    destruct (classification_by_hash _ (db w)) as [old|] eqn:E.
    + intros H. injection H as _ <-.
      unfold classification_by_hash in *.
      cbn [_log_processing fresh with_logs with_classifications
           content_classifications].
      erewrite find_update_first; [reflexivity|exact E|].
      cbn [ContentClassification.content_hash].
      apply find_some in E. apply E.
    + destruct (fresh (db w)) as [j d0] eqn:F. unfold fresh in F.
      injection F as <- <-. intros H. injection H as _ <-.
      unfold classification_by_hash in *.
      cbn [_log_processing fresh with_logs with_classifications
           content_classifications].
      erewrite find_app_new; [reflexivity|exact E|].
      cbn [ContentClassification.content_hash]. apply String.eqb_refl.
Qed.

(** ** Content that was never classified *)

Lemma tagging_tiers_unsaved self content prompt start w :
  exists r,
    fst (try_except
           (tag_with start None prompt (primary_service self))
           (fun e =>
              try_except
                (tag_with start None prompt (fallback_service self))
                (fun fallback_error => tag_locally start None content))
           w) = Ok r /\
    (providers_down w -> r = _fallback_tagging content).
Proof.
  unfold try_except.
  assert (T : forall service w0,
             providers_down w0 ->
             exists e, fst (tag_with start None prompt service w0) = Raise e).
  { intros service w0 P. unfold tag_with, bind.
    destruct (call_run "AI service temporarily unavailable" prompt service w0)
      as (r0 & w1 & -> & _ & _ & _ & _ & D).
    destruct (D P) as [e ->]. cbn [fst]. eauto. }
  assert (L : forall service w0,
             later w0 (snd (tag_with start None prompt service w0))).
  { intros service w0.
    apply (keeps_tag_with later later_refl later_trans later_after_session
             later_with_event later_after_request). }
  pose proof (T (primary_service self) w) as T1.
  pose proof (L (primary_service self) w) as L1.
  destruct (tag_with _ _ _ (primary_service self) w) as [[r1|e1] w1].
  - exists r1. split; [reflexivity|]. intros P.
    destruct (T1 P) as [e E]. discriminate.
  - cbn [snd] in L1.
    pose proof (T (fallback_service self) w1) as T2.
    destruct (tag_with _ _ _ (fallback_service self) w1) as [[r2|e2] w2].
    + exists r2. split; [reflexivity|]. intros P.
      destruct (T2 (providers_down_later _ _ L1 P)) as [e E]. discriminate.
    + exists (_fallback_tagging content). split; reflexivity.
Qed.

Lemma analysis_tiers_unsaved self content prompt start w :
  exists r,
    fst (try_except
           (analyze_with start None prompt (primary_service self))
           (fun e =>
              try_except
                (analyze_with start None prompt (fallback_service self))
                (fun fallback_error => analyze_locally start None content))
           w) = Ok r.
Proof.
  unfold try_except.
  destruct (analyze_with _ _ _ (primary_service self) w) as [[r1|e1] w1];
    [eexists; reflexivity|].
  destruct (analyze_with _ _ _ (fallback_service self) w1) as [[r2|e2] w2];
    [eexists; reflexivity|].
  exists (_fallback_analysis content). reflexivity.
Qed.

(** X23.  For content that has no stored classification, [POST /api/tag]
    and [POST /api/analyze] always answer: whatever the providers do and
    whether the store fails or not, neither raises.  When no provider
    answers, the tags are those of [_fallback_tagging]. *)
Theorem unclassified_content_is_answered (str : exn -> string)
    (tagging_service analysis_service : Service) (content : string)
    (title category analysis context : option string) (w : World) :
  classification_by_hash (generate_content_hash content) (db w) = None ->
  (exists tags,
      fst (Api.generate_tags str tagging_service content title category
             analysis w) = Ok tags /\
      (providers_down w -> tags = _fallback_tagging content)) /\
  (exists result,
      fst (Api.analyze_content str analysis_service content title context w)
      = Ok result).
Proof.
  intros Miss. split.
  - unfold Api.generate_tags, generate_smart_tags, bind, time_time.
    unfold try_except at 1.
    rewrite get_classification_history_run, Miss.
    assert (E : (if faulty w then None
                 else option_map (history_of (db w)) None) = None)
      by (destruct (faulty w); reflexivity).
    rewrite E. cbn [has_tags]. cbv zeta.
    destruct (tagging_tiers_unsaved tagging_service content
                (_create_tagging_prompt content title category analysis)
                (clock w) (after_session w (db w))) as (r & R & P).
    destruct (try_except _ _ _) as [[x|e] w1]; cbn [fst] in *;
      [|discriminate].
    exists x. split; [reflexivity|]. intros D. injection R as ->.
    apply P. exact D.
  - unfold Api.analyze_content, analyze_content, bind, time_time.
    unfold try_except at 1.
    rewrite get_classification_history_run, Miss.
    assert (E : (if faulty w then None
                 else option_map (history_of (db w)) None) = None)
      by (destruct (faulty w); reflexivity).
    rewrite E. cbn [has_analysis]. cbv zeta.
    destruct (analysis_tiers_unsaved analysis_service content
                (_create_analysis_prompt content title context)
                (clock w) (after_session w (db w))) as (r & R).
    destruct (try_except _ _ _) as [[x|e] w1]; cbn [fst] in *;
      [|discriminate].
    exists x. reflexivity.
Qed.

(** A store that fails and providers that do not answer. *)
Lemma unclassified_content_is_answered_witness :
  let w := world empty_database [true; true; true] [] in
  let str := fun _ : exn => "error" in
  fst (Api.generate_tags str tagging_service quarterly_report None None None w)
    = Ok (_fallback_tagging quarterly_report) /\
  exists result,
    fst (Api.analyze_content str analysis_service quarterly_report None None w)
    = Ok result.
Proof.
  intros w str.
  assert (H : classification_by_hash
                (generate_content_hash quarterly_report) (db w) = None)
    by reflexivity.
  assert (P : providers_down w) by (intros r []).
  pose proof (@unclassified_content_is_answered str tagging_service
                analysis_service quarterly_report None None None None w H)
    as T.
  destruct T as ((tags & E & F) & A).
  split; [|exact A]. rewrite E. f_equal. exact (F P).
Defined.
